(** * Weight remapping for MLX: a shallow embedding of
    [remap_weights_for_mlx_unified.py] and [verify_mlx_weights.py].

    Checkpoints are Python dicts from string keys to arrays; they are
    modelled as [gmap string ndarray].  A key is a Python [str]; it is held
    as its UTF-8 bytes, on which splitting at a dot, prefix and substring
    tests against ASCII text and concatenation act as Python does on the
    code points ([str] values with lone surrogates have no UTF-8 form and
    are outside the model).  [isdigit] and [int] decode the bytes and follow
    Python's character classes (Unicode 14.0, the tables of CPython 3.11).
    An array is its shape together with its row-major element
    buffer, which is how a contiguous numpy array is stored.  Elements are
    opaque bit patterns of a single dtype: the code only copies them and
    creates the float32 constants 0.0 and 1.0.  Python exceptions are the
    error side of a result monad. *)

From Stdlib Require Import ZArith Ascii Lia SpecFloat.
From stdpp Require Import base tactics option list numbers strings pretty gmap fin_maps.


(** ** Exceptions and the result monad *)

Inductive exn : Type :=
  | KeyError (key : string)
  | IndexError
  | ValueError
  | TypeError
  | ZeroDivisionError
  | FileNotFoundError
  | JSONDecodeError.

Inductive result (A : Type) : Type :=
  | Ok (a : A)
  | Raise (e : exn).
Arguments Ok {A} a.
Arguments Raise {A} e.

Global Instance result_bind : MBind result := λ A B f r,
  match r with
  | Ok a => f a
  | Raise e => Raise e
  end.

Definition is_ok {A : Type} (r : result A) : bool :=
  match r with Ok _ => true | Raise _ => false end.

(** A test on the value of a computation that did not raise. *)
Definition holds_on {A : Type} (r : result A) (P : A → bool) : bool :=
  match r with Ok a => P a | Raise _ => false end.

(** Monadic left fold: a Python [for] loop whose body may raise. *)
Fixpoint foldM {A S : Type} (f : S → A → result S) (xs : list A) (s : S)
    : result S :=
  match xs with
  | [] => Ok s
  | x :: xs' => s' ← f s x; foldM f xs' s'
  end.

(** ** Arrays *)

(** Float32 bit patterns. *)
Definition elt : Type := Z.
Definition f32_zero : elt := 0%Z.
Definition f32_one : elt := 1065353216%Z.   (* 0x3F800000 *)

Record ndarray : Type := NDArray { shape : list nat; data : list elt }.

Global Instance ndarray_eq_dec : EqDecision ndarray.
Proof. solve_decision. Defined.

Definition numel (sh : list nat) : nat := fold_right Nat.mul 1 sh.

(** The buffer holds exactly the elements the shape describes. *)
Definition wf_array (a : ndarray) : Prop :=
  length (data a) = numel (shape a).

Module Np.

(** [a.shape[i]]: indexing the shape tuple. *)
Definition shape_at (a : ndarray) (i : nat) : result nat :=
  match shape a !! i with
  | Some d => Ok d
  | None => Raise IndexError
  end.

(** [np.ones(n, dtype=np.float32)] and [np.zeros(n, dtype=np.float32)]. *)
Definition ones (n : nat) : ndarray := NDArray [n] (replicate n f32_one).
Definition zeros (n : nat) : ndarray := NDArray [n] (replicate n f32_zero).

(** Row [i] of a row-major buffer with [c] columns. *)
Definition row (c : nat) (d : list elt) (i : nat) : list elt :=
  take c (drop (i * c) d).

(** [np.pad(a, ((0, po), (0, pi)), mode='constant')] on a rank-2 array.
    numpy rejects a negative pad width with ValueError. *)
Definition pad2 (a : ndarray) (r c : nat) (po pi : Z) : result ndarray :=
  if ((po <? 0) || (pi <? 0))%Z then Raise ValueError
  else
    let po' := Z.to_nat po in
    let pi' := Z.to_nat pi in
    Ok (NDArray [(r + po'); (c + pi')]
          (flat_map (fun i => row c (data a) i ++ replicate pi' f32_zero)
                    (seq 0 r)
           ++ replicate (po' * (c + pi')) f32_zero)).

(** [np.pad(a, (0, p), mode='constant')] on a rank-1 array. *)
Definition pad1 (a : ndarray) (p : Z) : result ndarray :=
  if (p <? 0)%Z then Raise ValueError
  else
    match shape a with
    | [n] => Ok (NDArray [(n + Z.to_nat p)]
                   (data a ++ replicate (Z.to_nat p) f32_zero))
    | _ => Raise ValueError
    end.

(** [a[:n, :]]: needs at least two axes. *)
Definition take_rows (n : nat) (a : ndarray) : result ndarray :=
  match shape a with
  | d0 :: d1 :: rest =>
      Ok (NDArray (Nat.min n d0 :: d1 :: rest)
            (take (Nat.min n d0 * numel (d1 :: rest)) (data a)))
  | _ => Raise IndexError
  end.

(** [np.concatenate([a, b], axis=0)]. *)
Definition concatenate0 (a b : ndarray) : result ndarray :=
  match shape a, shape b with
  | da :: ra, db :: rb =>
      if decide (ra = rb)
      then Ok (NDArray ((da + db) :: ra) (data a ++ data b))
      else Raise ValueError
  | _, _ => Raise ValueError
  end.

(** [a.reshape(h, d, -1)]: the free axis is inferred from the size. *)
Definition reshape3 (h d : nat) (a : ndarray) : result ndarray :=
  let n := numel (shape a) in
  if decide ((h * d) = 0) then Raise ValueError
  else if decide (n `mod` (h * d) = 0)
  then Ok (NDArray [h; d; (n / (h * d))] (data a))
  else Raise ValueError.

(** [a.reshape(-1, c)]. *)
Definition reshape2 (c : nat) (a : ndarray) : result ndarray :=
  let n := numel (shape a) in
  if decide (c = 0) then Raise ValueError
  else if decide (n `mod` c = 0)
  then Ok (NDArray [(n / c); c] (data a))
  else Raise ValueError.

(** Block [i] of a buffer cut into blocks of [sz] elements. *)
Definition block (sz : nat) (d : list elt) (i : nat) : list elt :=
  take sz (drop (i * sz) d).

(** [a[:, :n, :]] on a rank-3 array (the only rank it is applied to). *)
Definition take_axis1 (n : nat) (a : ndarray) : result ndarray :=
  match shape a with
  | [h; d; x] =>
      Ok (NDArray [h; Nat.min n d; x]
            (flat_map (fun i => take (Nat.min n d * x) (block (d * x) (data a) i))
                      (seq 0 h)))
  | _ => Raise IndexError
  end.

(** [np.concatenate([a, b], axis=1)] on rank-3 arrays. *)
Definition concatenate1 (a b : ndarray) : result ndarray :=
  match shape a, shape b with
  | [ha; da; xa], [hb; db; xb] =>
      if decide (ha = hb ∧ xa = xb)
      then Ok (NDArray [ha; (da + db); xa]
                 (flat_map (fun i => block (da * xa) (data a) i
                                     ++ block (db * xb) (data b) i)
                           (seq 0 ha)))
      else Raise ValueError
  | _, _ => Raise ValueError
  end.

(** [np.stack(arrays)] for a non-empty list: all shapes must agree. *)
Definition stack (arrays : list ndarray) : result ndarray :=
  match arrays with
  | [] => Raise ValueError
  | a0 :: _ =>
      if forallb (fun a => bool_decide (shape a = shape a0)) arrays
      then Ok (NDArray (length arrays :: shape a0)
                 (flat_map data arrays))
      else Raise ValueError
  end.

End Np.

(** ** [pad_weight] *)

(** Index into the target-shape tuple. *)
Definition tuple_at (t : list nat) (i : nat) : result nat :=
  match t !! i with
  | Some d => Ok d
  | None => Raise IndexError
  end.

Definition pad_weight (weight_np : ndarray) (target_shape : list nat)
    : result ndarray :=
  if decide (shape weight_np = target_shape) then Ok weight_np
  else
    match shape weight_np with
    | [r; c] =>
        t0 ← tuple_at target_shape 0;
        let pad_out := (Z.of_nat t0 - Z.of_nat r)%Z in
        t1 ← tuple_at target_shape 1;
        let pad_in := (Z.of_nat t1 - Z.of_nat c)%Z in
        if ((0 <? pad_out) || (0 <? pad_in))%Z
        then Np.pad2 weight_np r c pad_out pad_in
        else Ok weight_np
    | [n] =>
        t0 ← tuple_at target_shape 0;
        let pad_amt := (Z.of_nat t0 - Z.of_nat n)%Z in
        if (0 <? pad_amt)%Z then Np.pad1 weight_np pad_amt
        else Ok weight_np
    | _ => Ok weight_np
    end.

Example pad_weight_ex1 :
  pad_weight (NDArray [2; 2] [1; 2; 3; 4]%Z) [3; 3]
  = Ok (NDArray [3; 3] [1; 2; 0; 3; 4; 0; 0; 0; 0]%Z).
Proof. reflexivity. Qed.

(** ** Python string operations used on keys *)

Module Py.

(** [s.startswith(p)] *)
Fixpoint startswith (p s : string) : bool :=
  match p, s with
  | EmptyString, _ => true
  | String _ _, EmptyString => false
  | String c p', String d s' => bool_decide (c = d) && startswith p' s'
  end.

(** [sub in s] *)
Fixpoint contains (sub s : string) : bool :=
  startswith sub s ||
  match s with
  | EmptyString => false
  | String _ s' => contains sub s'
  end.

(** [s.split(sep)] for a one-character separator: never empty. *)
Fixpoint split (sep : ascii) (s : string) : list string :=
  match s with
  | EmptyString => [EmptyString]
  | String c s' =>
      if decide (c = sep) then EmptyString :: split sep s'
      else match split sep s' with
           | w :: ws => String c w :: ws
           | [] => [String c EmptyString]
           end
  end.

(** *** Code points

    A [str] is held as its UTF-8 bytes.  [decode] gives its code points;
    [None] stands for bytes that encode no code point, which no [str]
    contains. *)

Definition byte (c : ascii) : N := N_of_ascii c.

Definition is_cont (c : ascii) : bool :=
  ((128 <=? byte c) && (byte c <? 192))%N.

Definition decode2 (a b : ascii) : option N :=
  if ((194 <=? byte a) && (byte a <? 224))%N && is_cont b
  then Some ((byte a - 192) * 64 + (byte b - 128))%N
  else None.

Definition decode3 (a b c : ascii) : option N :=
  if ((224 <=? byte a) && (byte a <? 240))%N && is_cont b && is_cont c
  then
    let p := ((byte a - 224) * 4096 + (byte b - 128) * 64 + (byte c - 128))%N in
    if ((2048 <=? p) && negb ((0xD800 <=? p) && (p <=? 0xDFFF)))%N
    then Some p else None
  else None.

Definition decode4 (a b c d : ascii) : option N :=
  if ((240 <=? byte a) && (byte a <? 245))%N
     && is_cont b && is_cont c && is_cont d
  then
    let p := ((byte a - 240) * 262144 + (byte b - 128) * 4096
              + (byte c - 128) * 64 + (byte d - 128))%N in
    if ((0x10000 <=? p) && (p <=? 0x10FFFF))%N then Some p else None
  else None.

Fixpoint decode (s : string) : list (option N) :=
  match s with
  | EmptyString => []
  | String a s1 =>
      if (byte a <? 128)%N then Some (byte a) :: decode s1
      else
        match s1 with
        | String b s2 =>
            match decode2 a b with
            | Some p => Some p :: decode s2
            | None =>
                match s2 with
                | String c s3 =>
                    match decode3 a b c with
                    | Some p => Some p :: decode s3
                    | None =>
                        match s3 with
                        | String d s4 =>
                            match decode4 a b c d with
                            | Some p => Some p :: decode s4
                            | None => None :: decode s1
                            end
                        | EmptyString => None :: decode s1
                        end
                    end
                | EmptyString => None :: decode s1
                end
            end
        | EmptyString => [None]
        end
  end.

Definition in_ranges (t : list (N * N)) (p : N) : bool :=
  existsb (λ r, (r.1 <=? p) && (p <=? r.2))%N t.

(** Decimal digits beyond ASCII (general category Nd, Unicode 14.0).
    Every range is made of whole runs of the ten digits 0 to 9. *)
Definition decimal_ranges : list (N * N) :=
  [ (0x660, 0x669); (0x6F0, 0x6F9); (0x7C0, 0x7C9); (0x966, 0x96F);
    (0x9E6, 0x9EF); (0xA66, 0xA6F); (0xAE6, 0xAEF); (0xB66, 0xB6F);
    (0xBE6, 0xBEF); (0xC66, 0xC6F); (0xCE6, 0xCEF); (0xD66, 0xD6F);
    (0xDE6, 0xDEF); (0xE50, 0xE59); (0xED0, 0xED9); (0xF20, 0xF29);
    (0x1040, 0x1049); (0x1090, 0x1099); (0x17E0, 0x17E9); (0x1810, 0x1819);
    (0x1946, 0x194F); (0x19D0, 0x19D9); (0x1A80, 0x1A89); (0x1A90, 0x1A99);
    (0x1B50, 0x1B59); (0x1BB0, 0x1BB9); (0x1C40, 0x1C49); (0x1C50, 0x1C59);
    (0xA620, 0xA629); (0xA8D0, 0xA8D9); (0xA900, 0xA909); (0xA9D0, 0xA9D9);
    (0xA9F0, 0xA9F9); (0xAA50, 0xAA59); (0xABF0, 0xABF9); (0xFF10, 0xFF19);
    (0x104A0, 0x104A9); (0x10D30, 0x10D39); (0x11066, 0x1106F); (0x110F0, 0x110F9);
    (0x11136, 0x1113F); (0x111D0, 0x111D9); (0x112F0, 0x112F9); (0x11450, 0x11459);
    (0x114D0, 0x114D9); (0x11650, 0x11659); (0x116C0, 0x116C9); (0x11730, 0x11739);
    (0x118E0, 0x118E9); (0x11950, 0x11959); (0x11C50, 0x11C59); (0x11D50, 0x11D59);
    (0x11DA0, 0x11DA9); (0x16A60, 0x16A69); (0x16AC0, 0x16AC9); (0x16B50, 0x16B59);
    (0x1D7CE, 0x1D7FF); (0x1E140, 0x1E149); (0x1E2F0, 0x1E2F9); (0x1E950, 0x1E959);
    (0x1FBF0, 0x1FBF9) ]%N.

(** Characters that are digits without being decimal digits:
    superscripts, subscripts, circled digits and the like. *)
Definition digit_ranges : list (N * N) :=
  [ (0xB2, 0xB3); (0xB9, 0xB9); (0x1369, 0x1371); (0x19DA, 0x19DA);
    (0x2070, 0x2070); (0x2074, 0x2079); (0x2080, 0x2089); (0x2460, 0x2468);
    (0x2474, 0x247C); (0x2488, 0x2490); (0x24EA, 0x24EA); (0x24F5, 0x24FD);
    (0x24FF, 0x24FF); (0x2776, 0x277E); (0x2780, 0x2788); (0x278A, 0x2792);
    (0x10A40, 0x10A43); (0x10E60, 0x10E68); (0x11052, 0x1105A); (0x1F100, 0x1F10A) ]%N.

(** Whitespace beyond ASCII. *)
Definition space_ranges : list (N * N) :=
  [ (0x85, 0x85); (0xA0, 0xA0); (0x1680, 0x1680); (0x2000, 0x200A);
    (0x2028, 0x2029); (0x202F, 0x202F); (0x205F, 0x205F); (0x3000, 0x3000) ]%N.

(** The decimal value of a code point, if it is a decimal digit. *)
Definition to_decimal (p : N) : option N :=
  if ((48 <=? p) && (p <=? 57))%N then Some (p - 48)%N
  else (λ r, ((p - r.1) mod 10)%N)
       <$> List.find (λ r, (r.1 <=? p) && (p <=? r.2))%N decimal_ranges.

Definition is_decimal_char (o : option N) : bool :=
  match o with
  | Some p => bool_decide (is_Some (to_decimal p))
  | None => false
  end.

Definition is_digit_char (o : option N) : bool :=
  is_decimal_char o ||
  match o with
  | Some p => in_ranges digit_ranges p
  | None => false
  end.

(** [s.isdecimal()] and [s.isdigit()]: at least one character, and every
    character of the class. *)
Definition isdecimal (s : string) : bool :=
  match decode s with
  | [] => false
  | ps => forallb is_decimal_char ps
  end.

Definition isdigit (s : string) : bool :=
  match decode s with
  | [] => false
  | ps => forallb is_digit_char ps
  end.

Definition is_digit (c : ascii) : bool :=
  let n := nat_of_ascii c in (48 <=? n) && (n <=? 57).

Definition digit_val (c : ascii) : Z := Z.of_nat (nat_of_ascii c - 48).

(** A run of ASCII digits. *)
Fixpoint all_digits (s : string) : bool :=
  match s with
  | EmptyString => true
  | String c s' => is_digit c && all_digits s'
  end.

(** What [int] does to its argument first: whitespace beyond ASCII
    becomes a space and a decimal digit its ASCII digit; at any other
    character from 127 on the text ends in a question mark. *)
Fixpoint ascii_form (ps : list (option N)) : string :=
  match ps with
  | [] => EmptyString
  | Some p :: ps' =>
      if (p <? 127)%N then String (ascii_of_N p) (ascii_form ps')
      else if in_ranges space_ranges p then String " "%char (ascii_form ps')
      else match to_decimal p with
           | Some d => String (ascii_of_N (48 + d)) (ascii_form ps')
           | None => String "?"%char EmptyString
           end
  | None :: _ => String "?"%char EmptyString
  end.

(** ASCII characters that [int] strips: tab, LF, VT, FF, CR and space. *)
Definition is_space (c : ascii) : bool :=
  let n := nat_of_ascii c in
  ((9 <=? n) && (n <=? 13)) || (n =? 32).

Fixpoint lstrip (s : string) : string :=
  match s with
  | EmptyString => EmptyString
  | String c s' => if is_space c then lstrip s' else s
  end.

Definition strip (s : string) : string :=
  String.rev (lstrip (String.rev (lstrip s))).

(** Digits after a first digit; a single underscore may separate two
    digits. *)
Fixpoint int_digits (acc : Z) (s : string) : option Z :=
  match s with
  | EmptyString => Some acc
  | String c s' =>
      if is_digit c then int_digits (acc * 10 + digit_val c) s'
      else if decide (c = "_"%char) then
        match s' with
        | String d s'' =>
            if is_digit d then int_digits (acc * 10 + digit_val d) s''
            else None
        | EmptyString => None
        end
      else None
  end.

Definition int_unsigned (s : string) : option Z :=
  match s with
  | String c s' => if is_digit c then int_digits (digit_val c) s' else None
  | EmptyString => None
  end.

(** [int(s)]: base-10 literal, surrounding whitespace and a sign
    allowed; anything else raises ValueError.  The limit on the number of
    digits ([sys.set_int_max_str_digits]) is a setting of the interpreter
    and is not part of the model. *)
Definition int (s : string) : result Z :=
  let body := strip (ascii_form (decode s)) in
  let parsed :=
    match body with
    | String "+"%char s' => int_unsigned s'
    | String "-"%char s' => Z.opp <$> int_unsigned s'
    | _ => int_unsigned body
    end in
  match parsed with
  | Some z => Ok z
  | None => Raise ValueError
  end.

(** [l[i]] on a list. *)
Definition getitem {A : Type} (l : list A) (i : nat) : result A :=
  match l !! i with
  | Some x => Ok x
  | None => Raise IndexError
  end.

(** [max(l)] on a non-empty list of ints. *)
Definition max (l : list Z) : result Z :=
  match l with
  | [] => Raise ValueError
  | x :: xs => Ok (foldl Z.max x xs)
  end.

(** A list comprehension whose element expression may raise. *)
Fixpoint comprehension {A B : Type} (f : A → result B) (l : list A)
    : result (list B) :=
  match l with
  | [] => Ok []
  | x :: xs => y ← f x; ys ← comprehension f xs; Ok (y :: ys)
  end.

(** [str(i)] for a non-negative int. *)
Definition str (i : nat) : string := pretty i.

(** [range(n)] *)
Definition range (n : Z) : list nat := seq 0 (Z.to_nat n).

End Py.

Example split_ex : Py.split "."%char "h.12.mlp.w" = ["h"; "12"; "mlp"; "w"].
Proof. reflexivity. Qed.
Example int_ex1 : Py.int " +1_0 " = Ok 10%Z.
Proof. reflexivity. Qed.
Example int_ex2 : Py.int "1__0" = Raise ValueError.
Proof. reflexivity. Qed.
Example int_ex3 : Py.int "abc" = Raise ValueError.
Proof. reflexivity. Qed.
Example str_ex : Py.str 120 = "120".
Proof. reflexivity. Qed.

(** ** Checkpoints *)

(** [d[k]]: KeyError when the key is absent. *)
Definition dict_get (d : gmap string ndarray) (k : string) : result ndarray :=
  match d !! k with
  | Some w => Ok w
  | None => Raise (KeyError k)
  end.

(** [d.keys()] *)
Definition dict_keys (d : gmap string ndarray) : list string :=
  (map_to_list d).*1.

(** [len(d)] *)
Definition dict_len (d : gmap string ndarray) : nat := size d.

Global Instance wf_array_dec (a : ndarray) : Decision (wf_array a).
Proof. unfold wf_array. apply _. Defined.

Definition wf_dict (d : gmap string ndarray) : Prop :=
  map_Forall (λ _ w, wf_array w) d.

Global Instance wf_dict_dec (d : gmap string ndarray) : Decision (wf_dict d).
Proof. unfold wf_dict. apply _. Defined.

(** ** Attribute discovery (lines 56-82) *)

Definition detect_num_layers (state_dict : gmap string ndarray) : result Z :=
  let layer_keys := List.filter (Py.startswith "h.") (dict_keys state_dict) in
  match layer_keys with
  | [] => Ok 0%Z
  | _ =>
      idx ← Py.comprehension
               (λ k, c ← Py.getitem (Py.split "."%char k) 1; Py.int c)
               layer_keys;
      m ← Py.max idx;
      Ok (m + 1)%Z
  end.

Definition is_expert_key (k : string) : bool :=
  Py.contains "mlp.experts." k
  && (4 <? length (Py.split "."%char k))
  && match Py.split "."%char k !! 4 with
     | Some c => Py.isdigit c
     | None => false
     end.

Definition detect_num_experts (state_dict : gmap string ndarray) : result Z :=
  let expert_keys := List.filter is_expert_key (dict_keys state_dict) in
  match expert_keys with
  | [] => Ok 0%Z
  | _ =>
      idx ← Py.comprehension
               (λ k, c ← Py.getitem (Py.split "."%char k) 4; Py.int c)
               expert_keys;
      m ← Py.max idx;
      Ok (m + 1)%Z
  end.

Definition routed_expert_key : string := "h.0.mlp.experts.0.gate_proj.weight".
Definition shared_expert_key : string := "h.0.mlp.shared_expert.gate_proj.weight".

Definition detect_routed_size (state_dict : gmap string ndarray) : result nat :=
  match state_dict !! routed_expert_key with
  | Some w => Np.shape_at w 0
  | None => Ok 512
  end.

Definition detect_shared_size (state_dict : gmap string ndarray) : result nat :=
  match state_dict !! shared_expert_key with
  | Some w => Np.shape_at w 0
  | None => Ok 768
  end.

Definition unified_of (routed_size shared_size : nat) : nat :=
  Nat.max routed_size shared_size.

(** ** Remapping (lines 84-262) *)

(** The destination mapping under construction and [mapped_count]. *)
Definition acc : Type := gmap string ndarray * nat.

(** [mlx_weights[new] = w; mapped_count += 1] *)
Definition store (new : string) (w : ndarray) (st : acc) : acc :=
  (<[new := w]> st.1, S st.2).

(** [if old in state_dict: mlx_weights[new] = state_dict[old].numpy();
    mapped_count += 1] *)
Definition copy_if_present (state_dict : gmap string ndarray)
    (old new : string) (st : acc) : acc :=
  match state_dict !! old with
  | Some w => store new w st
  | None => st
  end.

Definition prefix_old (i : nat) : string := "h." +:+ Py.str i.
Definition prefix_new (i : nat) : string := "model.layers." +:+ Py.str i.

Definition simple_attn_mappings (i : nat) : list (string * string) :=
  [ (prefix_old i +:+ ".attn.q_proj.weight",
     prefix_new i +:+ ".self_attn.q_a_proj.weight");
    (prefix_old i +:+ ".attn.q_decompress.weight",
     prefix_new i +:+ ".self_attn.q_b_proj.weight");
    (prefix_old i +:+ ".attn.kv_norm.weight",
     prefix_new i +:+ ".self_attn.kv_a_layernorm.weight") ].

Definition q_lora_rank : nat := 192.

(** Lines 136-143: [kv_proj] followed by the first 32 rows of
    [k_rope_proj]. *)
Definition kv_a_combine (kv_proj k_rope_proj : ndarray) : result ndarray :=
  k_rope_head ← Np.take_rows 32 k_rope_proj;
  Np.concatenate0 kv_proj k_rope_head.

Definition num_heads : nat := 8.
Definition head_dim : nat := 64.
Definition nope_dim : nat := 32.

(** Lines 155-175: per head, the first [nope_dim] rows of [k_decompress]
    followed by all rows of [v_decompress]. *)
Definition kv_b_combine (k_decompress v_decompress : ndarray)
    : result ndarray :=
  k_per_head ← Np.reshape3 num_heads head_dim k_decompress;
  v_per_head ← Np.reshape3 num_heads head_dim v_decompress;
  k_nope ← Np.take_axis1 nope_dim k_per_head;
  combined ← Np.concatenate1 k_nope v_per_head;
  Np.reshape2 128 combined.

(** [np.zeros(n, dtype=np.float32)] with an int argument. *)
Definition np_zeros (n : Z) : result ndarray :=
  if (n <? 0)%Z then Raise ValueError else Ok (Np.zeros (Z.to_nat n)).

Definition expert_key (i j : nat) (proj : string) : string :=
  prefix_old i +:+ ".mlp.experts." +:+ Py.str j +:+ proj.

(** [if key in state_dict: lst.append(pad_weight(state_dict[key].numpy(),
    target))] *)
Definition append_padded (state_dict : gmap string ndarray) (key : string)
    (target : list nat) (lst : list ndarray) : result (list ndarray) :=
  match state_dict !! key with
  | Some w => p ← pad_weight w target; Ok (lst ++ [p])
  | None => Ok lst
  end.

(** Body of the loop over experts (lines 206-225). *)
Definition collect_expert (state_dict : gmap string ndarray)
    (unified_size hidden_size i : nat)
    (lists : list ndarray * list ndarray * list ndarray) (j : nat)
    : result (list ndarray * list ndarray * list ndarray) :=
  let '(gate_proj_experts, up_proj_experts, down_proj_experts) := lists in
  g ← append_padded state_dict (expert_key i j ".gate_proj.weight")
        [unified_size; hidden_size] gate_proj_experts;
  u ← append_padded state_dict (expert_key i j ".up_proj.weight")
        [unified_size; hidden_size] up_proj_experts;
  d ← append_padded state_dict (expert_key i j ".down_proj.weight")
        [hidden_size; unified_size] down_proj_experts;
  Ok (g, u, d).

(** [if lst: mlx_weights[new] = np.stack(lst); mapped_count += 1] *)
Definition stack_if_any (new : string) (lst : list ndarray) (st : acc)
    : result acc :=
  match lst with
  | [] => Ok st
  | _ => s ← Np.stack lst; Ok (store new s st)
  end.

(** Lines 241-248: guarded by the gate key only. *)
Definition copy_shared_expert (state_dict : gmap string ndarray) (i : nat)
    (st : acc) : result acc :=
  match state_dict !! (prefix_old i +:+ ".mlp.shared_expert.gate_proj.weight") with
  | Some g =>
      let m := <[prefix_new i +:+ ".mlp.shared_experts.gate_proj.weight" := g]> st.1 in
      u ← dict_get state_dict (prefix_old i +:+ ".mlp.shared_expert.up_proj.weight");
      let m := <[prefix_new i +:+ ".mlp.shared_experts.up_proj.weight" := u]> m in
      d ← dict_get state_dict (prefix_old i +:+ ".mlp.shared_expert.down_proj.weight");
      let m := <[prefix_new i +:+ ".mlp.shared_experts.down_proj.weight" := d]> m in
      Ok (m, st.2 + 3)
  | None => Ok st
  end.

(** Lines 132-145. *)
Definition remap_kv_a (state_dict : gmap string ndarray) (i : nat) (st : acc)
    : result acc :=
  match state_dict !! (prefix_old i +:+ ".attn.kv_proj.weight"),
        state_dict !! (prefix_old i +:+ ".attn.k_rope_proj.weight") with
  | Some kv_proj, Some k_rope_proj =>
      kv_a_proj_combined ← kv_a_combine kv_proj k_rope_proj;
      Ok (store (prefix_new i +:+ ".self_attn.kv_a_proj_with_mqa.weight")
                kv_a_proj_combined st)
  | _, _ => Ok st
  end.

(** Lines 151-177. *)
Definition remap_kv_b (state_dict : gmap string ndarray) (i : nat) (st : acc)
    : result acc :=
  match state_dict !! (prefix_old i +:+ ".attn.k_decompress.weight"),
        state_dict !! (prefix_old i +:+ ".attn.v_decompress.weight") with
  | Some k_decompress, Some v_decompress =>
      kv_b_combined ← kv_b_combine k_decompress v_decompress;
      Ok (store (prefix_new i +:+ ".self_attn.kv_b_proj.weight")
                kv_b_combined st)
  | _, _ => Ok st
  end.

(** Lines 200-238. *)
Definition remap_experts (state_dict : gmap string ndarray)
    (num_experts : Z) (unified_size : nat) (i : nat) (st : acc)
    : result acc :=
  wte ← dict_get state_dict "wte.weight";
  hidden_size ← Np.shape_at wte 1;
  '(gate_proj_experts, up_proj_experts, down_proj_experts) ←
     foldM (collect_expert state_dict unified_size hidden_size i)
           (Py.range num_experts) ([], [], []);
  st ← stack_if_any (prefix_new i +:+ ".mlp.switch_mlp.gate_proj.weight")
         gate_proj_experts st;
  st ← stack_if_any (prefix_new i +:+ ".mlp.switch_mlp.up_proj.weight")
         up_proj_experts st;
  stack_if_any (prefix_new i +:+ ".mlp.switch_mlp.down_proj.weight")
    down_proj_experts st.

(** Lines 100-127: layer norms, the simple attention mappings and the
    synthesised [q_a_layernorm]. *)
Definition remap_norms (state_dict : gmap string ndarray) (i : nat) (st : acc)
    : acc :=
  let st := copy_if_present state_dict
              (prefix_old i +:+ ".ln_1.weight")
              (prefix_new i +:+ ".input_layernorm.weight") st in
  let st := copy_if_present state_dict
              (prefix_old i +:+ ".ln_2.weight")
              (prefix_new i +:+ ".post_attention_layernorm.weight") st in
  let st := foldl (λ st on, copy_if_present state_dict on.1 on.2 st)
              st (simple_attn_mappings i) in
  store (prefix_new i +:+ ".self_attn.q_a_layernorm.weight")
    (Np.ones q_lora_rank) st.

(** Lines 179-194: output projection, router and the synthesised
    [e_score_correction_bias]. *)
Definition remap_gate (state_dict : gmap string ndarray) (num_experts : Z)
    (i : nat) (st : acc) : result acc :=
  let st := copy_if_present state_dict
              (prefix_old i +:+ ".attn.o_proj.weight")
              (prefix_new i +:+ ".self_attn.o_proj.weight") st in
  let st := copy_if_present state_dict
              (prefix_old i +:+ ".mlp.router.weight")
              (prefix_new i +:+ ".mlp.gate.weight") st in
  bias ← np_zeros num_experts;
  Ok (store (prefix_new i +:+ ".mlp.gate.e_score_correction_bias") bias st).

(** Body of the loop over layers (lines 96-248). *)
Definition remap_layer (state_dict : gmap string ndarray)
    (num_experts : Z) (unified_size : nat) (st : acc) (i : nat)
    : result acc :=
  let st := remap_norms state_dict i st in
  st ← remap_kv_a state_dict i st;
  st ← remap_kv_b state_dict i st;
  st ← remap_gate state_dict num_experts i st;
  st ← remap_experts state_dict num_experts unified_size i st;
  copy_shared_expert state_dict i st.

(** Step [3/5]: the whole destination mapping (lines 86-262). *)
Definition remap_names (state_dict : gmap string ndarray)
    (num_layers num_experts : Z) (unified_size : nat) : result acc :=
  let st : acc := (∅, 0) in
  let st := copy_if_present state_dict
              "wte.weight" "model.embed_tokens.weight" st in
  st ← foldM (remap_layer state_dict num_experts unified_size)
         (Py.range num_layers) st;
  let st := copy_if_present state_dict "ln_f.weight" "model.norm.weight" st in
  let st := copy_if_present state_dict "lm_head.weight" "lm_head.weight" st in
  Ok st.

(** ** The whole run *)

(** A JSON value as [json.load] returns it: an int, a float, a bool, a
    str, [None], a list or a dict. *)
#[warnings="-register-all"] Inductive jvalue : Type :=
  | JInt (z : Z)
  | JFloat (f : spec_float)
  | JBool (b : bool)
  | JStr (s : string)
  | JNull
  | JList (l : list jvalue)
  | JDict (m : gmap string jvalue).

Record metadata : Type := Metadata {
  source_file : string;
  md_num_layers : Z;
  md_num_experts : Z;
  routed_intermediate_size : nat;
  shared_intermediate_size : nat;
  unified_intermediate_size : nat;
  total_weights : nat;
  padding_applied : bool
}.

(** What a run leaves on disk, in the order it is written. *)
Inductive output : Type :=
  | WeightsFile (w : gmap string ndarray)
  | ConfigFile (c : gmap string jvalue)
  | MetadataFile (m : metadata).

(** A file the run reads. *)
Inductive file (A : Type) : Type :=
  | Missing
  | Unparsable
  | Holds (a : A).
Arguments Missing {A}.
Arguments Unparsable {A}.
Arguments Holds {A} a.

(** Everything computed before the first write (lines 48-267). *)
Record plan : Type := Plan {
  p_num_layers : Z;
  p_num_experts : Z;
  p_routed_size : nat;
  p_shared_size : nat;
  p_unified_size : nat;
  p_mlx_weights : gmap string ndarray;
  p_mapped_count : nat
}.

Definition remap_plan (state_dict : gmap string ndarray) : result plan :=
  num_layers ← detect_num_layers state_dict;
  num_experts ← detect_num_experts state_dict;
  routed_size ← detect_routed_size state_dict;
  shared_size ← detect_shared_size state_dict;
  let unified_size := unified_of routed_size shared_size in
  st ← remap_names state_dict num_layers num_experts unified_size;
  (* "Mapping rate": len(mlx_weights) / len(state_dict) * 100 *)
  if decide (dict_len state_dict = 0) then Raise ZeroDivisionError
  else Ok (Plan num_layers num_experts routed_size shared_size unified_size
             st.1 st.2).

Definition plan_metadata (input_path : string) (p : plan) : metadata :=
  {| source_file := input_path;
     md_num_layers := p_num_layers p;
     md_num_experts := p_num_experts p;
     routed_intermediate_size := p_routed_size p;
     shared_intermediate_size := p_shared_size p;
     unified_intermediate_size := p_unified_size p;
     total_weights := dict_len (p_mlx_weights p);
     padding_applied := negb (p_routed_size p =? p_unified_size p) |}.

(** [remap_weights(input_path)]: the files written, and how the run ended.
    [input_file] is what [torch.load] finds at [input_path]; [config_file]
    is the [config.json] already in the output directory, which may parse
    to any JSON value. *)
Definition remap_weights (input_path : string)
    (input_file : option (gmap string ndarray))
    (config_file : file jvalue)
    : list output * result unit :=
  match input_file with
  | None => ([], Raise FileNotFoundError)
  | Some state_dict =>
      match remap_plan state_dict with
      | Raise e => ([], Raise e)
      | Ok p =>
          let written := [WeightsFile (p_mlx_weights p)] in
          match config_file with
          | Missing => (written, Raise FileNotFoundError)
          | Unparsable => (written, Raise JSONDecodeError)
          | Holds (JDict config) =>
              let config := <["moe_intermediate_size" := JInt (Z.of_nat (p_unified_size p))]> config in
              let config := <["n_shared_experts" := JInt 1]> config in
              (written ++ [ConfigFile config;
                           MetadataFile (plan_metadata input_path p)],
               Ok ())
          | Holds _ =>
              (* [config["moe_intermediate_size"] = ...] on a value that is
                 not a dict *)
              (written, Raise TypeError)
          end
      end
  end.

(** ** The verifier ([verify_mlx_weights.py]) *)

(** [for key in required: if key not in weights: missing.append(key)] *)
Definition check_required (weights : gmap string ndarray)
    (required missing : list string) : list string :=
  missing ++ List.filter (λ key, bool_decide (weights !! key = None)) required.

(** Lines 39-77: the keys required of layer [i]; [shared] is the value of
    [config['n_shared_experts'] > 0]. *)
Definition layer_required (shared : bool) (i : nat) : list string :=
  let prefix := "model.layers." +:+ Py.str i in
  let required :=
    [ prefix +:+ ".input_layernorm.weight";
      prefix +:+ ".post_attention_layernorm.weight" ] in
  let required := required ++
    [ prefix +:+ ".self_attn.q_a_proj.weight";
      prefix +:+ ".self_attn.q_a_layernorm.weight";
      prefix +:+ ".self_attn.q_b_proj.weight";
      prefix +:+ ".self_attn.kv_a_proj_with_mqa.weight";
      prefix +:+ ".self_attn.kv_a_layernorm.weight";
      prefix +:+ ".self_attn.kv_b_proj.weight";
      prefix +:+ ".self_attn.o_proj.weight" ] in
  let required := required ++
    [ prefix +:+ ".mlp.gate.weight";
      prefix +:+ ".mlp.gate.e_score_correction_bias" ] in
  let required := required ++
    [ prefix +:+ ".mlp.switch_mlp.gate_proj.weight";
      prefix +:+ ".mlp.switch_mlp.up_proj.weight";
      prefix +:+ ".mlp.switch_mlp.down_proj.weight" ] in
  if shared then
    required ++
    [ prefix +:+ ".mlp.shared_experts.gate_proj.weight";
      prefix +:+ ".mlp.shared_experts.up_proj.weight";
      prefix +:+ ".mlp.shared_experts.down_proj.weight" ]
  else required.

(** The [missing] list built by [verify_weights] (lines 29-90), for
    integer config values [num_hidden_layers] and [n_shared_experts]. *)
Definition verify_missing (num_hidden_layers n_shared_experts : Z)
    (weights : gmap string ndarray) : list string :=
  let missing := check_required weights ["model.embed_tokens.weight"] [] in
  let missing :=
    foldl (λ missing i,
             check_required weights
               (layer_required (0 <? n_shared_experts)%Z i) missing)
          missing (Py.range num_hidden_layers) in
  check_required weights ["model.norm.weight"; "lm_head.weight"] missing.

(** [json.load] on a file. *)
Definition json_load (f : file jvalue) : result jvalue :=
  match f with
  | Missing => Raise FileNotFoundError
  | Unparsable => Raise JSONDecodeError
  | Holds v => Ok v
  end.

(** [config[key]]: only a dict takes a string key. *)
Definition json_getitem (config : jvalue) (key : string) : result jvalue :=
  match config with
  | JDict m =>
      match m !! key with
      | Some v => Ok v
      | None => Raise (KeyError key)
      end
  | _ => Raise TypeError
  end.

(** [range(v)]: an int, or a bool, which Python counts as 0 or 1. *)
Definition json_range (v : jvalue) : result (list nat) :=
  match v with
  | JInt z => Ok (Py.range z)
  | JBool b => Ok (Py.range (Z.b2z b))
  | _ => Raise TypeError
  end.

Definition float_positive (f : spec_float) : bool :=
  match f with
  | S754_infinity false | S754_finite false _ _ => true
  | _ => false
  end.

(** [v > 0]: defined on numbers only. *)
Definition json_gt_zero (v : jvalue) : result bool :=
  match v with
  | JInt z => Ok (0 <? z)%Z
  | JFloat f => Ok (float_positive f)
  | JBool b => Ok b
  | _ => Raise TypeError
  end.

(** Lines 29-90 on the parsed config, whatever its fields hold. *)
Definition verify_missing_of (config : jvalue)
    (weights : gmap string ndarray) : result (list string) :=
  let missing := check_required weights ["model.embed_tokens.weight"] [] in
  num_hidden_layers ← json_getitem config "num_hidden_layers";
  layers ← json_range num_hidden_layers;
  missing ←
    foldM (λ missing i,
             n_shared_experts ← json_getitem config "n_shared_experts";
             shared ← json_gt_zero n_shared_experts;
             Ok (check_required weights (layer_required shared i) missing))
          layers missing;
  Ok (check_required weights ["model.norm.weight"; "lm_head.weight"] missing).

(** [verify_weights()].  [config_file] is [config.json]; [weights] is what
    [load_file] returns for [weights.safetensors].  The summary (lines
    22-27) reads five fields of the config before anything is checked. *)
Definition verify_weights (config_file : file jvalue)
    (weights : gmap string ndarray) : result bool :=
  config ← json_load config_file;
  _ ← json_getitem config "num_hidden_layers";
  _ ← json_getitem config "n_routed_experts";
  _ ← json_getitem config "n_shared_experts";
  _ ← json_getitem config "hidden_size";
  _ ← json_getitem config "moe_intermediate_size";
  missing ← verify_missing_of config weights;
  Ok (bool_decide (missing = [])).

(** ** Vocabulary of the statements *)

(** Destination keys of a layer: the layer prefix, a dot, a sub-path. *)
Definition layer_key (i : nat) (k : string) : Prop :=
  ∃ s, k = prefix_new i +:+ String "."%char s.

(** The source weights of the experts of layer [i] that are present, in
    expert order, for one projection. *)
Definition present_experts (state_dict : gmap string ndarray) (i : nat)
    (proj : string) (js : list nat) : list ndarray :=
  omap (λ j, state_dict !! expert_key i j proj) js.

(** Slices, for stating where elements end up. *)

(** [a[lo:hi]]: a slice along the first axis. *)
Definition slice0 (lo hi : nat) (a : ndarray) : ndarray :=
  match shape a with
  | d0 :: rest =>
      let n := Nat.min hi d0 - lo in
      NDArray (n :: rest) (take (n * numel rest) (drop (lo * numel rest) (data a)))
  | [] => a
  end.


(** [a[j]]: the sub-array at index [j] of the first axis. *)
Definition index0 (j : nat) (a : ndarray) : ndarray :=
  match shape a with
  | _ :: rest => NDArray rest (Np.block (numel rest) (data a) j)
  | [] => a
  end.

(** The same buffer read under another shape. *)
Definition reshaped (sh : list nat) (a : ndarray) : ndarray :=
  NDArray sh (data a).


(** What head [h] contributes to [kv_b_proj], for heads of [D] rows of
    [X] elements: its first [N] key rows, then its [D] value rows. *)
Definition head_rows (D N X : nat) (kd vd : list elt) (h : nat) : list elt :=
  take (N * X) (Np.block (D * X) kd h) ++ Np.block (D * X) vd h.

(** What the destination holds for a list of padded expert weights: no
    entry for an empty list, their stack otherwise. *)
Definition stacked (ps : list ndarray) (o : option ndarray) : Prop :=
  match ps with
  | [] => o = None
  | _ => ∃ t, Np.stack ps = Ok t ∧ o = Some t
  end.

(** The identity-copy translations of the catalogue, as (source key,
    destination key): the top-level ones, the per-layer ones guarded by
    their own source key, and the two guarded by the shared expert's gate
    projection. *)
Definition identity_top : list (string * string) :=
  [ ("wte.weight", "model.embed_tokens.weight");
    ("ln_f.weight", "model.norm.weight");
    ("lm_head.weight", "lm_head.weight") ].

Definition identity_layer (i : nat) : list (string * string) :=
  [ (prefix_old i +:+ ".ln_1.weight",
     prefix_new i +:+ ".input_layernorm.weight");
    (prefix_old i +:+ ".ln_2.weight",
     prefix_new i +:+ ".post_attention_layernorm.weight");
    (prefix_old i +:+ ".attn.q_proj.weight",
     prefix_new i +:+ ".self_attn.q_a_proj.weight");
    (prefix_old i +:+ ".attn.q_decompress.weight",
     prefix_new i +:+ ".self_attn.q_b_proj.weight");
    (prefix_old i +:+ ".attn.kv_norm.weight",
     prefix_new i +:+ ".self_attn.kv_a_layernorm.weight");
    (prefix_old i +:+ ".attn.o_proj.weight",
     prefix_new i +:+ ".self_attn.o_proj.weight");
    (prefix_old i +:+ ".mlp.router.weight",
     prefix_new i +:+ ".mlp.gate.weight");
    (prefix_old i +:+ ".mlp.shared_expert.gate_proj.weight",
     prefix_new i +:+ ".mlp.shared_experts.gate_proj.weight") ].

Definition identity_shared_rest (i : nat) : list (string * string) :=
  [ (prefix_old i +:+ ".mlp.shared_expert.up_proj.weight",
     prefix_new i +:+ ".mlp.shared_experts.up_proj.weight");
    (prefix_old i +:+ ".mlp.shared_expert.down_proj.weight",
     prefix_new i +:+ ".mlp.shared_experts.down_proj.weight") ].

(** The source keys the catalogue reads for layer [i]. *)
Definition layer_source_keys (i : nat) (num_experts : Z) : list string :=
  [ prefix_old i +:+ ".ln_1.weight";
    prefix_old i +:+ ".ln_2.weight";
    prefix_old i +:+ ".attn.q_proj.weight";
    prefix_old i +:+ ".attn.q_decompress.weight";
    prefix_old i +:+ ".attn.kv_norm.weight";
    prefix_old i +:+ ".attn.kv_proj.weight";
    prefix_old i +:+ ".attn.k_rope_proj.weight";
    prefix_old i +:+ ".attn.k_decompress.weight";
    prefix_old i +:+ ".attn.v_decompress.weight";
    prefix_old i +:+ ".attn.o_proj.weight";
    prefix_old i +:+ ".mlp.router.weight";
    prefix_old i +:+ ".mlp.shared_expert.gate_proj.weight";
    prefix_old i +:+ ".mlp.shared_expert.up_proj.weight";
    prefix_old i +:+ ".mlp.shared_expert.down_proj.weight" ]
  ++ flat_map (λ j, [ expert_key i j ".gate_proj.weight";
                      expert_key i j ".up_proj.weight";
                      expert_key i j ".down_proj.weight" ])
              (Py.range num_experts).

(** A complete source checkpoint: every source key of the catalogue is
    present for every layer, with the embedding, final norm and head. *)
Definition complete (state_dict : gmap string ndarray)
    (num_layers num_experts : Z) : bool :=
  forallb (λ k, bool_decide (is_Some (state_dict !! k)))
    (["wte.weight"; "ln_f.weight"; "lm_head.weight"]
     ++ flat_map (λ i, layer_source_keys i num_experts) (Py.range num_layers)).

(** The destination sub-paths of a layer: the seventeen keys the loop
    body can write, which are the keys the verifier requires. *)
Definition layer_destinations : list string :=
  [ ".input_layernorm.weight"; ".post_attention_layernorm.weight";
    ".self_attn.q_a_proj.weight"; ".self_attn.q_a_layernorm.weight";
    ".self_attn.q_b_proj.weight"; ".self_attn.kv_a_proj_with_mqa.weight";
    ".self_attn.kv_a_layernorm.weight"; ".self_attn.kv_b_proj.weight";
    ".self_attn.o_proj.weight"; ".mlp.gate.weight";
    ".mlp.gate.e_score_correction_bias";
    ".mlp.switch_mlp.gate_proj.weight"; ".mlp.switch_mlp.up_proj.weight";
    ".mlp.switch_mlp.down_proj.weight";
    ".mlp.shared_experts.gate_proj.weight";
    ".mlp.shared_experts.up_proj.weight";
    ".mlp.shared_experts.down_proj.weight" ].

(** Every key the verifier requires, in the order it checks them. *)
Definition required_keys (num_hidden_layers n_shared_experts : Z)
    : list string :=
  ["model.embed_tokens.weight"]
  ++ flat_map (layer_required (0 <? n_shared_experts)%Z)
       (Py.range num_hidden_layers)
  ++ ["model.norm.weight"; "lm_head.weight"].


(** No occurrence of the separator. *)
Fixpoint free_of (sep : ascii) (s : string) : bool :=
  match s with
  | EmptyString => true
  | String c s' => negb (bool_decide (c = sep)) && free_of sep s'
  end.

(** The running count agrees with the number of destination tensors. *)
Definition counted (st : acc) : Prop := size st.1 = st.2.

(** ** Small checkpoints used in the statements *)

(** A one-element matrix. *)
Definition m11 (x : elt) : ndarray := NDArray [1; 1] [x].

(** One layer-norm weight, no embedding. *)
Definition sd_no_embedding : gmap string ndarray :=
  {[ "h.0.ln_1.weight" := NDArray [1] [5%Z] ]}.

(** The shared expert's gate projection without its up projection. *)
Definition sd_shared_gate_only : gmap string ndarray :=
  <[ "wte.weight" := m11 1%Z ]>
  {[ "h.0.mlp.shared_expert.gate_proj.weight" := m11 2%Z ]}.

(** Two layers, no embedding. *)
Definition sd_two_layers_no_embedding : gmap string ndarray :=
  <[ "h.0.ln_1.weight" := NDArray [1] [5%Z] ]>
  {[ "h.1.ln_1.weight" := NDArray [1] [6%Z] ]}.

(** A routed-expert key whose expert index is a superscript two. *)
Definition sd_superscript_expert : gmap string ndarray :=
  {[ "h.0.mlp.experts.².w" := m11 1%Z ]}.

(** A key under [h.] whose second component is not an integer. *)
Definition sd_named_block : gmap string ndarray :=
  <[ "wte.weight" := m11 1%Z ]>
  {[ "h.norm.weight" := NDArray [1] [5%Z] ]}.

(** One layer holding only the two decompression matrices. *)
Definition k_512 : ndarray := NDArray [512; 128] (replicate (512 * 128) 3%Z).
Definition v_512 : ndarray := NDArray [512; 128] (replicate (512 * 128) 4%Z).
Definition sd_kv_layer : gmap string ndarray :=
  <[ "wte.weight" := m11 1%Z ]>
  (<[ "h.0.attn.k_decompress.weight" := k_512 ]>
   {[ "h.0.attn.v_decompress.weight" := v_512 ]}).

(** The same layer in a checkpoint without the embedding. *)
Definition sd_kv_no_embedding : gmap string ndarray :=
  <[ "h.0.attn.k_decompress.weight" := k_512 ]>
  {[ "h.0.attn.v_decompress.weight" := v_512 ]}.

(** The shared expert's up projection without its gate projection. *)
Definition sd_shared_up_only : gmap string ndarray :=
  <[ "wte.weight" := m11 1%Z ]>
  {[ "h.0.mlp.shared_expert.up_proj.weight" := m11 2%Z ]}.

(** Experts 0 and 2 of layer 0, expert 1 missing. *)
Definition sd_expert_gap : gmap string ndarray :=
  list_to_map
    [ ("wte.weight", m11 1%Z);
      ("h.0.mlp.experts.0.gate_proj.weight", m11 2%Z);
      ("h.0.mlp.experts.2.gate_proj.weight", m11 3%Z);
      ("h.0.mlp.shared_expert.gate_proj.weight", m11 4%Z);
      ("h.0.mlp.shared_expert.up_proj.weight", m11 5%Z);
      ("h.0.mlp.shared_expert.down_proj.weight", m11 6%Z) ].

Definition col_512 (x : elt) : ndarray := NDArray [512; 1] (replicate 512 x).

(** Every key the catalogue reads for one layer, without any expert. *)
Definition sd_no_experts : gmap string ndarray :=
  list_to_map
    [ ("wte.weight", m11 1%Z);
      ("ln_f.weight", NDArray [1] [2%Z]);
      ("lm_head.weight", m11 3%Z);
      ("h.0.ln_1.weight", NDArray [1] [4%Z]);
      ("h.0.ln_2.weight", NDArray [1] [5%Z]);
      ("h.0.attn.q_proj.weight", m11 6%Z);
      ("h.0.attn.q_decompress.weight", m11 7%Z);
      ("h.0.attn.kv_norm.weight", NDArray [1] [8%Z]);
      ("h.0.attn.kv_proj.weight", m11 9%Z);
      ("h.0.attn.k_rope_proj.weight", m11 10%Z);
      ("h.0.attn.k_decompress.weight", col_512 11%Z);
      ("h.0.attn.v_decompress.weight", col_512 12%Z);
      ("h.0.attn.o_proj.weight", m11 13%Z);
      ("h.0.mlp.router.weight", m11 14%Z);
      ("h.0.mlp.shared_expert.gate_proj.weight", NDArray [2; 1] [15; 16]%Z);
      ("h.0.mlp.shared_expert.up_proj.weight", NDArray [2; 1] [17; 18]%Z);
      ("h.0.mlp.shared_expert.down_proj.weight", NDArray [1; 2] [19; 20]%Z) ].

(** The same with one routed expert of intermediate size 1, narrower
    than the shared expert's 2. *)
Definition sd_complete : gmap string ndarray :=
  <[ "h.0.mlp.experts.0.gate_proj.weight" := m11 21%Z ]>
  (<[ "h.0.mlp.experts.0.up_proj.weight" := m11 22%Z ]>
   (<[ "h.0.mlp.experts.0.down_proj.weight" := m11 23%Z ]> sd_no_experts)).


(** A [config.json] for one layer with one routed and one shared expert,
    and the same for a model without routed experts. *)
Definition config_one_layer : gmap string jvalue :=
  list_to_map
    [ ("num_hidden_layers", JInt 1); ("n_routed_experts", JInt 1);
      ("n_shared_experts", JInt 1); ("hidden_size", JInt 1);
      ("moe_intermediate_size", JInt 2) ].

Definition config_no_experts : gmap string jvalue :=
  <[ "n_routed_experts" := JInt 0 ]> config_one_layer.

(** * Properties *)

(** ** Keys *)

Section keys.

Lemma string_app_cons (x : ascii) (a b : string) :
  String x a +:+ b = String x (a +:+ b).
Proof. reflexivity. Qed.

Lemma string_app_nil (b : string) : EmptyString +:+ b = b.
Proof. reflexivity. Qed.

Lemma string_app_assoc (a b c : string) : (a +:+ b) +:+ c = a +:+ (b +:+ c).
Proof.
  induction a as [|x a IH]; [done|].
  by rewrite !string_app_cons, IH.
Qed.

Lemma all_digits_go (x : N) (s : string) :
  Py.all_digits s = true → Py.all_digits (pretty_N_go x s) = true.
Proof.
  revert s. induction (N.lt_wf_0 x) as [x _ IH]. intros s Hs.
  destruct (decide (x = 0%N)) as [->|Hx]; [by rewrite pretty_N_go_0|].
  rewrite pretty_N_go_step by lia.
  apply IH; [apply N.div_lt; lia|].
  cbn [Py.all_digits]. rewrite Hs, andb_true_r.
  unfold pretty_N_char. by repeat case_match.
Qed.

(** [str(i)] is made of decimal digits only. *)
Lemma all_digits_str (i : nat) : Py.all_digits (Py.str i) = true.
Proof.
  unfold Py.str, pretty, pretty_nat, pretty, pretty_N.
  case_decide; [done|]. by apply all_digits_go.
Qed.

Lemma str_inj (i j : nat) : Py.str i = Py.str j → i = j.
Proof. apply (inj pretty). Qed.

(** A run of digits followed by a non-digit splits in one way only. *)
Lemma digits_then_stop (a b : string) (c d : ascii) (s t : string) :
  Py.all_digits a = true → Py.all_digits b = true →
  Py.is_digit c = false → Py.is_digit d = false →
  a +:+ String c s = b +:+ String d t →
  a = b ∧ String c s = String d t.
Proof.
  revert b. induction a as [|x a IH]; intros [|y b] Ha Hb Hc Hd Heq;
    rewrite ?string_app_cons, ?string_app_nil in Heq;
    cbn [Py.all_digits] in Ha, Hb.
  - done.
  - injection Heq as -> _. apply andb_true_iff in Hb as [Hy _]. congruence.
  - injection Heq as -> _. apply andb_true_iff in Ha as [Hx _]. congruence.
  - injection Heq as -> Heq.
    apply andb_true_iff in Ha as [_ Ha]. apply andb_true_iff in Hb as [_ Hb].
    destruct (IH b Ha Hb Hc Hd Heq) as [-> ?]. done.
Qed.

Lemma prefix_new_inj (i j : nat) (s t : string) :
  prefix_new i +:+ String "."%char s = prefix_new j +:+ String "."%char t →
  i = j ∧ s = t.
Proof.
  unfold prefix_new. rewrite !string_app_assoc. intros H.
  apply (inj (String.app _)) in H.
  apply digits_then_stop in H as [Hi Hs];
    [|apply all_digits_str|apply all_digits_str|done|done].
  split; [by apply str_inj|congruence].
Qed.

Lemma layer_key_inj (i j : nat) (k : string) :
  layer_key i k → layer_key j k → i = j.
Proof.
  intros [s ->] [t H]. by apply prefix_new_inj in H as [? _].
Qed.

(** The three top-level destination keys belong to no layer. *)
Lemma embed_not_layer_key i : ¬ layer_key i "model.embed_tokens.weight".
Proof.
  intros [s H]. unfold prefix_new in H.
  rewrite string_app_assoc, !string_app_cons in H. discriminate.
Qed.
Lemma norm_not_layer_key i : ¬ layer_key i "model.norm.weight".
Proof.
  intros [s H]. unfold prefix_new in H.
  rewrite string_app_assoc, !string_app_cons in H. discriminate.
Qed.
Lemma lm_head_not_layer_key i : ¬ layer_key i "lm_head.weight".
Proof.
  intros [s H]. unfold prefix_new in H.
  rewrite string_app_assoc, !string_app_cons in H. discriminate.
Qed.

End keys.

(** ** The result monad *)

Lemma bind_Ok_inv {A B : Type} (r : result A) (f : A → result B) (b : B) :
  r ≫= f = Ok b → ∃ a, r = Ok a ∧ f a = Ok b.
Proof. destruct r as [a|e]; [eauto|discriminate]. Qed.

Lemma bind_Ok {A B : Type} (a : A) (f : A → result B) : Ok a ≫= f = f a.
Proof. reflexivity. Qed.

Lemma bind_Raise {A B : Type} (e : exn) (f : A → result B) :
  Raise e ≫= f = Raise e.
Proof. reflexivity. Qed.

Ltac bind_inv H :=
  repeat
    (let a := fresh "a" in
     let Ha := fresh "Ha" in
     apply bind_Ok_inv in H as (a & Ha & H)).

Lemma foldM_app {A S : Type} (f : S → A → result S) (xs ys : list A) (s : S) :
  foldM f (xs ++ ys) s = foldM f xs s ≫= foldM f ys.
Proof.
  revert s. induction xs as [|x xs IH]; intros s; [done|].
  cbn [foldM app]. destruct (f s x) as [s'|e]; [|done].
  rewrite !bind_Ok. apply IH.
Qed.

Lemma comprehension_length {A B : Type} (f : A → result B) (l : list A)
    (r : list B) :
  Py.comprehension f l = Ok r → length r = length l.
Proof.
  revert r. induction l as [|x l IH]; intros r H; cbn [Py.comprehension] in H.
  - by injection H as <-.
  - bind_inv H. injection H as <-. cbn. f_equal. by apply IH.
Qed.

Lemma comprehension_lookup {A B : Type} (f : A → result B) (l : list A)
    (r : list B) (n : nat) (x : A) :
  Py.comprehension f l = Ok r → l !! n = Some x →
  ∃ y, f x = Ok y ∧ r !! n = Some y.
Proof.
  revert r n. induction l as [|x0 l IH]; intros r n H Hn; [done|].
  cbn [Py.comprehension] in H. bind_inv H. injection H as <-.
  destruct n as [|n]; cbn in Hn.
  - injection Hn as ->. eauto.
  - edestruct IH as (y & ? & ?); [done..|]. eauto.
Qed.

(** Two keys under the same prefix with different literal sub-paths. *)
Ltac key_neq :=
  let E := fresh "E" in
  intros E; apply (inj (String.app _)) in E; discriminate.

(** ** One translation at a time *)

Section translations.

Context (sd : gmap string ndarray).
Implicit Types (st : acc) (k : string) (w : ndarray).

Lemma store_lookup_eq new w st : (store new w st).1 !! new = Some w.
Proof. apply lookup_insert_eq. Qed.

Lemma store_lookup_ne new w st k :
  k ≠ new → (store new w st).1 !! k = st.1 !! k.
Proof. intros. by apply lookup_insert_ne. Qed.

Lemma copy_lookup_eq old new w st :
  sd !! old = Some w → (copy_if_present sd old new st).1 !! new = Some w.
Proof. unfold copy_if_present. intros ->. apply store_lookup_eq. Qed.

Lemma copy_lookup_ne old new st k :
  k ≠ new → (copy_if_present sd old new st).1 !! k = st.1 !! k.
Proof.
  unfold copy_if_present. intros. destruct (sd !! old); [|done].
  by apply store_lookup_ne.
Qed.

Lemma copy_absent old new st :
  sd !! old = None → copy_if_present sd old new st = st.
Proof. unfold copy_if_present. by intros ->. Qed.

Lemma remap_kv_a_ne i st st' k :
  remap_kv_a sd i st = Ok st' →
  k ≠ prefix_new i +:+ ".self_attn.kv_a_proj_with_mqa.weight" →
  st'.1 !! k = st.1 !! k.
Proof.
  unfold remap_kv_a. intros H Hk.
  repeat case_match; try (by injection H as <-).
  bind_inv H. injection H as <-. by apply store_lookup_ne.
Qed.

Lemma remap_kv_a_eq i st st' a b :
  remap_kv_a sd i st = Ok st' →
  sd !! (prefix_old i +:+ ".attn.kv_proj.weight") = Some a →
  sd !! (prefix_old i +:+ ".attn.k_rope_proj.weight") = Some b →
  ∃ t, kv_a_combine a b = Ok t ∧
       st'.1 !! (prefix_new i +:+ ".self_attn.kv_a_proj_with_mqa.weight") = Some t.
Proof.
  unfold remap_kv_a. intros H Ha Hb. rewrite Ha, Hb in H. bind_inv H. injection H as <-.
  eexists. split; [done|]. apply store_lookup_eq.
Qed.

Lemma remap_kv_b_ne i st st' k :
  remap_kv_b sd i st = Ok st' →
  k ≠ prefix_new i +:+ ".self_attn.kv_b_proj.weight" →
  st'.1 !! k = st.1 !! k.
Proof.
  unfold remap_kv_b. intros H Hk.
  repeat case_match; try (by injection H as <-).
  bind_inv H. injection H as <-. by apply store_lookup_ne.
Qed.

Lemma remap_kv_b_eq i st st' a b :
  remap_kv_b sd i st = Ok st' →
  sd !! (prefix_old i +:+ ".attn.k_decompress.weight") = Some a →
  sd !! (prefix_old i +:+ ".attn.v_decompress.weight") = Some b →
  ∃ t, kv_b_combine a b = Ok t ∧
       st'.1 !! (prefix_new i +:+ ".self_attn.kv_b_proj.weight") = Some t.
Proof.
  unfold remap_kv_b. intros H Ha Hb. rewrite Ha, Hb in H. bind_inv H. injection H as <-.
  eexists. split; [done|]. apply store_lookup_eq.
Qed.

Lemma stack_if_any_ne new lst st st' k :
  stack_if_any new lst st = Ok st' → k ≠ new → st'.1 !! k = st.1 !! k.
Proof.
  unfold stack_if_any. intros H Hk. destruct lst; [by injection H as <-|].
  bind_inv H. injection H as <-. by apply store_lookup_ne.
Qed.

Lemma stack_if_any_eq new lst st st' :
  stack_if_any new lst st = Ok st' →
  match lst with
  | [] => st'.1 !! new = st.1 !! new
  | _ => ∃ t, Np.stack lst = Ok t ∧ st'.1 !! new = Some t
  end.
Proof.
  unfold stack_if_any. intros H. destruct lst; [by injection H as <-|].
  bind_inv H. injection H as <-. eexists. split; [done|].
  apply store_lookup_eq.
Qed.

Lemma copy_shared_expert_ne i st st' k :
  copy_shared_expert sd i st = Ok st' →
  k ≠ prefix_new i +:+ ".mlp.shared_experts.gate_proj.weight" →
  k ≠ prefix_new i +:+ ".mlp.shared_experts.up_proj.weight" →
  k ≠ prefix_new i +:+ ".mlp.shared_experts.down_proj.weight" →
  st'.1 !! k = st.1 !! k.
Proof.
  unfold copy_shared_expert. intros H Hg Hu Hd.
  case_match; [|by injection H as <-].
  bind_inv H. injection H as <-. cbn [fst].
  by rewrite !lookup_insert_ne.
Qed.

End translations.

Section experts.

Context (sd : gmap string ndarray).
Implicit Types (st : acc) (k : string) (w : ndarray).

Lemma copy_shared_expert_eq i st st' g :
  copy_shared_expert sd i st = Ok st' →
  sd !! (prefix_old i +:+ ".mlp.shared_expert.gate_proj.weight") = Some g →
  ∃ u d,
    sd !! (prefix_old i +:+ ".mlp.shared_expert.up_proj.weight") = Some u ∧
    sd !! (prefix_old i +:+ ".mlp.shared_expert.down_proj.weight") = Some d ∧
    st'.1 !! (prefix_new i +:+ ".mlp.shared_experts.gate_proj.weight") = Some g ∧
    st'.1 !! (prefix_new i +:+ ".mlp.shared_experts.up_proj.weight") = Some u ∧
    st'.1 !! (prefix_new i +:+ ".mlp.shared_experts.down_proj.weight") = Some d.
Proof.
  unfold copy_shared_expert, dict_get. intros H Hg. rewrite Hg in H.
  destruct (sd !! (prefix_old i +:+ ".mlp.shared_expert.up_proj.weight"))
    as [u|]; [|done].
  destruct (sd !! (prefix_old i +:+ ".mlp.shared_expert.down_proj.weight"))
    as [d|]; [|done].
  rewrite !bind_Ok in H. injection H as <-. exists u, d. cbn [fst].
  split_and!; [done|done|..].
  - do 2 rewrite lookup_insert_ne by key_neq. apply lookup_insert_eq.
  - rewrite lookup_insert_ne by key_neq. apply lookup_insert_eq.
  - apply lookup_insert_eq.
Qed.

Lemma copy_shared_expert_absent i st st' :
  copy_shared_expert sd i st = Ok st' →
  sd !! (prefix_old i +:+ ".mlp.shared_expert.gate_proj.weight") = None →
  st' = st.
Proof.
  unfold copy_shared_expert. intros H Hg. rewrite Hg in H. by injection H.
Qed.

Lemma comprehension_app {A B : Type} (f : A → result B) (l1 l2 : list A)
    (r1 r2 : list B) :
  Py.comprehension f l1 = Ok r1 → Py.comprehension f l2 = Ok r2 →
  Py.comprehension f (l1 ++ l2) = Ok (r1 ++ r2).
Proof.
  revert r1. induction l1 as [|x l1 IH]; intros r1 H1 H2.
  - by injection H1 as <-.
  - cbn [Py.comprehension app] in *. bind_inv H1. injection H1 as <-.
    rewrite Ha. rewrite bind_Ok. erewrite IH by done. done.
Qed.

Lemma append_padded_spec key target lst lst' :
  append_padded sd key target lst = Ok lst' →
  ∃ ps, Py.comprehension (λ w, pad_weight w target)
          (option_list (sd !! key)) = Ok ps ∧
        lst' = lst ++ ps.
Proof.
  unfold append_padded. intros H. destruct (sd !! key) as [w|]; cbn.
  - bind_inv H. injection H as <-. rewrite Ha. eauto.
  - injection H as <-. exists []. by rewrite app_nil_r.
Qed.

Lemma present_experts_cons i proj j js :
  present_experts sd i proj (j :: js)
  = option_list (sd !! expert_key i j proj) ++ present_experts sd i proj js.
Proof.
  unfold present_experts. cbn [omap list_omap].
  by destruct (sd !! expert_key i j proj).
Qed.

(** The three lists collected by the loop over experts: the padded
    weights of the experts present, in expert order. *)
Lemma collect_fold_spec U H i js g0 u0 d0 g u d :
  foldM (collect_expert sd U H i) js (g0, u0, d0) = Ok (g, u, d) →
  ∃ gs us ds,
    Py.comprehension (λ w, pad_weight w [U; H])
      (present_experts sd i ".gate_proj.weight" js) = Ok gs ∧
    Py.comprehension (λ w, pad_weight w [U; H])
      (present_experts sd i ".up_proj.weight" js) = Ok us ∧
    Py.comprehension (λ w, pad_weight w [H; U])
      (present_experts sd i ".down_proj.weight" js) = Ok ds ∧
    g = g0 ++ gs ∧ u = u0 ++ us ∧ d = d0 ++ ds.
Proof.
  revert g0 u0 d0. induction js as [|j js IH]; intros g0 u0 d0 Hf.
  - injection Hf as <- <- <-. exists [], [], []. by rewrite !app_nil_r.
  - cbn [foldM] in Hf. apply bind_Ok_inv in Hf as ([[g1 u1] d1] & Hc & Hf).
    unfold collect_expert in Hc. bind_inv Hc. injection Hc as <- <- <-.
    apply append_padded_spec in Ha as (pg & Hpg & ->).
    apply append_padded_spec in Ha0 as (pu & Hpu & ->).
    apply append_padded_spec in Ha1 as (pd & Hpd & ->).
    apply IH in Hf as (gs & us & ds & Hgs & Hus & Hds & -> & -> & ->).
    exists (pg ++ gs), (pu ++ us), (pd ++ ds).
    rewrite !present_experts_cons, <-!app_assoc.
    split_and!; try done; by apply comprehension_app.
Qed.

Lemma remap_experts_inv E U i st st' :
  remap_experts sd E U i st = Ok st' →
  ∃ wte H gs us ds s1 s2,
    sd !! "wte.weight" = Some wte ∧ shape wte !! 1 = Some H ∧
    Py.comprehension (λ w, pad_weight w [U; H])
      (present_experts sd i ".gate_proj.weight" (Py.range E)) = Ok gs ∧
    Py.comprehension (λ w, pad_weight w [U; H])
      (present_experts sd i ".up_proj.weight" (Py.range E)) = Ok us ∧
    Py.comprehension (λ w, pad_weight w [H; U])
      (present_experts sd i ".down_proj.weight" (Py.range E)) = Ok ds ∧
    stack_if_any (prefix_new i +:+ ".mlp.switch_mlp.gate_proj.weight") gs st
      = Ok s1 ∧
    stack_if_any (prefix_new i +:+ ".mlp.switch_mlp.up_proj.weight") us s1
      = Ok s2 ∧
    stack_if_any (prefix_new i +:+ ".mlp.switch_mlp.down_proj.weight") ds s2
      = Ok st'.
Proof.
  unfold remap_experts, dict_get, Np.shape_at. intros H.
  destruct (sd !! "wte.weight") as [wte|] eqn:Hw; [|done].
  rewrite bind_Ok in H.
  destruct (shape wte !! 1) as [Hd|] eqn:Hs; [|done]. rewrite bind_Ok in H.
  apply bind_Ok_inv in H as ([[g u] d] & Hc & H).
  apply collect_fold_spec in Hc as (gs & us & ds & ? & ? & ? & -> & -> & ->).
  bind_inv H. exists wte, Hd, gs, us, ds, a, a0. by split_and!.
Qed.

Lemma remap_experts_ne E U i st st' k :
  remap_experts sd E U i st = Ok st' →
  k ≠ prefix_new i +:+ ".mlp.switch_mlp.gate_proj.weight" →
  k ≠ prefix_new i +:+ ".mlp.switch_mlp.up_proj.weight" →
  k ≠ prefix_new i +:+ ".mlp.switch_mlp.down_proj.weight" →
  st'.1 !! k = st.1 !! k.
Proof.
  intros H Hg Hu Hd.
  apply remap_experts_inv in H
    as (wte & Hh & gs & us & ds & s1 & s2 & _ & _ & _ & _ & _ & H1 & H2 & H3).
  rewrite (stack_if_any_ne _ _ _ _ _ H3 Hd), (stack_if_any_ne _ _ _ _ _ H2 Hu).
  by apply (stack_if_any_ne _ _ _ _ _ H1).
Qed.

End experts.

Section layer.

Context (sd : gmap string ndarray).
Implicit Types (st : acc) (k : string) (w : ndarray).

Lemma remap_norms_ne i st k :
  k ≠ prefix_new i +:+ ".input_layernorm.weight" →
  k ≠ prefix_new i +:+ ".post_attention_layernorm.weight" →
  k ≠ prefix_new i +:+ ".self_attn.q_a_proj.weight" →
  k ≠ prefix_new i +:+ ".self_attn.q_b_proj.weight" →
  k ≠ prefix_new i +:+ ".self_attn.kv_a_layernorm.weight" →
  k ≠ prefix_new i +:+ ".self_attn.q_a_layernorm.weight" →
  (remap_norms sd i st).1 !! k = st.1 !! k.
Proof.
  intros. unfold remap_norms, simple_attn_mappings. cbn [foldl fst snd].
  rewrite store_lookup_ne by done. by rewrite !copy_lookup_ne by done.
Qed.

Lemma remap_norms_q_a i st :
  (remap_norms sd i st).1 !! (prefix_new i +:+ ".self_attn.q_a_layernorm.weight")
  = Some (Np.ones q_lora_rank).
Proof. apply store_lookup_eq. Qed.

(** The five guarded copies of [remap_norms], as (source sub-path,
    destination sub-path). *)
Lemma remap_norms_copy i st old new w :
  (old, new) ∈ [ (".ln_1.weight", ".input_layernorm.weight");
                 (".ln_2.weight", ".post_attention_layernorm.weight");
                 (".attn.q_proj.weight", ".self_attn.q_a_proj.weight");
                 (".attn.q_decompress.weight", ".self_attn.q_b_proj.weight");
                 (".attn.kv_norm.weight", ".self_attn.kv_a_layernorm.weight") ] →
  sd !! (prefix_old i +:+ old) = Some w →
  (remap_norms sd i st).1 !! (prefix_new i +:+ new) = Some w.
Proof.
  intros Hin Hw. unfold remap_norms, simple_attn_mappings.
  cbn [foldl fst snd].
  repeat (apply elem_of_cons in Hin as [[= -> ->]|Hin]);
    [..|by apply elem_of_nil in Hin];
    repeat first [ by apply copy_lookup_eq
                 | rewrite store_lookup_ne by key_neq
                 | rewrite copy_lookup_ne by key_neq ].
Qed.

Lemma remap_gate_ne E i st st' k :
  remap_gate sd E i st = Ok st' →
  k ≠ prefix_new i +:+ ".self_attn.o_proj.weight" →
  k ≠ prefix_new i +:+ ".mlp.gate.weight" →
  k ≠ prefix_new i +:+ ".mlp.gate.e_score_correction_bias" →
  st'.1 !! k = st.1 !! k.
Proof.
  unfold remap_gate. intros H ???. bind_inv H. injection H as <-.
  rewrite store_lookup_ne by done. by rewrite !copy_lookup_ne by done.
Qed.

Lemma remap_gate_bias E i st st' :
  remap_gate sd E i st = Ok st' →
  (0 ≤ E)%Z ∧
  st'.1 !! (prefix_new i +:+ ".mlp.gate.e_score_correction_bias")
  = Some (Np.zeros (Z.to_nat E)).
Proof.
  unfold remap_gate, np_zeros. intros H. bind_inv H. injection H as <-.
  destruct (Z.ltb_spec E 0); [done|]. injection Ha as <-.
  split; [done|]. apply store_lookup_eq.
Qed.

Lemma remap_gate_copy E i st st' old new w :
  remap_gate sd E i st = Ok st' →
  (old, new) ∈ [ (".attn.o_proj.weight", ".self_attn.o_proj.weight");
                 (".mlp.router.weight", ".mlp.gate.weight") ] →
  sd !! (prefix_old i +:+ old) = Some w →
  st'.1 !! (prefix_new i +:+ new) = Some w.
Proof.
  unfold remap_gate. intros H Hin Hw. bind_inv H. injection H as <-.
  repeat (apply elem_of_cons in Hin as [[= -> ->]|Hin]);
    [..|by apply elem_of_nil in Hin];
    repeat first [ by apply copy_lookup_eq
                 | rewrite store_lookup_ne by key_neq
                 | rewrite copy_lookup_ne by key_neq ].
Qed.

Lemma remap_layer_inv E U st i st' :
  remap_layer sd E U st i = Ok st' →
  ∃ s1 s2 s3 s4,
    remap_kv_a sd i (remap_norms sd i st) = Ok s1 ∧
    remap_kv_b sd i s1 = Ok s2 ∧
    remap_gate sd E i s2 = Ok s3 ∧
    remap_experts sd E U i s3 = Ok s4 ∧
    copy_shared_expert sd i s4 = Ok st'.
Proof.
  unfold remap_layer. intros H. bind_inv H. by exists a, a0, a1, a2.
Qed.

End layer.

(** ** The loop over layers *)

(** Moves a lookup in the state after a step of [remap_layer] back to the
    state before it, when the step does not write the key. *)
Ltac back_step solver :=
  match goal with
  | H : copy_shared_expert _ _ ?s = Ok ?s' |- context [?s'.1 !! ?k] =>
      rewrite (copy_shared_expert_ne _ _ _ _ k H) by solver
  | H : remap_experts _ _ _ _ ?s = Ok ?s' |- context [?s'.1 !! ?k] =>
      rewrite (remap_experts_ne _ _ _ _ _ _ k H) by solver
  | H : stack_if_any _ _ ?s = Ok ?s' |- context [?s'.1 !! ?k] =>
      rewrite (stack_if_any_ne _ _ _ _ k H) by solver
  | H : remap_gate _ _ _ ?s = Ok ?s' |- context [?s'.1 !! ?k] =>
      rewrite (remap_gate_ne _ _ _ _ _ k H) by solver
  | H : remap_kv_b _ _ ?s = Ok ?s' |- context [?s'.1 !! ?k] =>
      rewrite (remap_kv_b_ne _ _ _ _ k H) by solver
  | H : remap_kv_a _ _ ?s = Ok ?s' |- context [?s'.1 !! ?k] =>
      rewrite (remap_kv_a_ne _ _ _ _ k H) by solver
  | |- context [(remap_norms _ _ _).1 !! _] =>
      rewrite remap_norms_ne by solver
  end.

Ltac not_this_layer :=
  intros ->;
  match goal with
  | Hk : ¬ layer_key _ _ |- _ => apply Hk; eexists; reflexivity
  end.

Section layers.

Context (sd : gmap string ndarray) (E : Z) (U : nat).
Implicit Types (st : acc) (k : string) (w : ndarray).

(** A layer writes keys under its own prefix only. *)
Lemma remap_layer_frame st i st' k :
  remap_layer sd E U st i = Ok st' → ¬ layer_key i k →
  st'.1 !! k = st.1 !! k.
Proof.
  intros H Hk.
  apply remap_layer_inv in H as (s1 & s2 & s3 & s4 & H1 & H2 & H3 & H4 & H5).
  by repeat back_step not_this_layer.
Qed.

Lemma layers_fold_spec n a st st' :
  foldM (remap_layer sd E U) (seq a n) st = Ok st' →
  (∀ k, (∀ j, a ≤ j < a + n → ¬ layer_key j k) → st'.1 !! k = st.1 !! k) ∧
  (∀ i, a ≤ i < a + n →
     ∃ sa sb, remap_layer sd E U sa i = Ok sb ∧
              (∀ k, layer_key i k → sa.1 !! k = st.1 !! k) ∧
              (∀ k, layer_key i k → st'.1 !! k = sb.1 !! k)).
Proof.
  revert a st. induction n as [|n IH]; intros a st H.
  - injection H as <-. split; [done|]. intros i ?. lia.
  - cbn [seq foldM] in H. apply bind_Ok_inv in H as (s1 & Hl & H).
    apply IH in H as [Hout Hin]. split.
    + intros k Hk. rewrite Hout by (intros j ?; apply Hk; lia).
      apply (remap_layer_frame _ _ _ _ Hl), Hk. lia.
    + intros i Hi. destruct (decide (i = a)) as [->|Hne].
      * exists st, s1. split_and!; [done|done|].
        intros k Hk. apply Hout. intros j Hj Hk'.
        pose proof (layer_key_inj _ _ _ Hk Hk'). lia.
      * destruct (Hin i) as (sa & sb & Hsab & Hsa & Hsb); [lia|].
        exists sa, sb. split_and!; [done| |done].
        intros k Hk. rewrite Hsa by done.
        apply (remap_layer_frame _ _ _ _ Hl). intros Hk'.
        by pose proof (layer_key_inj _ _ _ Hk Hk').
Qed.

(** The destination mapping, key by key: the three top-level keys are
    guarded copies; the keys of layer [i] are what the loop body left
    there, starting from none; there are no other keys. *)
Lemma remap_names_spec L st :
  remap_names sd L E U = Ok st →
  st.1 !! "model.embed_tokens.weight" = sd !! "wte.weight" ∧
  st.1 !! "model.norm.weight" = sd !! "ln_f.weight" ∧
  st.1 !! "lm_head.weight" = sd !! "lm_head.weight" ∧
  (∀ i, (Z.of_nat i < L)%Z →
     ∃ sa sb, remap_layer sd E U sa i = Ok sb ∧
              (∀ k, layer_key i k → sa.1 !! k = None) ∧
              (∀ k, layer_key i k → st.1 !! k = sb.1 !! k)) ∧
  (∀ k, k ≠ "model.embed_tokens.weight" → k ≠ "model.norm.weight" →
        k ≠ "lm_head.weight" →
        (∀ i, (Z.of_nat i < L)%Z → ¬ layer_key i k) →
        st.1 !! k = None).
Proof.
  unfold remap_names, Py.range. intros H.
  apply bind_Ok_inv in H as (s1 & Hf & H). injection H as <-.
  apply layers_fold_spec in Hf as [Hout Hin].
  assert (∀ k, (copy_if_present sd "wte.weight" "model.embed_tokens.weight"
                  (∅, 0)).1 !! k
               = if decide (k = "model.embed_tokens.weight")
                 then sd !! "wte.weight" else None) as H0.
  { intros k. unfold copy_if_present. case_decide as Hk.
    - subst k. destruct (sd !! "wte.weight"); [apply store_lookup_eq|done].
    - destruct (sd !! "wte.weight"); [|done].
      by rewrite store_lookup_ne by done. }
  split_and!.
  - rewrite !copy_lookup_ne by done.
    rewrite Hout by (intros; apply embed_not_layer_key).
    by rewrite H0, decide_True by done.
  - rewrite copy_lookup_ne by done.
    unfold copy_if_present at 1.
    destruct (sd !! "ln_f.weight"); [apply store_lookup_eq|].
    rewrite Hout by (intros; apply norm_not_layer_key).
    by rewrite H0, decide_False by done.
  - unfold copy_if_present at 1.
    destruct (sd !! "lm_head.weight"); [apply store_lookup_eq|].
    rewrite copy_lookup_ne by done.
    rewrite Hout by (intros; apply lm_head_not_layer_key).
    by rewrite H0, decide_False by done.
  - intros i Hi. destruct (Hin i) as (sa & sb & Hsab & Hsa & Hsb); [lia|].
    exists sa, sb. split_and!; [done|..].
    + intros k Hk. rewrite Hsa, H0 by done. case_decide; [|done].
      subst k. by destruct (embed_not_layer_key i).
    + intros k Hk. rewrite !copy_lookup_ne; [by apply Hsb|..].
      * intros ->. by destruct (norm_not_layer_key i).
      * intros ->. by destruct (lm_head_not_layer_key i).
  - intros k ? ? ? Hk. rewrite !copy_lookup_ne by done.
    rewrite Hout by (intros j ?; apply Hk; lia).
    by rewrite H0, decide_False by done.
Qed.

End layers.

(** ** Buffers cut into blocks *)

Section blocks.

Context {A : Type}.
Implicit Types (d : list A) (n : nat).

Lemma length_flat_map_uniform {B : Type} (f : B → list A) n (l : list B) :
  (∀ y, y ∈ l → length (f y) = n) → length (flat_map f l) = length l * n.
Proof.
  induction l as [|y l IH]; intros Hf; [done|].
  cbn [flat_map]. rewrite length_app, Hf, IH by set_solver.
  cbn [length]. lia.
Qed.

(** Block [j] of a concatenation of equally long pieces is piece [j]. *)
Lemma block_flat_map {B : Type} (f : B → list A) n (l : list B) j y :
  (∀ z, z ∈ l → length (f z) = n) → l !! j = Some y →
  take n (drop (j * n) (flat_map f l)) = f y.
Proof.
  revert j. induction l as [|z l IH]; intros j Hf Hj; [done|].
  cbn [flat_map]. destruct j as [|j]; cbn in Hj.
  - injection Hj as ->. rewrite Nat.mul_0_l, drop_0.
    apply take_app_length'. symmetry. apply Hf. set_solver.
  - replace (S j * n) with (length (f z) + j * n)
      by (rewrite Hf by set_solver; lia).
    rewrite drop_app_add. apply IH; [|done]. intros. apply Hf. set_solver.
Qed.

Lemma block_flat_map_seq (f : nat → list A) n H h :
  (∀ i, i < H → length (f i) = n) → h < H →
  take n (drop (h * n) (flat_map f (seq 0 H))) = f h.
Proof.
  intros Hf Hh. apply block_flat_map.
  - intros z Hz. apply Hf. apply elem_of_seq in Hz. lia.
  - rewrite lookup_seq. split; [done|lia].
Qed.



Lemma length_block d n H i :
  length d = H * n → i < H → length (take n (drop (i * n) d)) = n.
Proof.
  intros Hd Hi. rewrite length_take, length_drop. nia.
Qed.

End blocks.

Lemma numel_matrix (r c : nat) : numel [r; c] = r * c.
Proof. cbn [numel fold_right]. lia. Qed.

Lemma flat_map_seq_ext {B : Type} (f g : nat → list B) (n : nat) :
  (∀ i, i < n → f i = g i) → flat_map f (seq 0 n) = flat_map g (seq 0 n).
Proof.
  intros Hfg.
  assert (∀ a m, a + m ≤ n → flat_map f (seq a m) = flat_map g (seq a m))
    as Hgen.
  { intros a m. revert a. induction m as [|m IH]; intros a Ha; [done|].
    cbn [seq flat_map]. rewrite Hfg, IH by lia. done. }
  by apply Hgen.
Qed.

(** ** The key/value decompression layout *)

Section kv_b.

Variables (H D N X : nat).
Hypothesis (HD : H * D ≠ 0) (HX : X ≠ 0) (HN : N ≤ D).

Local Abbreviation head_rows := (head_rows D N X).

Lemma reshape3_ok (a : ndarray) :
  shape a = [H * D; X] →
  Np.reshape3 H D a = Ok (NDArray [H; D; X] (data a)).
Proof.
  intros Ha. unfold Np.reshape3. rewrite Ha, numel_matrix.
  rewrite decide_False by done.
  rewrite (Nat.mul_comm (H * D) X), Nat.Div0.mod_mul, Nat.div_mul by done.
  by rewrite decide_True.
Qed.

Lemma length_head_rows kd vd h :
  length kd = H * (D * X) → length vd = H * (D * X) → h < H →
  length (head_rows kd vd h) = (N + D) * X.
Proof.
  intros Hk Hv Hh. unfold head_rows, Np.block.
  rewrite length_app, length_take, !(length_block _ _ H) by done. nia.
Qed.

(** The five numpy steps of lines 167-175, in closed form. *)
Lemma kv_b_steps (k v : ndarray) :
  shape k = [H * D; X] → shape v = [H * D; X] →
  wf_array k → wf_array v →
  (k_per_head ← Np.reshape3 H D k;
   v_per_head ← Np.reshape3 H D v;
   k_nope ← Np.take_axis1 N k_per_head;
   combined ← Np.concatenate1 k_nope v_per_head;
   Np.reshape2 X combined)
  = Ok (NDArray [H * (N + D); X]
          (flat_map (head_rows (data k) (data v)) (seq 0 H))).
Proof.
  intros Hk Hv Wk Wv. unfold wf_array in Wk, Wv.
  rewrite Hk, numel_matrix in Wk. rewrite Hv, numel_matrix in Wv.
  rewrite !reshape3_ok, !bind_Ok by done.
  unfold Np.take_axis1. cbn [shape data]. rewrite bind_Ok.
  unfold Np.concatenate1. cbn [shape data].
  rewrite decide_True, bind_Ok by done.
  unfold Np.reshape2. cbn [shape data].
  rewrite decide_False by done.
  replace (numel [H; Nat.min N D + D; X]) with (H * (N + D) * X)
    by (cbn [numel fold_right]; rewrite Nat.min_l by done; lia).
  rewrite Nat.Div0.mod_mul, Nat.div_mul, decide_True by done.
  do 2 f_equal. apply flat_map_seq_ext. intros i Hi. unfold head_rows.
  rewrite Nat.min_l by done. f_equal.
  unfold Np.block at 1.
  apply (block_flat_map_seq
           (λ i, take (N * X) (Np.block (D * X) (data k) i))); [|done].
  intros j Hj. unfold Np.block.
  rewrite length_take, (length_block _ _ H) by (done || lia). nia.
Qed.

Lemma block_head_rows kd vd h :
  length kd = H * (D * X) → length vd = H * (D * X) → h < H →
  take ((N + D) * X) (drop (h * ((N + D) * X))
                        (flat_map (head_rows kd vd) (seq 0 H)))
  = head_rows kd vd h.
Proof.
  intros Hk Hv Hh. apply block_flat_map_seq; [|done].
  intros i Hi. by apply length_head_rows.
Qed.

(** Rows [h*(N+D), h*(N+D)+N) of the result are the first [N] rows of
    head [h] of the keys; the next [D] rows are head [h] of the values. *)
Lemma kv_b_layout (k v : ndarray) (h : nat) :
  shape k = [H * D; X] → shape v = [H * D; X] →
  wf_array k → wf_array v → h < H →
  let t := NDArray [H * (N + D); X]
             (flat_map (head_rows (data k) (data v)) (seq 0 H)) in
  slice0 (h * (N + D)) (h * (N + D) + N) t
    = slice0 0 N (index0 h (reshaped [H; D; X] k)) ∧
  slice0 (h * (N + D) + N) (h * (N + D) + (N + D)) t
    = index0 h (reshaped [H; D; X] v).
Proof.
  intros Hk Hv Wk Wv Hh t. unfold wf_array in Wk, Wv.
  rewrite Hk, numel_matrix in Wk. rewrite Hv, numel_matrix in Wv.
  assert (length (data k) = H * (D * X)) as Lk by lia.
  assert (length (data v) = H * (D * X)) as Lv by lia.
  pose proof (block_head_rows _ _ h Lk Lv Hh) as Hb.
  assert (length (Np.block (D * X) (data k) h) = D * X) as Lbk
    by (by apply (length_block _ _ H)).
  assert (N * X ≤ D * X) as HNX by (apply Nat.mul_le_mono_r; lia).
  unfold slice0, index0, reshaped, t. cbn [shape data numel fold_right].
  rewrite !Nat.mul_1_r. split.
  - replace (Nat.min (h * (N + D) + N) (H * (N + D)) - h * (N + D)) with N
      by nia.
    replace (Nat.min N D - 0) with N by lia.
    f_equal. rewrite Nat.mul_0_l, drop_0.
    replace (h * (N + D) * X) with (h * ((N + D) * X)) by lia.
    fold (Np.block (D * X) (data k) h).
    replace (take (N * X) (drop (h * ((N + D) * X))
               (flat_map (head_rows (data k) (data v)) (seq 0 H))))
      with (take (N * X) (take ((N + D) * X) (drop (h * ((N + D) * X))
               (flat_map (head_rows (data k) (data v)) (seq 0 H)))))
      by (rewrite take_take, Nat.min_l;
            [done|apply Nat.mul_le_mono_r; lia]).
    rewrite Hb. unfold head_rows. rewrite take_app_le, take_idemp; [done|].
    rewrite length_take, Lbk. lia.
  - replace (Nat.min (h * (N + D) + (N + D)) (H * (N + D))
             - (h * (N + D) + N)) with D by nia.
    f_equal.
    replace ((h * (N + D) + N) * X) with (h * ((N + D) * X) + N * X) by lia.
    rewrite <-drop_drop, take_drop_commute.
    replace (N * X + D * X) with ((N + D) * X) by lia.
    rewrite Hb. unfold head_rows. apply drop_app_length'.
    rewrite length_take, Lbk. lia.
Qed.

End kv_b.

(** * The claims *)

Lemma remap_weights_empty input_path config_file :
  remap_weights input_path (Some ∅) config_file = ([], Raise ZeroDivisionError).
Proof.
  unfold remap_weights.
  assert (remap_plan ∅ = Raise ZeroDivisionError) as -> by reflexivity.
  done.
Qed.

(** A run that ends normally had a non-empty source checkpoint. *)
Lemma completed_run_nonempty input_path state_dict config_file written :
  remap_weights input_path (Some state_dict) config_file = (written, Ok ()) →
  state_dict ≠ ∅.
Proof. intros H ->. by rewrite remap_weights_empty in H. Qed.

(** C10. An empty source checkpoint loads, gives layer count 0 and expert
    count 0, and then the mapping-rate computation divides by the number of
    source tensors: the run ends in ZeroDivisionError and nothing has been
    written, whatever the input path and the config file. *)
Theorem empty_checkpoint_divides_by_zero :
  detect_num_layers ∅ = Ok 0%Z ∧
  detect_num_experts ∅ = Ok 0%Z ∧
  ∀ input_path config_file,
    remap_weights input_path (Some ∅) config_file
    = ([], Raise ZeroDivisionError).
Proof. split_and!; [reflexivity..|]. apply remap_weights_empty. Qed.

(** C1, evaluated at two failing inputs.  A checkpoint with a layer but no
    [wte.weight] raises KeyError at the hidden-size lookup of line 200; a
    checkpoint with the shared expert's gate projection but not its up
    projection raises KeyError at line 243.  Nothing is written. *)
Theorem missing_key_raises :
  (∀ input_path config_file,
     remap_weights input_path (Some sd_no_embedding) config_file
     = ([], Raise (KeyError "wte.weight"))) ∧
  (∀ input_path config_file,
     remap_weights input_path (Some sd_shared_gate_only) config_file
     = ([], Raise (KeyError "h.0.mlp.shared_expert.up_proj.weight"))).
Proof.
  split; intros input_path config_file; unfold remap_weights.
  - assert (remap_plan sd_no_embedding = Raise (KeyError "wte.weight"))
      as -> by (vm_compute; reflexivity).
    done.
  - assert (remap_plan sd_shared_gate_only
            = Raise (KeyError "h.0.mlp.shared_expert.up_proj.weight"))
      as -> by (vm_compute; reflexivity).
    done.
Qed.

(** C2, evaluated at a failing input.  A 2x5 array padded towards (3, 4)
    has pad amounts 1 and -1; the guard lets the pair through and [np.pad]
    rejects the negative width. *)
Theorem pad_weight_mixed_raises :
  pad_weight (NDArray [2; 5] (replicate 10 7%Z)) [3; 4] = Raise ValueError.
Proof. reflexivity. Qed.

(** C6, evaluated at a failing input.  A key that starts with [h.] and
    whose second component is not an integer literal makes layer
    detection raise ValueError. *)
Theorem layer_count_non_integer_raises :
  detect_num_layers sd_named_block = Raise ValueError ∧
  ∀ input_path config_file,
    remap_weights input_path (Some sd_named_block) config_file
    = ([], Raise ValueError).
Proof.
  assert (detect_num_layers sd_named_block = Raise ValueError) as H
    by (vm_compute; reflexivity).
  split; [done|]. intros input_path config_file.
  unfold remap_weights, remap_plan. by rewrite H.
Qed.

(** C7, evaluated at a failing input.  With two layers and no
    [wte.weight] the run stops in layer 0 with KeyError: nothing is
    written, so no layer receives its synthesised tensors. *)
Theorem synthesis_aborted_without_embedding :
  detect_num_layers sd_two_layers_no_embedding = Ok 2%Z ∧
  ∀ input_path config_file,
    remap_weights input_path (Some sd_two_layers_no_embedding) config_file
    = ([], Raise (KeyError "wte.weight")).
Proof.
  split; [vm_compute; reflexivity|]. intros input_path config_file.
  unfold remap_weights.
  assert (remap_plan sd_two_layers_no_embedding
          = Raise (KeyError "wte.weight")) as -> by (vm_compute; reflexivity).
  done.
Qed.

(** ** Reading a completed plan *)

Lemma remap_plan_inv (sd : gmap string ndarray) (p : plan) :
  remap_plan sd = Ok p →
  detect_num_layers sd = Ok (p_num_layers p) ∧
  detect_num_experts sd = Ok (p_num_experts p) ∧
  detect_routed_size sd = Ok (p_routed_size p) ∧
  detect_shared_size sd = Ok (p_shared_size p) ∧
  p_unified_size p = unified_of (p_routed_size p) (p_shared_size p) ∧
  remap_names sd (p_num_layers p) (p_num_experts p) (p_unified_size p)
    = Ok (p_mlx_weights p, p_mapped_count p) ∧
  dict_len sd ≠ 0.
Proof.
  unfold remap_plan. intros H. bind_inv H.
  case_decide; [done|]. injection H as <-. cbn.
  destruct a3. by split_and!.
Qed.

(** What a completed plan holds under the keys of layer [i]: what the
    loop body left there, having started from none of them. *)
Lemma plan_layer (sd : gmap string ndarray) (p : plan) (i : nat) :
  remap_plan sd = Ok p → (Z.of_nat i < p_num_layers p)%Z →
  ∃ sa sb,
    remap_layer sd (p_num_experts p) (p_unified_size p) sa i = Ok sb ∧
    (∀ k, layer_key i k → sa.1 !! k = None) ∧
    (∀ k, layer_key i k → p_mlx_weights p !! k = sb.1 !! k).
Proof.
  intros Hp Hi.
  apply remap_plan_inv in Hp as (_ & _ & _ & _ & _ & Hn & _).
  apply remap_names_spec in Hn as (_ & _ & _ & Hl & _).
  destruct (Hl i Hi) as (sa & sb & ? & ? & ?). by exists sa, sb.
Qed.

Lemma layer_key_intro (i : nat) (s : string) :
  layer_key i (prefix_new i +:+ String "."%char s).
Proof. by exists s. Qed.

(** The transform of lines 155-175 on two 512x128 matrices: it cannot
    fail, the result is 768x128, and per head the first 32 rows are key
    rows 0..31 of that head and the next 64 rows are its value rows. *)
Lemma kv_b_combine_layout (k v : ndarray) :
  shape k = [512; 128] → shape v = [512; 128] →
  wf_array k → wf_array v →
  ∃ t, kv_b_combine k v = Ok t ∧ shape t = [768; 128] ∧
       ∀ h, h < 8 →
         slice0 (h * 96) (h * 96 + 32) t
           = slice0 0 32 (index0 h (reshaped [8; 64; 128] k)) ∧
         slice0 (h * 96 + 32) (h * 96 + 96) t
           = index0 h (reshaped [8; 64; 128] v).
Proof.
  intros Hk Hv Wk Wv.
  assert (num_heads * head_dim ≠ 0) as HD by done.
  assert (128 ≠ 0) as HX by done.
  assert (nope_dim ≤ head_dim) as HN by (unfold nope_dim, head_dim; lia).
  eexists. split_and!.
  - exact (kv_b_steps num_heads head_dim nope_dim 128 HD HX HN k v Hk Hv Wk Wv).
  - reflexivity.
  - intros h Hh.
    exact (kv_b_layout num_heads head_dim nope_dim 128 HD HX HN k v h
             Hk Hv Wk Wv Hh).
Qed.

(** In a completed run, for every layer whose [k_decompress] and
    [v_decompress] weights are both present with shape [512,128], the
    destination [kv_b_proj] weight is the 768x128 matrix whose row block
    [h*96 : h*96+32] is rows [0:32] of head [h] of [k_decompress] reshaped
    to [8,64,128] and whose row block [h*96+32 : h*96+96] is all 64 rows of
    head [h] of [v_decompress] reshaped to [8,64,128], for every head
    [h < 8]. *)
Theorem kv_b_proj_layout (sd : gmap string ndarray) (p : plan) (i : nat)
    (k v : ndarray) :
  remap_plan sd = Ok p →
  (Z.of_nat i < p_num_layers p)%Z →
  sd !! (prefix_old i +:+ ".attn.k_decompress.weight") = Some k →
  sd !! (prefix_old i +:+ ".attn.v_decompress.weight") = Some v →
  shape k = [512; 128] → shape v = [512; 128] →
  wf_array k → wf_array v →
  ∃ t, p_mlx_weights p !! (prefix_new i +:+ ".self_attn.kv_b_proj.weight")
         = Some t ∧
       shape t = [768; 128] ∧
       ∀ h, h < 8 →
         slice0 (h * 96) (h * 96 + 32) t
           = slice0 0 32 (index0 h (reshaped [8; 64; 128] k)) ∧
         slice0 (h * 96 + 32) (h * 96 + 96) t
           = index0 h (reshaped [8; 64; 128] v).
Proof.
  intros Hp Hi Hk Hv Sk Sv Wk Wv.
  destruct (kv_b_combine_layout k v Sk Sv Wk Wv) as (t & Ht & Hsh & Hrows).
  exists t. split_and!; [|done..].
  destruct (plan_layer sd p i Hp Hi) as (sa & sb & Hsab & _ & Hsb).
  rewrite Hsb by apply layer_key_intro.
  apply remap_layer_inv in Hsab
    as (s1 & s2 & s3 & s4 & H1 & H2 & H3 & H4 & H5).
  repeat back_step key_neq.
  destruct (remap_kv_b_eq _ _ _ _ _ _ H2 Hk Hv) as (t' & Ht' & ->).
  congruence.
Qed.

(** Decides a closed decidable statement by evaluation. *)
Ltac by_compute :=
  match goal with
  | |- ?P => apply (@bool_decide_eq_true_1 P _); vm_compute; reflexivity
  end.

Lemma is_ok_inv {A : Type} (r : result A) : is_ok r = true → ∃ a, r = Ok a.
Proof. destruct r; [eauto|discriminate]. Qed.

Lemma holds_on_ok {A : Type} (r : result A) (P : A → bool) (a : A) :
  r = Ok a → holds_on r P = true → P a = true.
Proof. by intros ->. Qed.

(** Decides a decidable statement about the value [a] of [Hr : r = Ok a]
    by evaluating [r], for a closed [r]. *)
Ltac on_result Hr :=
  match type of Hr with
  | ?r = Ok ?a =>
      match goal with
      | |- ?G =>
          apply (@bool_decide_eq_true_1 G _);
          match goal with
          | |- ?b = true =>
              let F := eval pattern a in b in
              lazymatch F with
              | ?P _ =>
                  refine (holds_on_ok r P a Hr _); vm_compute; reflexivity
              end
          end
      end
  end.

(** C4, evaluated at a failing input.  Layer 0 holds [k_decompress] and
    [v_decompress], both well formed and of shape [512,128], and the
    checkpoint has no [wte.weight]: the run stops in layer 0 with KeyError
    at the unguarded read of [state_dict["wte.weight"]] and writes nothing,
    so the layer gets no [kv_b_proj] weight at all. *)
Theorem kv_b_proj_aborted_without_embedding :
  sd_kv_no_embedding !! "h.0.attn.k_decompress.weight" = Some k_512 ∧
  sd_kv_no_embedding !! "h.0.attn.v_decompress.weight" = Some v_512 ∧
  shape k_512 = [512; 128] ∧ shape v_512 = [512; 128] ∧
  wf_array k_512 ∧ wf_array v_512 ∧
  detect_num_layers sd_kv_no_embedding = Ok 1%Z ∧
  ∀ input_path config_file,
    remap_weights input_path (Some sd_kv_no_embedding) config_file
    = ([], Raise (KeyError "wte.weight")).
Proof.
  split_and!; [by_compute..|vm_compute; reflexivity|].
  intros input_path config_file. unfold remap_weights.
  assert (remap_plan sd_kv_no_embedding
          = Raise (KeyError "wte.weight")) as -> by (vm_compute; reflexivity).
  done.
Qed.

Lemma kv_b_proj_layout_witness :
  ∃ p t, remap_plan sd_kv_layer = Ok p ∧
         p_mlx_weights p !! "model.layers.0.self_attn.kv_b_proj.weight" = Some t ∧
         shape t = [768; 128].
Proof.
  assert (is_ok (remap_plan sd_kv_layer) = true) as Hok
    by (vm_compute; reflexivity).
  apply is_ok_inv in Hok as [p Hp].
  assert (detect_num_layers sd_kv_layer = Ok 1%Z) as Hl
    by (vm_compute; reflexivity).
  assert (p_num_layers p = 1%Z) as HL.
  { apply remap_plan_inv in Hp as (Hl' & _). congruence. }
  destruct (kv_b_proj_layout sd_kv_layer p 0 k_512 v_512) as (t & Ht & Hs & _).
  - exact Hp.
  - rewrite HL. reflexivity.
  - by_compute.
  - by_compute.
  - reflexivity.
  - reflexivity.
  - by_compute.
  - by_compute.
  - exists p, t. split_and!; [exact Hp|exact Ht|exact Hs].
Defined.

(** ** What a completed plan holds, translation by translation *)

Section plan_facts.

Context (sd : gmap string ndarray) (p : plan).
Hypothesis Hp : remap_plan sd = Ok p.

Local Abbreviation L := (p_num_layers p).
Local Abbreviation E := (p_num_experts p).
Local Abbreviation U := (p_unified_size p).
Local Abbreviation mlx := (p_mlx_weights p).

Lemma plan_top_level :
  mlx !! "model.embed_tokens.weight" = sd !! "wte.weight" ∧
  mlx !! "model.norm.weight" = sd !! "ln_f.weight" ∧
  mlx !! "lm_head.weight" = sd !! "lm_head.weight".
Proof.
  apply remap_plan_inv in Hp as (_ & _ & _ & _ & _ & Hn & _).
  apply remap_names_spec in Hn as (? & ? & ? & _). done.
Qed.

(** The seven per-layer guarded copies, as (source sub-path, destination
    sub-path). *)
Lemma plan_copy (i : nat) (old new : string) (w : ndarray) :
  (Z.of_nat i < L)%Z →
  (old, new) ∈ [ (".ln_1.weight", ".input_layernorm.weight");
                 (".ln_2.weight", ".post_attention_layernorm.weight");
                 (".attn.q_proj.weight", ".self_attn.q_a_proj.weight");
                 (".attn.q_decompress.weight", ".self_attn.q_b_proj.weight");
                 (".attn.kv_norm.weight", ".self_attn.kv_a_layernorm.weight");
                 (".attn.o_proj.weight", ".self_attn.o_proj.weight");
                 (".mlp.router.weight", ".mlp.gate.weight") ] →
  sd !! (prefix_old i +:+ old) = Some w →
  mlx !! (prefix_new i +:+ new) = Some w.
Proof.
  intros Hi Hin Hw.
  destruct (plan_layer sd p i Hp Hi) as (sa & sb & Hsab & _ & Hsb).
  apply remap_layer_inv in Hsab
    as (s1 & s2 & s3 & s4 & H1 & H2 & H3 & H4 & H5).
  repeat (apply elem_of_cons in Hin as [[= -> ->]|Hin]);
    [..|by apply elem_of_nil in Hin];
    (rewrite Hsb by apply layer_key_intro);
    repeat back_step key_neq;
    first [ eapply remap_norms_copy; [|eassumption]; by_compute
          | eapply remap_gate_copy; [eassumption| |eassumption]; by_compute ].
Qed.

Lemma plan_shared (i : nat) (g : ndarray) :
  (Z.of_nat i < L)%Z →
  sd !! (prefix_old i +:+ ".mlp.shared_expert.gate_proj.weight") = Some g →
  ∃ u d,
    sd !! (prefix_old i +:+ ".mlp.shared_expert.up_proj.weight") = Some u ∧
    sd !! (prefix_old i +:+ ".mlp.shared_expert.down_proj.weight") = Some d ∧
    mlx !! (prefix_new i +:+ ".mlp.shared_experts.gate_proj.weight") = Some g ∧
    mlx !! (prefix_new i +:+ ".mlp.shared_experts.up_proj.weight") = Some u ∧
    mlx !! (prefix_new i +:+ ".mlp.shared_experts.down_proj.weight") = Some d.
Proof.
  intros Hi Hg.
  destruct (plan_layer sd p i Hp Hi) as (sa & sb & Hsab & _ & Hsb).
  apply remap_layer_inv in Hsab
    as (s1 & s2 & s3 & s4 & H1 & H2 & H3 & H4 & H5).
  destruct (copy_shared_expert_eq _ _ _ _ _ H5 Hg)
    as (u & d & Hu & Hd & Hlg & Hlu & Hld).
  exists u, d. rewrite !Hsb by apply layer_key_intro. done.
Qed.

(** The shared expert's destination keys are absent when its gate
    projection is. *)
Lemma plan_shared_absent (i : nat) (s : string) :
  (Z.of_nat i < L)%Z →
  sd !! (prefix_old i +:+ ".mlp.shared_expert.gate_proj.weight") = None →
  s ∈ [ ".mlp.shared_experts.gate_proj.weight";
        ".mlp.shared_experts.up_proj.weight";
        ".mlp.shared_experts.down_proj.weight" ] →
  mlx !! (prefix_new i +:+ s) = None.
Proof.
  intros Hi Hg Hin.
  destruct (plan_layer sd p i Hp Hi) as (sa & sb & Hsab & Hsa & Hsb).
  apply remap_layer_inv in Hsab
    as (s1 & s2 & s3 & s4 & H1 & H2 & H3 & H4 & H5).
  apply (copy_shared_expert_absent _ _ _ _ H5) in Hg as ->.
  repeat (apply elem_of_cons in Hin as [->|Hin]);
    [..|by apply elem_of_nil in Hin];
    (rewrite Hsb by apply layer_key_intro);
    repeat back_step key_neq; apply Hsa, layer_key_intro.
Qed.

Lemma plan_synthesised (i : nat) :
  (Z.of_nat i < L)%Z →
  (0 ≤ E)%Z ∧
  mlx !! (prefix_new i +:+ ".self_attn.q_a_layernorm.weight")
    = Some (Np.ones 192) ∧
  mlx !! (prefix_new i +:+ ".mlp.gate.e_score_correction_bias")
    = Some (Np.zeros (Z.to_nat E)).
Proof.
  intros Hi.
  destruct (plan_layer sd p i Hp Hi) as (sa & sb & Hsab & _ & Hsb).
  apply remap_layer_inv in Hsab
    as (s1 & s2 & s3 & s4 & H1 & H2 & H3 & H4 & H5).
  rewrite !Hsb by apply layer_key_intro.
  destruct (remap_gate_bias _ _ _ _ _ H3) as [HE Hbias].
  split_and!; [done| |].
  - repeat back_step key_neq. apply remap_norms_q_a.
  - by repeat back_step key_neq.
Qed.

Lemma plan_kv_a (i : nat) (a b : ndarray) :
  (Z.of_nat i < L)%Z →
  sd !! (prefix_old i +:+ ".attn.kv_proj.weight") = Some a →
  sd !! (prefix_old i +:+ ".attn.k_rope_proj.weight") = Some b →
  ∃ t, kv_a_combine a b = Ok t ∧
       mlx !! (prefix_new i +:+ ".self_attn.kv_a_proj_with_mqa.weight") = Some t.
Proof.
  intros Hi Ha Hb.
  destruct (plan_layer sd p i Hp Hi) as (sa & sb & Hsab & _ & Hsb).
  apply remap_layer_inv in Hsab
    as (s1 & s2 & s3 & s4 & H1 & H2 & H3 & H4 & H5).
  rewrite Hsb by apply layer_key_intro.
  destruct (remap_kv_a_eq _ _ _ _ _ _ H1 Ha Hb) as (t & Ht & Hlk).
  exists t. split; [done|]. by repeat back_step key_neq.
Qed.

Lemma plan_kv_b (i : nat) (a b : ndarray) :
  (Z.of_nat i < L)%Z →
  sd !! (prefix_old i +:+ ".attn.k_decompress.weight") = Some a →
  sd !! (prefix_old i +:+ ".attn.v_decompress.weight") = Some b →
  ∃ t, kv_b_combine a b = Ok t ∧
       mlx !! (prefix_new i +:+ ".self_attn.kv_b_proj.weight") = Some t.
Proof.
  intros Hi Ha Hb.
  destruct (plan_layer sd p i Hp Hi) as (sa & sb & Hsab & _ & Hsb).
  apply remap_layer_inv in Hsab
    as (s1 & s2 & s3 & s4 & H1 & H2 & H3 & H4 & H5).
  rewrite Hsb by apply layer_key_intro.
  destruct (remap_kv_b_eq _ _ _ _ _ _ H2 Ha Hb) as (t & Ht & Hlk).
  exists t. split; [done|]. by repeat back_step key_neq.
Qed.

(** The three stacked expert tensors of a layer. *)
Lemma plan_switch (i : nat) :
  (Z.of_nat i < L)%Z →
  ∃ wte H gs us ds,
    sd !! "wte.weight" = Some wte ∧ shape wte !! 1 = Some H ∧
    Py.comprehension (λ w, pad_weight w [U; H])
      (present_experts sd i ".gate_proj.weight" (Py.range E)) = Ok gs ∧
    Py.comprehension (λ w, pad_weight w [U; H])
      (present_experts sd i ".up_proj.weight" (Py.range E)) = Ok us ∧
    Py.comprehension (λ w, pad_weight w [H; U])
      (present_experts sd i ".down_proj.weight" (Py.range E)) = Ok ds ∧
    stacked gs (mlx !! (prefix_new i +:+ ".mlp.switch_mlp.gate_proj.weight")) ∧
    stacked us (mlx !! (prefix_new i +:+ ".mlp.switch_mlp.up_proj.weight")) ∧
    stacked ds (mlx !! (prefix_new i +:+ ".mlp.switch_mlp.down_proj.weight")).
Proof.
  intros Hi.
  destruct (plan_layer sd p i Hp Hi) as (sa & sb & Hsab & Hsa & Hsb).
  apply remap_layer_inv in Hsab
    as (s1 & s2 & s3 & s4 & H1 & H2 & H3 & H4 & H5).
  apply remap_experts_inv in H4
    as (wte & H & gs & us & ds & t1 & t2 & Hw & Hh & Hgs & Hus & Hds
        & Hg & Hu & Hd).
  exists wte, H, gs, us, ds. split_and!; try done;
    rewrite Hsb by apply layer_key_intro.
  - repeat back_step key_neq. apply stack_if_any_eq in Hg.
    unfold stacked. destruct gs; [|done]. rewrite Hg.
    repeat back_step key_neq. apply Hsa, layer_key_intro.
  - repeat back_step key_neq. apply stack_if_any_eq in Hu.
    unfold stacked. destruct us; [|done]. rewrite Hu.
    repeat back_step key_neq. apply Hsa, layer_key_intro.
  - repeat back_step key_neq. apply stack_if_any_eq in Hd.
    unfold stacked. destruct ds; [|done]. rewrite Hd.
    repeat back_step key_neq. apply Hsa, layer_key_intro.
Qed.

End plan_facts.

(** On a completed run every layer holds the two synthesised tensors:
    192 ones and as many zeros as detected experts. *)
Lemma synthesised_on_completion (sd : gmap string ndarray) (p : plan) (i : nat) :
  remap_plan sd = Ok p → (Z.of_nat i < p_num_layers p)%Z →
  p_mlx_weights p !! (prefix_new i +:+ ".self_attn.q_a_layernorm.weight")
    = Some (NDArray [192] (replicate 192 f32_one)) ∧
  p_mlx_weights p !! (prefix_new i +:+ ".mlp.gate.e_score_correction_bias")
    = Some (NDArray [Z.to_nat (p_num_experts p)]
              (replicate (Z.to_nat (p_num_experts p)) f32_zero)).
Proof.
  intros Hp Hi. by destruct (plan_synthesised sd p Hp i Hi) as (_ & ? & ?).
Qed.

(** C9, as the code has it.  On a completed run, every identity-copy
    translation whose source key is present leaves under its destination
    key the very array of the source: the three top-level ones, the
    per-layer ones guarded by their own key, and the shared expert's up
    and down projections when the shared expert's gate projection is
    present too. *)
Theorem identity_copies_bit_identical (sd : gmap string ndarray) (p : plan) :
  remap_plan sd = Ok p →
  (∀ old new w,
     (old, new) ∈ identity_top → sd !! old = Some w →
     p_mlx_weights p !! new = Some w) ∧
  (∀ i old new w,
     (Z.of_nat i < p_num_layers p)%Z →
     (old, new) ∈ identity_layer i → sd !! old = Some w →
     p_mlx_weights p !! new = Some w) ∧
  (∀ i old new w,
     (Z.of_nat i < p_num_layers p)%Z →
     is_Some (sd !! (prefix_old i +:+ ".mlp.shared_expert.gate_proj.weight")) →
     (old, new) ∈ identity_shared_rest i → sd !! old = Some w →
     p_mlx_weights p !! new = Some w).
Proof.
  intros Hp. split_and!.
  - intros old new w Hin Hw.
    destruct (plan_top_level sd p Hp) as (He & Hn & Hh).
    repeat (apply elem_of_cons in Hin as [[= -> ->]|Hin]);
      [..|by apply elem_of_nil in Hin]; congruence.
  - intros i old new w Hi Hin Hw. unfold identity_layer in Hin.
    repeat (apply elem_of_cons in Hin as [[= -> ->]|Hin]);
      [..|by apply elem_of_nil in Hin];
      try (eapply (plan_copy sd p Hp i); [done| |done]; by_compute).
    by destruct (plan_shared sd p Hp i w Hi Hw) as (u & d & _ & _ & ? & _).
  - intros i old new w Hi [g Hg] Hin Hw.
    destruct (plan_shared sd p Hp i g Hi Hg) as (u & d & Hu & Hd & _ & ? & ?).
    repeat (apply elem_of_cons in Hin as [[= -> ->]|Hin]);
      [..|by apply elem_of_nil in Hin]; congruence.
Qed.

Lemma identity_copies_bit_identical_witness :
  ∃ p, remap_plan sd_complete = Ok p ∧
       p_mlx_weights p !! "model.layers.0.mlp.shared_experts.up_proj.weight"
       = Some (NDArray [2; 1] [17; 18]%Z).
Proof.
  assert (is_ok (remap_plan sd_complete) = true) as Hok
    by (vm_compute; reflexivity).
  apply is_ok_inv in Hok as [p Hp]. exists p. split; [exact Hp|].
  assert (p_num_layers p = 1%Z) as HL.
  { apply remap_plan_inv in Hp as (Hl' & _).
    assert (detect_num_layers sd_complete = Ok 1%Z) as Hl
      by (vm_compute; reflexivity).
    congruence. }
  destruct (identity_copies_bit_identical sd_complete p Hp) as (_ & _ & H3).
  apply (H3 0 "h.0.mlp.shared_expert.up_proj.weight").
  - rewrite HL. reflexivity.
  - by_compute.
  - by_compute.
  - by_compute.
Defined.

(** C9 fails as stated: the shared expert's up projection is present in
    the source, the run completes, and the destination has no array for
    it, because the copy is guarded by the gate projection's key. *)
Lemma shared_up_without_gate_dropped :
  ∃ p, remap_plan sd_shared_up_only = Ok p ∧
       (Z.of_nat 0 < p_num_layers p)%Z ∧
       sd_shared_up_only !! "h.0.mlp.shared_expert.up_proj.weight"
         = Some (m11 2%Z) ∧
       p_mlx_weights p !! "model.layers.0.mlp.shared_experts.up_proj.weight"
         = None.
Proof.
  assert (is_ok (remap_plan sd_shared_up_only) = true) as Hok
    by (vm_compute; reflexivity).
  apply is_ok_inv in Hok as [p Hp]. exists p.
  split_and!; [exact Hp|on_result Hp|by_compute|on_result Hp].
Qed.

(** ** The verifier on the remapper's output *)

Lemma check_required_present (weights : gmap string ndarray)
    (required missing : list string) :
  (∀ k, k ∈ required → is_Some (weights !! k)) →
  check_required weights required missing = missing.
Proof.
  intros Hall. unfold check_required.
  replace (List.filter (λ key, bool_decide (weights !! key = None)) required)
    with (@nil string); [by rewrite app_nil_r|].
  induction required as [|k required IH]; [done|].
  cbn [List.filter]. destruct (Hall k) as [w Hw]; [set_solver|].
  rewrite Hw, bool_decide_eq_false_2 by done.
  apply IH. intros. apply Hall. set_solver.
Qed.

Lemma verify_missing_none (L n_shared : Z) (weights : gmap string ndarray) :
  is_Some (weights !! "model.embed_tokens.weight") →
  is_Some (weights !! "model.norm.weight") →
  is_Some (weights !! "lm_head.weight") →
  (∀ i k, (Z.of_nat i < L)%Z →
          k ∈ layer_required (0 <? n_shared)%Z i →
          is_Some (weights !! k)) →
  verify_missing L n_shared weights = [].
Proof.
  intros He Hn Hh Hl. unfold verify_missing.
  rewrite (check_required_present _ ["model.embed_tokens.weight"])
    by (intros k Hk; apply list_elem_of_singleton in Hk as ->; done).
  assert (∀ js, (∀ i, i ∈ js → (Z.of_nat i < L)%Z) →
            foldl (λ missing i,
                     check_required weights
                       (layer_required (0 <? n_shared)%Z i) missing)
                  [] js = []) as Hfold.
  { induction js as [|j js IH]; intros Hjs; [done|]. cbn [foldl].
    rewrite check_required_present by (intros; apply (Hl j); [apply Hjs|]; set_solver).
    apply IH. intros. apply Hjs. set_solver. }
  rewrite Hfold.
  - apply check_required_present. intros k Hk.
    repeat (apply elem_of_cons in Hk as [->|Hk]); [done..|].
    by apply elem_of_nil in Hk.
  - intros i Hi. unfold Py.range in Hi. apply elem_of_seq in Hi. lia.
Qed.

Lemma foldM_check_required (weights : gmap string ndarray)
    (config : gmap string jvalue) (n_shared : Z) (js : list nat)
    (missing : list string) :
  config !! "n_shared_experts" = Some (JInt n_shared) →
  foldM (λ missing i,
           n_shared_experts ← json_getitem (JDict config) "n_shared_experts";
           shared ← json_gt_zero n_shared_experts;
           Ok (check_required weights (layer_required shared i) missing))
        js missing
  = Ok (foldl (λ missing i,
                 check_required weights
                   (layer_required (0 <? n_shared)%Z i) missing)
              missing js).
Proof.
  intros Hn.
  assert (∀ missing i,
            (n_shared_experts ← json_getitem (JDict config) "n_shared_experts";
             shared ← json_gt_zero n_shared_experts;
             Ok (check_required weights (layer_required shared i) missing))
            = Ok (check_required weights
                    (layer_required (0 <? n_shared)%Z i) missing)) as Hstep.
  { intros. unfold json_getitem. by rewrite Hn. }
  revert missing.
  induction js as [|j js IH]; intros missing; [done|].
  cbn [foldM foldl]. rewrite Hstep. apply IH.
Qed.

(** On a config whose two fields are integers the general loop computes
    [verify_missing]. *)
Lemma verify_missing_of_int (config : gmap string jvalue) (L n_shared : Z)
    (weights : gmap string ndarray) :
  config !! "num_hidden_layers" = Some (JInt L) →
  config !! "n_shared_experts" = Some (JInt n_shared) →
  verify_missing_of (JDict config) weights
  = Ok (verify_missing L n_shared weights).
Proof.
  intros HL Hn. unfold verify_missing_of, verify_missing.
  cbn [json_getitem]. rewrite HL. cbn [mbind result_bind json_range].
  by rewrite (foldM_check_required _ _ n_shared _ _ Hn).
Qed.

Lemma verify_weights_int (config : gmap string jvalue) (L n_shared : Z)
    (weights : gmap string ndarray) :
  config !! "num_hidden_layers" = Some (JInt L) →
  config !! "n_shared_experts" = Some (JInt n_shared) →
  is_Some (config !! "n_routed_experts") →
  is_Some (config !! "hidden_size") →
  is_Some (config !! "moe_intermediate_size") →
  verify_weights (Holds (JDict config)) weights
  = Ok (bool_decide (verify_missing L n_shared weights = [])).
Proof.
  intros HL Hn [r Hr] [h Hh] [m Hm]. unfold verify_weights.
  cbn [json_load mbind result_bind json_getitem].
  rewrite HL, Hr, Hn, Hh, Hm.
  by rewrite (verify_missing_of_int config L n_shared weights HL Hn).
Qed.

Lemma complete_inv (sd : gmap string ndarray) (L E : Z) :
  complete sd L E = true →
  is_Some (sd !! "wte.weight") ∧ is_Some (sd !! "ln_f.weight") ∧
  is_Some (sd !! "lm_head.weight") ∧
  ∀ i k, (Z.of_nat i < L)%Z → k ∈ layer_source_keys i E →
         is_Some (sd !! k).
Proof.
  unfold complete. rewrite forallb_forall. intros Hall.
  assert (∀ k, k ∈ ["wte.weight"; "ln_f.weight"; "lm_head.weight"]
                     ++ flat_map (λ i, layer_source_keys i E) (Py.range L) →
               is_Some (sd !! k)) as Hk.
  { intros k Hk. apply list_elem_of_In, Hall in Hk.
    by apply bool_decide_eq_true_1 in Hk. }
  split_and!; try (apply Hk; set_solver).
  intros i k Hi Hin. apply Hk. apply elem_of_app. right.
  apply list_elem_of_In, in_flat_map. exists i. split.
  - apply in_seq. lia.
  - by apply list_elem_of_In.
Qed.

(** With at least one expert and expert 0 present, the list of present
    weights of a projection is not empty. *)
Lemma present_experts_nonempty (sd : gmap string ndarray) (i : nat)
    (proj : string) (E : Z) :
  (0 < E)%Z → is_Some (sd !! expert_key i 0 proj) →
  present_experts sd i proj (Py.range E) ≠ [].
Proof.
  intros HE [w Hw]. unfold Py.range.
  destruct (Z.to_nat E) as [|n] eqn:Hn; [lia|].
  cbn [seq]. rewrite present_experts_cons, Hw. done.
Qed.

Lemma stacked_nonempty (ps : list ndarray) (o : option ndarray) :
  stacked ps o → ps ≠ [] → is_Some o.
Proof.
  unfold stacked. destruct ps; [done|]. intros (t & _ & ->) _. by eexists.
Qed.

Lemma comprehension_nonempty {A B : Type} (f : A → result B) (l : list A)
    (r : list B) :
  Py.comprehension f l = Ok r → l ≠ [] → r ≠ [].
Proof.
  intros H Hl ->. apply comprehension_length in H. by destruct l.
Qed.

(** Membership in a literal list, possibly with unknowns to be found. *)
Ltac in_list :=
  repeat first [ apply list_elem_of_here | apply list_elem_of_further ].

(** On a completed run over a layer that has all its source keys and at
    least one expert, every destination key of the layer is present. *)
Lemma complete_layer_present (sd : gmap string ndarray) (p : plan) (i : nat)
    (s : string) :
  remap_plan sd = Ok p → (Z.of_nat i < p_num_layers p)%Z →
  (∀ k, k ∈ layer_source_keys i (p_num_experts p) → is_Some (sd !! k)) →
  (0 < p_num_experts p)%Z →
  s ∈ [ ".input_layernorm.weight"; ".post_attention_layernorm.weight";
        ".self_attn.q_a_proj.weight"; ".self_attn.q_a_layernorm.weight";
        ".self_attn.q_b_proj.weight"; ".self_attn.kv_a_proj_with_mqa.weight";
        ".self_attn.kv_a_layernorm.weight"; ".self_attn.kv_b_proj.weight";
        ".self_attn.o_proj.weight"; ".mlp.gate.weight";
        ".mlp.gate.e_score_correction_bias";
        ".mlp.switch_mlp.gate_proj.weight"; ".mlp.switch_mlp.up_proj.weight";
        ".mlp.switch_mlp.down_proj.weight";
        ".mlp.shared_experts.gate_proj.weight";
        ".mlp.shared_experts.up_proj.weight";
        ".mlp.shared_experts.down_proj.weight" ] →
  is_Some (p_mlx_weights p !! (prefix_new i +:+ s)).
Proof.
  intros Hp Hi Hsrc HE Hs.
  assert (∀ t, t ∈ [ ".ln_1.weight"; ".ln_2.weight"; ".attn.q_proj.weight";
                     ".attn.q_decompress.weight"; ".attn.kv_norm.weight";
                     ".attn.kv_proj.weight"; ".attn.k_rope_proj.weight";
                     ".attn.k_decompress.weight"; ".attn.v_decompress.weight";
                     ".attn.o_proj.weight"; ".mlp.router.weight";
                     ".mlp.shared_expert.gate_proj.weight";
                     ".mlp.shared_expert.up_proj.weight";
                     ".mlp.shared_expert.down_proj.weight" ] →
               is_Some (sd !! (prefix_old i +:+ t))) as Hfixed.
  { intros t Ht. apply Hsrc. unfold layer_source_keys.
    apply elem_of_app. left.
    repeat (apply elem_of_cons in Ht as [->|Ht]);
      [..|by apply elem_of_nil in Ht]; in_list. }
  assert (∀ proj, proj ∈ [ ".gate_proj.weight"; ".up_proj.weight";
                           ".down_proj.weight" ] →
                  present_experts sd i proj (Py.range (p_num_experts p)) ≠ [])
    as Hexp.
  { intros proj Hproj. apply present_experts_nonempty; [done|].
    apply Hsrc. unfold layer_source_keys, Py.range.
    apply elem_of_app. right.
    destruct (Z.to_nat (p_num_experts p)) as [|n] eqn:Hn; [lia|].
    cbn [seq flat_map]. apply elem_of_app. left.
    repeat (apply elem_of_cons in Hproj as [->|Hproj]);
      [..|by apply elem_of_nil in Hproj]; in_list. }
  assert (∀ old new,
            (old, new) ∈ [ (".ln_1.weight", ".input_layernorm.weight");
                           (".ln_2.weight", ".post_attention_layernorm.weight");
                           (".attn.q_proj.weight", ".self_attn.q_a_proj.weight");
                           (".attn.q_decompress.weight", ".self_attn.q_b_proj.weight");
                           (".attn.kv_norm.weight", ".self_attn.kv_a_layernorm.weight");
                           (".attn.o_proj.weight", ".self_attn.o_proj.weight");
                           (".mlp.router.weight", ".mlp.gate.weight") ] →
            is_Some (p_mlx_weights p !! (prefix_new i +:+ new))) as Hcopy.
  { intros old new Hin.
    destruct (Hfixed old) as [w Hw].
    { repeat (apply elem_of_cons in Hin as [[= -> ->]|Hin]);
        [..|by apply elem_of_nil in Hin]; in_list. }
    exists w. by apply (plan_copy sd p Hp i old new). }
  destruct (plan_synthesised sd p Hp i Hi) as (_ & Hq & Hbias).
  destruct (Hfixed ".attn.kv_proj.weight") as [a1 Ha1]; [in_list|].
  destruct (Hfixed ".attn.k_rope_proj.weight") as [a2 Ha2]; [in_list|].
  destruct (plan_kv_a sd p Hp i a1 a2 Hi Ha1 Ha2) as (ta & _ & Hta).
  destruct (Hfixed ".attn.k_decompress.weight") as [b1 Hb1]; [in_list|].
  destruct (Hfixed ".attn.v_decompress.weight") as [b2 Hb2]; [in_list|].
  destruct (plan_kv_b sd p Hp i b1 b2 Hi Hb1 Hb2) as (tb & _ & Htb).
  destruct (Hfixed ".mlp.shared_expert.gate_proj.weight") as [g Hg]; [in_list|].
  destruct (plan_shared sd p Hp i g Hi Hg) as (u & d & _ & _ & Hsg & Hsu & Hsd).
  destruct (plan_switch sd p Hp i Hi)
    as (wte & H & gs & us & ds & _ & _ & Hgs & Hus & Hds & Sg & Su & Sd).
  apply stacked_nonempty in Sg;
    [|eapply comprehension_nonempty; [done|apply Hexp; in_list]].
  apply stacked_nonempty in Su;
    [|eapply comprehension_nonempty; [done|apply Hexp; in_list]].
  apply stacked_nonempty in Sd;
    [|eapply comprehension_nonempty; [done|apply Hexp; in_list]].
  repeat (apply elem_of_cons in Hs as [->|Hs]);
    [..|by apply elem_of_nil in Hs];
    first [ done | by eexists | eapply Hcopy; in_list ].
Qed.

(** C8, as the code has it.  When the source checkpoint is complete, has
    at least one routed expert and the run completes, the verifier finds
    no required key missing in the destination mapping, for the same layer
    count and any setting of [n_shared_experts]; [verify_weights] then
    returns [True] on every [config.json] that holds these two values and
    the three other fields its summary prints. *)
Theorem complete_checkpoint_verifies (sd : gmap string ndarray) (p : plan)
    (n_shared_experts : Z) :
  remap_plan sd = Ok p →
  complete sd (p_num_layers p) (p_num_experts p) = true →
  (0 < p_num_experts p)%Z →
  verify_missing (p_num_layers p) n_shared_experts (p_mlx_weights p) = [] ∧
  ∀ config : gmap string jvalue,
    config !! "num_hidden_layers" = Some (JInt (p_num_layers p)) →
    config !! "n_shared_experts" = Some (JInt n_shared_experts) →
    is_Some (config !! "n_routed_experts") →
    is_Some (config !! "hidden_size") →
    is_Some (config !! "moe_intermediate_size") →
    verify_weights (Holds (JDict config)) (p_mlx_weights p) = Ok true.
Proof.
  intros Hp Hc HE.
  apply complete_inv in Hc as (Hwte & Hlnf & Hhead & Hsrc).
  destruct (plan_top_level sd p Hp) as (He & Hn & Hh).
  assert (verify_missing (p_num_layers p) n_shared_experts (p_mlx_weights p)
          = []) as Hnone.
  { apply verify_missing_none; [congruence..|].
    intros i k Hi Hk.
    assert (∃ s, k = prefix_new i +:+ s ∧
                 s ∈ [ ".input_layernorm.weight";
                       ".post_attention_layernorm.weight";
                       ".self_attn.q_a_proj.weight";
                       ".self_attn.q_a_layernorm.weight";
                       ".self_attn.q_b_proj.weight";
                       ".self_attn.kv_a_proj_with_mqa.weight";
                       ".self_attn.kv_a_layernorm.weight";
                       ".self_attn.kv_b_proj.weight";
                       ".self_attn.o_proj.weight"; ".mlp.gate.weight";
                       ".mlp.gate.e_score_correction_bias";
                       ".mlp.switch_mlp.gate_proj.weight";
                       ".mlp.switch_mlp.up_proj.weight";
                       ".mlp.switch_mlp.down_proj.weight";
                       ".mlp.shared_experts.gate_proj.weight";
                       ".mlp.shared_experts.up_proj.weight";
                       ".mlp.shared_experts.down_proj.weight" ])
      as (s & -> & Hs).
    { unfold layer_required in Hk. fold (prefix_new i) in Hk.
      destruct (0 <? n_shared_experts)%Z; cbn [app] in Hk;
        repeat (apply elem_of_cons in Hk as [->|Hk]);
        try (by apply elem_of_nil in Hk);
        (eexists; split; [reflexivity|in_list]). }
    apply (complete_layer_present sd p i s Hp Hi); [|done..].
    intros k' Hk'. by apply (Hsrc i). }
  split; [done|]. intros config HL' Hn' Hr' Hh' Hm'.
  rewrite (verify_weights_int config _ _ _ HL' Hn' Hr' Hh' Hm').
  by rewrite Hnone.
Qed.

Lemma complete_checkpoint_verifies_witness :
  ∃ p, remap_plan sd_complete = Ok p ∧
       verify_weights (Holds (JDict config_one_layer)) (p_mlx_weights p)
       = Ok true.
Proof.
  assert (is_ok (remap_plan sd_complete) = true) as Hok
    by (vm_compute; reflexivity).
  apply is_ok_inv in Hok as [p Hp]. exists p. split; [exact Hp|].
  assert (p_num_layers p = 1%Z ∧ p_num_experts p = 1%Z) as [HL HE].
  { apply remap_plan_inv in Hp as (Hl' & He' & _).
    assert (detect_num_layers sd_complete = Ok 1%Z) as Hl
      by (vm_compute; reflexivity).
    assert (detect_num_experts sd_complete = Ok 1%Z) as He
      by (vm_compute; reflexivity).
    split; congruence. }
  assert (complete sd_complete (p_num_layers p) (p_num_experts p) = true)
    as Hc by (rewrite HL, HE; vm_compute; reflexivity).
  assert (0 < p_num_experts p)%Z as Hpos by (rewrite HE; reflexivity).
  apply (proj2 (complete_checkpoint_verifies sd_complete p 1 Hp Hc Hpos)).
  - rewrite HL. reflexivity.
  - reflexivity.
  - by eexists.
  - by eexists.
  - by eexists.
Defined.

(** C8 fails as stated: a checkpoint with every catalogue key of its one
    layer and no routed expert is complete, the run completes, and the
    verifier misses the three stacked expert tensors. *)
Lemma complete_without_experts_fails_verification :
  ∃ p, remap_plan sd_no_experts = Ok p ∧
       complete sd_no_experts (p_num_layers p) (p_num_experts p) = true ∧
       verify_missing (p_num_layers p) 1 (p_mlx_weights p)
       = [ "model.layers.0.mlp.switch_mlp.gate_proj.weight";
           "model.layers.0.mlp.switch_mlp.up_proj.weight";
           "model.layers.0.mlp.switch_mlp.down_proj.weight" ] ∧
       verify_weights (Holds (JDict config_no_experts)) (p_mlx_weights p)
       = Ok false.
Proof.
  assert (is_ok (remap_plan sd_no_experts) = true) as Hok
    by (vm_compute; reflexivity).
  apply is_ok_inv in Hok as [p Hp]. exists p.
  assert (verify_missing (p_num_layers p) 1 (p_mlx_weights p)
          = [ "model.layers.0.mlp.switch_mlp.gate_proj.weight";
              "model.layers.0.mlp.switch_mlp.up_proj.weight";
              "model.layers.0.mlp.switch_mlp.down_proj.weight" ]) as Hmiss
    by on_result Hp.
  assert (p_num_layers p = 1%Z) as HL by on_result Hp.
  split_and!; [exact Hp|on_result Hp|exact Hmiss|].
  rewrite (verify_weights_int config_no_experts (p_num_layers p) 1);
    [by rewrite Hmiss|by rewrite HL|done|by eexists..].
Qed.

(** ** Layer sets and stacked experts *)

Lemma stack_shape (l : list ndarray) (t : ndarray) :
  Np.stack l = Ok t →
  ∃ a0, head l = Some a0 ∧ shape t = length l :: shape a0 ∧
        data t = flat_map data l ∧
        ∀ a, a ∈ l → shape a = shape a0.
Proof.
  unfold Np.stack. destruct l as [|a0 l']; [done|].
  destruct (forallb _ _) eqn:Hall; [|done]. intros [= <-].
  exists a0. split_and!; [done..|].
  intros a Ha. rewrite forallb_forall in Hall.
  apply list_elem_of_In, Hall in Ha. by apply bool_decide_eq_true_1 in Ha.
Qed.

Lemma length_present_experts_all (sd : gmap string ndarray) (i : nat)
    (proj : string) (js : list nat) :
  (∀ j, j ∈ js → is_Some (sd !! expert_key i j proj)) →
  length (present_experts sd i proj js) = length js.
Proof.
  induction js as [|j js IH]; intros Hall; [done|].
  rewrite present_experts_cons. destruct (Hall j) as [w ->]; [set_solver|].
  cbn. f_equal. apply IH. intros. apply Hall. set_solver.
Qed.

(** C5, as the code has it.  On a completed run with layer count [L] and
    expert count [E]: every layer index below [L] has destination keys;
    a key that is neither top-level nor a key of a layer below [L] is
    absent; each stacked expert tensor that is produced has as leading
    dimension the number of experts [j < E] of that layer whose source key
    is present, which is [E] when all of them are. *)
Theorem layer_sets_and_expert_stacks (sd : gmap string ndarray) (p : plan) :
  remap_plan sd = Ok p →
  (∀ i, (Z.of_nat i < p_num_layers p)%Z →
        ∃ k, layer_key i k ∧ is_Some (p_mlx_weights p !! k)) ∧
  (∀ k, k ≠ "model.embed_tokens.weight" → k ≠ "model.norm.weight" →
        k ≠ "lm_head.weight" →
        (∀ i, (Z.of_nat i < p_num_layers p)%Z → ¬ layer_key i k) →
        p_mlx_weights p !! k = None) ∧
  (∀ i src dst t,
     (Z.of_nat i < p_num_layers p)%Z →
     (src, dst) ∈ [ (".gate_proj.weight", ".mlp.switch_mlp.gate_proj.weight");
                    (".up_proj.weight", ".mlp.switch_mlp.up_proj.weight");
                    (".down_proj.weight", ".mlp.switch_mlp.down_proj.weight") ] →
     p_mlx_weights p !! (prefix_new i +:+ dst) = Some t →
     ∃ rest,
       shape t
       = length (present_experts sd i src (Py.range (p_num_experts p))) :: rest) ∧
  (∀ i src,
     (∀ j, (Z.of_nat j < p_num_experts p)%Z →
           is_Some (sd !! expert_key i j src)) →
     length (present_experts sd i src (Py.range (p_num_experts p)))
     = Z.to_nat (p_num_experts p)).
Proof.
  intros Hp. split_and!.
  - intros i Hi. destruct (plan_synthesised sd p Hp i Hi) as (_ & Hq & _).
    eexists. split; [apply layer_key_intro|]. rewrite Hq. by eexists.
  - pose proof Hp as Hp'.
    apply remap_plan_inv in Hp' as (_ & _ & _ & _ & _ & Hn & _).
    apply remap_names_spec in Hn as (_ & _ & _ & _ & Hnone). exact Hnone.
  - intros i src dst t Hi Hin Ht.
    destruct (plan_switch sd p Hp i Hi)
      as (wte & H & gs & us & ds & _ & _ & Hgs & Hus & Hds & Sg & Su & Sd).
    assert (∀ ps ws : list ndarray,
              stacked ps (Some t) → length ps = length ws →
                     ∃ rest, shape t = length ws :: rest) as Hstack.
    { intros ps ws Hst Hlen. unfold stacked in Hst.
      destruct ps as [|a ps']; [done|]. destruct Hst as (t' & Hst & [= <-]).
      apply stack_shape in Hst as (a0 & _ & Hsh & _).
      rewrite Hsh, Hlen. by eexists. }
    repeat (apply elem_of_cons in Hin as [[= -> ->]|Hin]);
      [..|by apply elem_of_nil in Hin]; rewrite Ht in *.
    + eapply Hstack; [exact Sg|]. by eapply comprehension_length.
    + eapply Hstack; [exact Su|]. by eapply comprehension_length.
    + eapply Hstack; [exact Sd|]. by eapply comprehension_length.
  - intros i src Hall. rewrite length_present_experts_all.
    + unfold Py.range. by rewrite length_seq.
    + intros j Hj. apply Hall. unfold Py.range in Hj.
      apply elem_of_seq in Hj. lia.
Qed.

Lemma layer_sets_and_expert_stacks_witness :
  ∃ p t rest,
    remap_plan sd_complete = Ok p ∧
    p_mlx_weights p !! "model.layers.0.mlp.switch_mlp.gate_proj.weight"
      = Some t ∧
    shape t = 1 :: rest.
Proof.
  assert (is_ok (remap_plan sd_complete) = true) as Hok
    by (vm_compute; reflexivity).
  apply is_ok_inv in Hok as [p Hp].
  assert (p_num_layers p = 1%Z) as HL by on_result Hp.
  assert (p_num_experts p = 1%Z) as HE by on_result Hp.
  assert (is_Some (p_mlx_weights p
                     !! (prefix_new 0 +:+ ".mlp.switch_mlp.gate_proj.weight")))
    as [t Ht] by on_result Hp.
  destruct (layer_sets_and_expert_stacks sd_complete p Hp) as (_ & _ & H3 & H4).
  destruct (H3 0 ".gate_proj.weight" ".mlp.switch_mlp.gate_proj.weight" t)
    as [rest Hrest].
  - rewrite HL. reflexivity.
  - in_list.
  - exact Ht.
  - exists p, t, rest. split_and!; [exact Hp| |].
    + exact Ht.
    + rewrite Hrest, (H4 0 ".gate_proj.weight"), HE; [reflexivity|].
      intros j Hj. rewrite HE in Hj.
      assert (j = 0) as -> by lia. by_compute.
Defined.

(** C5 fails as stated: with experts 0 and 2 present and expert 1
    missing, the expert count is 3 and the stacked gate tensor has leading
    dimension 2. *)
Lemma expert_gap_short_stack :
  ∃ p t, remap_plan sd_expert_gap = Ok p ∧
         p_num_layers p = 1%Z ∧ p_num_experts p = 3%Z ∧
         p_mlx_weights p !! "model.layers.0.mlp.switch_mlp.gate_proj.weight"
           = Some t ∧
         shape t = [2; 1; 1].
Proof.
  assert (is_ok (remap_plan sd_expert_gap) = true) as Hok
    by (vm_compute; reflexivity).
  apply is_ok_inv in Hok as [p Hp].
  assert (is_Some (p_mlx_weights p
                     !! "model.layers.0.mlp.switch_mlp.gate_proj.weight"))
    as [t Ht] by on_result Hp.
  exists p, t. split_and!; [exact Hp|on_result Hp|on_result Hp|exact Ht|].
  assert (shape <$> p_mlx_weights p
                      !! "model.layers.0.mlp.switch_mlp.gate_proj.weight"
          = Some [2; 1; 1]) as Hs by on_result Hp.
  rewrite Ht in Hs. by injection Hs.
Qed.

(** ** Padding *)

Lemma pad_weight_same (w : ndarray) (target : list nat) :
  shape w = target → pad_weight w target = Ok w.
Proof. intros Hw. unfold pad_weight. by rewrite decide_True. Qed.

(** Padding a matrix that fits in the target and is smaller on some
    axis: every row is extended with zeros, then zero rows follow. *)
Lemma pad_weight_grow (w : ndarray) (r c t0 t1 : nat) :
  shape w = [r; c] → r ≤ t0 → c ≤ t1 → (r, c) ≠ (t0, t1) →
  pad_weight w [t0; t1]
  = Ok (NDArray [t0; t1]
          (flat_map (λ i, Np.row c (data w) i ++ replicate (t1 - c) f32_zero)
                    (seq 0 r)
           ++ replicate ((t0 - r) * t1) f32_zero)).
Proof.
  intros Hw Hr Hc Hne. unfold pad_weight. rewrite Hw.
  rewrite decide_False by congruence.
  cbn [tuple_at lookup list_lookup]. rewrite !bind_Ok.
  assert (((0 <? Z.of_nat t0 - Z.of_nat r) || (0 <? Z.of_nat t1 - Z.of_nat c))%Z
          = true) as ->.
  { apply orb_true_iff. destruct (decide (r = t0)) as [->|].
    - right. apply Z.ltb_lt. assert (c ≠ t1) by congruence. lia.
    - left. apply Z.ltb_lt. lia. }
  unfold Np.pad2.
  assert (((Z.of_nat t0 - Z.of_nat r <? 0) || (Z.of_nat t1 - Z.of_nat c <? 0))%Z
          = false) as ->.
  { apply orb_false_iff. split; apply Z.ltb_ge; lia. }
  replace (Z.to_nat (Z.of_nat t0 - Z.of_nat r)) with (t0 - r) by lia.
  replace (Z.to_nat (Z.of_nat t1 - Z.of_nat c)) with (t1 - c) by lia.
  replace (r + (t0 - r)) with t0 by lia.
  replace (c + (t1 - c)) with t1 by lia. done.
Qed.

Lemma length_row (d : list elt) (r c i : nat) :
  length d = r * c → i < r → length (Np.row c d i) = c.
Proof. intros. unfold Np.row. by apply (length_block _ _ r). Qed.


(** [pad_weight] keeps arrays well formed. *)
Lemma pad_weight_wf (w p : ndarray) (target : list nat) :
  wf_array w → pad_weight w target = Ok p → wf_array p.
Proof.
  unfold pad_weight, wf_array. intros Hw Hp.
  case_decide; [by injection Hp as <-|].
  cbv zeta in Hp.
  destruct (shape w) as [|r [|c [|? ?]]] eqn:Hsh;
    try (injection Hp as <-; by rewrite Hsh).
  - bind_inv Hp. case_match; [|by injection Hp as <-; rewrite Hsh].
    unfold Np.pad1 in Hp. case_match; [done|]. rewrite Hsh in Hp.
    injection Hp as <-. cbn [shape data numel fold_right] in *.
    rewrite length_app, length_replicate. lia.
  - bind_inv Hp. case_match; [|by injection Hp as <-; rewrite Hsh].
    unfold Np.pad2 in Hp. case_match; [done|]. injection Hp as <-.
    cbn [shape data numel fold_right] in *.
    rewrite length_app, length_replicate.
    rewrite (length_flat_map_uniform _
               (c + Z.to_nat (Z.of_nat a0 - Z.of_nat c))), length_seq.
    + lia.
    + intros i Hi. apply elem_of_seq in Hi.
      rewrite length_app, length_replicate, (length_row _ r) by lia. done.
Qed.



(** ** Stacks *)





(** ** Unified size and padding *)





(** * Further properties of the code *)

(** ** [pad_weight] *)

(** On a matrix, [pad_weight] raises exactly when one axis has to grow
    and the other is already larger than its target; otherwise it
    succeeds and each axis has the larger of its current and target
    size. *)
Theorem pad_weight_matrix_outcome (w : ndarray) (r c t0 t1 : nat) :
  shape w = [r; c] →
  ((r < t0 ∧ t1 < c) ∨ (t0 < r ∧ c < t1) →
   pad_weight w [t0; t1] = Raise ValueError) ∧
  (¬ ((r < t0 ∧ t1 < c) ∨ (t0 < r ∧ c < t1)) →
   ∃ p, pad_weight w [t0; t1] = Ok p ∧
        shape p = [Nat.max r t0; Nat.max c t1]).
Proof.
  intros Hsh. split.
  - intros Hmixed. unfold pad_weight. rewrite Hsh.
    rewrite decide_False by (intros [= -> ->]; lia).
    cbn [tuple_at lookup list_lookup]. rewrite !bind_Ok.
    assert (((0 <? Z.of_nat t0 - Z.of_nat r) || (0 <? Z.of_nat t1 - Z.of_nat c))%Z
            = true) as ->.
    { apply orb_true_iff. destruct Hmixed as [[? ?]|[? ?]];
        [left|right]; apply Z.ltb_lt; lia. }
    unfold Np.pad2.
    assert (((Z.of_nat t0 - Z.of_nat r <? 0) || (Z.of_nat t1 - Z.of_nat c <? 0))%Z
            = true) as ->; [|done].
    apply orb_true_iff. destruct Hmixed as [[? ?]|[? ?]];
      [right|left]; apply Z.ltb_lt; lia.
  - intros Hok.
    destruct (decide (r ≤ t0 ∧ c ≤ t1)) as [[Hr Hc]|Hsmall].
    + destruct (decide ((r, c) = (t0, t1))) as [[= -> ->]|Hne].
      * exists w. rewrite pad_weight_same by done.
        by rewrite !Nat.max_id.
      * eexists. rewrite (pad_weight_grow w r c t0 t1) by done.
        split; [done|]. cbn [shape]. by rewrite !Nat.max_r by done.
    + exists w. split; [|rewrite Hsh; f_equal; [|f_equal]; lia].
      unfold pad_weight. rewrite Hsh.
      rewrite decide_False by (intros [= -> ->]; lia).
      cbn [tuple_at lookup list_lookup]. rewrite !bind_Ok.
      assert (((0 <? Z.of_nat t0 - Z.of_nat r)
               || (0 <? Z.of_nat t1 - Z.of_nat c))%Z = false) as ->; [|done].
      apply orb_false_iff. split; apply Z.ltb_ge; lia.
Qed.

Lemma pad_weight_matrix_outcome_witness :
  pad_weight (NDArray [2; 5] (replicate 10 7%Z)) [3; 4] = Raise ValueError.
Proof.
  apply (pad_weight_matrix_outcome _ 2 5 3 4); [reflexivity|]. left. lia.
Defined.

(** On a vector, [pad_weight] never fails for a non-empty target: the
    result is the source followed by zeros up to the target length, and
    the source itself when it is already that long or longer. *)
Theorem pad_weight_vector (w : ndarray) (n t0 : nat) (rest : list nat) :
  shape w = [n] → wf_array w →
  pad_weight w (t0 :: rest)
  = Ok (NDArray [Nat.max n t0] (data w ++ replicate (t0 - n) f32_zero)).
Proof.
  intros Hsh Hwf. unfold wf_array in Hwf. rewrite Hsh in Hwf.
  assert (w = NDArray [n] (data w)) as Hw
    by (destruct w as [sh d]; cbn in *; by subst).
  unfold pad_weight. rewrite Hsh. case_decide as Heq.
  - injection Heq as -> <-. rewrite Nat.max_id, Nat.sub_diag.
    cbn [replicate]. rewrite app_nil_r. by rewrite <-Hw.
  - cbn [tuple_at lookup list_lookup]. rewrite bind_Ok.
    destruct (Z.ltb_spec 0 (Z.of_nat t0 - Z.of_nat n)) as [Hlt|Hge].
    + unfold Np.pad1. rewrite Hsh.
      destruct (Z.ltb_spec (Z.of_nat t0 - Z.of_nat n) 0); [lia|].
      replace (Z.to_nat (Z.of_nat t0 - Z.of_nat n)) with (t0 - n) by lia.
      do 3 f_equal. lia.
    + replace (t0 - n) with 0 by lia. cbn [replicate].
      rewrite app_nil_r, Nat.max_l by lia. by rewrite <-Hw.
Qed.

Lemma pad_weight_vector_witness :
  pad_weight (NDArray [2] [5; 6]%Z) [4; 9]
  = Ok (NDArray [4] [5; 6; 0; 0]%Z).
Proof.
  exact (pad_weight_vector (NDArray [2] [5; 6]%Z) 2 4 [9] eq_refl eq_refl).
Defined.

(** Padding twice is padding once: a padded array is returned unchanged
    by a second call with the same target. *)
Theorem pad_weight_idempotent (w p : ndarray) (target : list nat) :
  pad_weight w target = Ok p → pad_weight p target = Ok p.
Proof.
  intros Hp. unfold pad_weight in Hp. case_decide as Heq.
  { injection Hp as <-. by apply pad_weight_same. }
  cbv zeta in Hp.
  destruct (shape w) as [|r [|c [|? ?]]] eqn:Hsh;
    try (injection Hp as <-; unfold pad_weight; rewrite Hsh;
         by rewrite decide_False by done).
  - destruct target as [|t0 rest]; [done|].
    cbn [tuple_at lookup list_lookup] in Hp. rewrite bind_Ok in Hp.
    destruct (Z.ltb_spec 0 (Z.of_nat t0 - Z.of_nat r)) as [Hlt|Hge].
    + unfold Np.pad1 in Hp. rewrite Hsh in Hp.
      destruct (Z.ltb_spec (Z.of_nat t0 - Z.of_nat r) 0); [lia|].
      injection Hp as <-. unfold pad_weight. cbn [shape].
      case_decide; [done|]. cbn [tuple_at lookup list_lookup].
      rewrite bind_Ok.
      destruct (Z.ltb_spec 0 (Z.of_nat t0
                  - Z.of_nat (r + Z.to_nat (Z.of_nat t0 - Z.of_nat r))));
        [lia|done].
    + injection Hp as <-. unfold pad_weight. rewrite Hsh.
      rewrite decide_False by done. cbn [tuple_at lookup list_lookup].
      rewrite bind_Ok.
      destruct (Z.ltb_spec 0 (Z.of_nat t0 - Z.of_nat r)); [lia|done].
  - destruct target as [|t0 [|t1 rest]]; [done|done|].
    cbn [tuple_at lookup list_lookup] in Hp. rewrite !bind_Ok in Hp.
    destruct ((0 <? Z.of_nat t0 - Z.of_nat r)
              || (0 <? Z.of_nat t1 - Z.of_nat c))%Z eqn:Hgrow.
    + unfold Np.pad2 in Hp.
      destruct ((Z.of_nat t0 - Z.of_nat r <? 0)
                || (Z.of_nat t1 - Z.of_nat c <? 0))%Z eqn:Hneg; [done|].
      apply orb_false_iff in Hneg as [H0 H1].
      apply Z.ltb_ge in H0, H1. injection Hp as <-.
      unfold pad_weight. cbn [shape]. case_decide; [done|].
      cbn [tuple_at lookup list_lookup]. rewrite !bind_Ok.
      assert (((0 <? Z.of_nat t0
                 - Z.of_nat (r + Z.to_nat (Z.of_nat t0 - Z.of_nat r)))
               || (0 <? Z.of_nat t1
                    - Z.of_nat (c + Z.to_nat (Z.of_nat t1 - Z.of_nat c))))%Z
              = false) as ->; [|done].
      apply orb_false_iff. split; apply Z.ltb_ge; lia.
    + injection Hp as <-. unfold pad_weight. rewrite Hsh.
      rewrite decide_False by done. cbn [tuple_at lookup list_lookup].
      rewrite !bind_Ok. by rewrite Hgrow.
Qed.

Lemma pad_weight_idempotent_witness :
  pad_weight (NDArray [3; 3] [1; 2; 0; 3; 4; 0; 0; 0; 0]%Z) [3; 3]
  = Ok (NDArray [3; 3] [1; 2; 0; 3; 4; 0; 0; 0; 0]%Z).
Proof.
  apply (pad_weight_idempotent (NDArray [2; 2] [1; 2; 3; 4]%Z)). reflexivity.
Defined.

(** [pad_weight] keeps the element buffer in step with the shape. *)
Theorem pad_weight_keeps_well_formed (w p : ndarray) (target : list nat) :
  wf_array w → pad_weight w target = Ok p → wf_array p.
Proof. apply pad_weight_wf. Qed.

Lemma pad_weight_keeps_well_formed_witness :
  wf_array (NDArray [3; 3] [1; 2; 0; 3; 4; 0; 0; 0; 0]%Z).
Proof.
  apply (pad_weight_keeps_well_formed (NDArray [2; 2] [1; 2; 3; 4]%Z) _ [3; 3]);
    reflexivity.
Defined.

(** ** Omission on absent keys *)

Section omission.

Context (sd : gmap string ndarray).
Implicit Types (st : acc) (k : string).

Lemma remap_norms_absent i st old new :
  (old, new) ∈ [ (".ln_1.weight", ".input_layernorm.weight");
                 (".ln_2.weight", ".post_attention_layernorm.weight");
                 (".attn.q_proj.weight", ".self_attn.q_a_proj.weight");
                 (".attn.q_decompress.weight", ".self_attn.q_b_proj.weight");
                 (".attn.kv_norm.weight", ".self_attn.kv_a_layernorm.weight") ] →
  sd !! (prefix_old i +:+ old) = None →
  (remap_norms sd i st).1 !! (prefix_new i +:+ new)
  = st.1 !! (prefix_new i +:+ new).
Proof.
  intros Hin Hw. unfold remap_norms, simple_attn_mappings.
  cbn [foldl fst snd].
  repeat (apply elem_of_cons in Hin as [[= -> ->]|Hin]);
    [..|by apply elem_of_nil in Hin];
    repeat first [ rewrite store_lookup_ne by key_neq
                 | rewrite copy_lookup_ne by key_neq
                 | rewrite (copy_absent sd _ _ _ Hw) ];
    done.
Qed.

Lemma remap_gate_absent E i st st' old new :
  remap_gate sd E i st = Ok st' →
  (old, new) ∈ [ (".attn.o_proj.weight", ".self_attn.o_proj.weight");
                 (".mlp.router.weight", ".mlp.gate.weight") ] →
  sd !! (prefix_old i +:+ old) = None →
  st'.1 !! (prefix_new i +:+ new) = st.1 !! (prefix_new i +:+ new).
Proof.
  unfold remap_gate. intros H Hin Hw. bind_inv H. injection H as <-.
  repeat (apply elem_of_cons in Hin as [[= -> ->]|Hin]);
    [..|by apply elem_of_nil in Hin];
    repeat first [ rewrite store_lookup_ne by key_neq
                 | rewrite copy_lookup_ne by key_neq
                 | rewrite (copy_absent sd _ _ _ Hw) ];
    done.
Qed.

Lemma remap_kv_a_absent i st st' :
  remap_kv_a sd i st = Ok st' →
  sd !! (prefix_old i +:+ ".attn.kv_proj.weight") = None ∨
  sd !! (prefix_old i +:+ ".attn.k_rope_proj.weight") = None →
  st' = st.
Proof.
  unfold remap_kv_a. intros H [Hn|Hn]; rewrite Hn in H.
  - by injection H.
  - destruct (sd !! _); by injection H.
Qed.

Lemma remap_kv_b_absent i st st' :
  remap_kv_b sd i st = Ok st' →
  sd !! (prefix_old i +:+ ".attn.k_decompress.weight") = None ∨
  sd !! (prefix_old i +:+ ".attn.v_decompress.weight") = None →
  st' = st.
Proof.
  unfold remap_kv_b. intros H [Hn|Hn]; rewrite Hn in H.
  - by injection H.
  - destruct (sd !! _); by injection H.
Qed.

End omission.

(** The present direction of the guarded copies, for reuse. *)
Lemma identity_copies_mirror_aux (sd : gmap string ndarray) (p : plan) :
  remap_plan sd = Ok p →
  (∀ old new w,
     (old, new) ∈ identity_top → sd !! old = Some w →
     p_mlx_weights p !! new = Some w) ∧
  (∀ i old new w,
     (Z.of_nat i < p_num_layers p)%Z →
     (old, new) ∈ identity_layer i → sd !! old = Some w →
     p_mlx_weights p !! new = Some w).
Proof.
  intros Hp. split.
  - intros old new w Hin Hw.
    destruct (plan_top_level sd p Hp) as (He & Hn & Hh).
    repeat (apply elem_of_cons in Hin as [[= -> ->]|Hin]);
      [..|by apply elem_of_nil in Hin]; congruence.
  - intros i old new w Hi Hin Hw. unfold identity_layer in Hin.
    repeat (apply elem_of_cons in Hin as [[= -> ->]|Hin]);
      [..|by apply elem_of_nil in Hin];
      try (eapply (plan_copy sd p Hp i); [done| |done]; by_compute).
    by destruct (plan_shared sd p Hp i w Hi Hw) as (u & d & _ & _ & ? & _).
Qed.

Lemma guarded_copy_mirror_aux (sd : gmap string ndarray) (p : plan) :
  remap_plan sd = Ok p →
  (∀ old new, (old, new) ∈ identity_top →
              p_mlx_weights p !! new = sd !! old) ∧
  (∀ i old new, (Z.of_nat i < p_num_layers p)%Z →
                (old, new) ∈ identity_layer i →
                p_mlx_weights p !! new = sd !! old).
Proof.
  intros Hp. split.
  - intros old new Hin.
    destruct (plan_top_level sd p Hp) as (He & Hn & Hh).
    repeat (apply elem_of_cons in Hin as [[= -> ->]|Hin]);
      [..|by apply elem_of_nil in Hin]; done.
  - intros i old new Hi Hin.
    destruct (sd !! old) as [w|] eqn:Hw.
    { by apply (proj2 (identity_copies_mirror_aux sd p Hp) i old new). }
    destruct (plan_layer sd p i Hp Hi) as (sa & sb & Hsab & Hsa & Hsb).
    apply remap_layer_inv in Hsab
      as (s1 & s2 & s3 & s4 & H1 & H2 & H3 & H4 & H5).
    unfold identity_layer in Hin.
    repeat (apply elem_of_cons in Hin as [[= -> ->]|Hin]);
      [..|by apply elem_of_nil in Hin];
      (rewrite Hsb by apply layer_key_intro);
      try (apply (copy_shared_expert_absent _ _ _ _ H5) in Hw as ->);
      repeat back_step key_neq;
      try (erewrite remap_gate_absent; [|done|in_list|done]);
      repeat back_step key_neq;
      try (erewrite remap_norms_absent; [|in_list|done]);
      apply Hsa, layer_key_intro.
Qed.

(** On a completed run, each individually guarded identity copy leaves
    under its destination key exactly what the source holds under its
    source key: the same array when the source key is present, nothing
    when it is absent. *)
Theorem guarded_copy_mirrors_source (sd : gmap string ndarray) (p : plan) :
  remap_plan sd = Ok p →
  (∀ old new, (old, new) ∈ identity_top →
              p_mlx_weights p !! new = sd !! old) ∧
  (∀ i old new, (Z.of_nat i < p_num_layers p)%Z →
                (old, new) ∈ identity_layer i →
                p_mlx_weights p !! new = sd !! old).
Proof. apply guarded_copy_mirror_aux. Qed.

Lemma guarded_copy_mirrors_source_witness :
  ∃ p, remap_plan sd_shared_up_only = Ok p ∧
       p_mlx_weights p !! (prefix_new 0 +:+ ".self_attn.o_proj.weight") = None.
Proof.
  assert (is_ok (remap_plan sd_shared_up_only) = true) as Hok
    by (vm_compute; reflexivity).
  apply is_ok_inv in Hok as [p Hp]. exists p. split; [exact Hp|].
  assert (p_num_layers p = 1%Z) as HL by on_result Hp.
  rewrite (proj2 (guarded_copy_mirrors_source sd_shared_up_only p Hp) 0
             (prefix_old 0 +:+ ".attn.o_proj.weight")).
  - by_compute.
  - rewrite HL. reflexivity.
  - unfold identity_layer. in_list.
Defined.

(** On a completed run, the two combined attention projections are
    written only when both of their source keys are present: with either
    one absent the destination key is absent. *)
Theorem combined_projection_needs_both (sd : gmap string ndarray) (p : plan)
    (i : nat) :
  remap_plan sd = Ok p → (Z.of_nat i < p_num_layers p)%Z →
  (sd !! (prefix_old i +:+ ".attn.kv_proj.weight") = None ∨
   sd !! (prefix_old i +:+ ".attn.k_rope_proj.weight") = None →
   p_mlx_weights p !! (prefix_new i +:+ ".self_attn.kv_a_proj_with_mqa.weight")
   = None) ∧
  (sd !! (prefix_old i +:+ ".attn.k_decompress.weight") = None ∨
   sd !! (prefix_old i +:+ ".attn.v_decompress.weight") = None →
   p_mlx_weights p !! (prefix_new i +:+ ".self_attn.kv_b_proj.weight")
   = None).
Proof.
  intros Hp Hi.
  destruct (plan_layer sd p i Hp Hi) as (sa & sb & Hsab & Hsa & Hsb).
  apply remap_layer_inv in Hsab
    as (s1 & s2 & s3 & s4 & H1 & H2 & H3 & H4 & H5).
  split; intros Hn; rewrite Hsb by apply layer_key_intro.
  - apply (remap_kv_a_absent _ _ _ _ H1) in Hn as ->.
    repeat back_step key_neq. apply Hsa, layer_key_intro.
  - apply (remap_kv_b_absent _ _ _ _ H2) in Hn as ->.
    repeat back_step key_neq. apply Hsa, layer_key_intro.
Qed.

Lemma combined_projection_needs_both_witness :
  ∃ p, remap_plan sd_shared_up_only = Ok p ∧
       p_mlx_weights p !! (prefix_new 0 +:+ ".self_attn.kv_b_proj.weight")
       = None.
Proof.
  assert (is_ok (remap_plan sd_shared_up_only) = true) as Hok
    by (vm_compute; reflexivity).
  apply is_ok_inv in Hok as [p Hp]. exists p. split; [exact Hp|].
  assert (p_num_layers p = 1%Z) as HL by on_result Hp.
  apply (combined_projection_needs_both sd_shared_up_only p 0 Hp).
  - rewrite HL. reflexivity.
  - left. by_compute.
Defined.

(** ** The destination never leaves the catalogue *)

Section catalogue.

Context (sd : gmap string ndarray) (E : Z) (U : nat).

(** A layer writes none but its seventeen catalogue keys. *)
Lemma remap_layer_frame_catalogue (st st' : acc) (i : nat) (k : string) :
  remap_layer sd E U st i = Ok st' →
  (∀ s, s ∈ layer_destinations → k ≠ prefix_new i +:+ s) →
  st'.1 !! k = st.1 !! k.
Proof.
  intros H Hk.
  apply remap_layer_inv in H as (s1 & s2 & s3 & s4 & H1 & H2 & H3 & H4 & H5).
  repeat back_step ltac:(apply Hk; unfold layer_destinations; in_list).
  done.
Qed.

Lemma layers_fold_frame_catalogue (js : list nat) (st st' : acc) (k : string) :
  foldM (remap_layer sd E U) js st = Ok st' →
  (∀ i s, i ∈ js → s ∈ layer_destinations → k ≠ prefix_new i +:+ s) →
  st'.1 !! k = st.1 !! k.
Proof.
  revert st. induction js as [|j js IH]; intros st H Hk.
  - by injection H as <-.
  - cbn [foldM] in H. apply bind_Ok_inv in H as (s1 & Hl & H).
    rewrite (IH s1 H)
      by (intros i s Hi Hs; apply Hk; [apply elem_of_cons; by right|done]).
    apply (remap_layer_frame_catalogue _ _ _ _ Hl).
    intros s Hs. apply Hk; [apply elem_of_cons; by left|done].
Qed.

End catalogue.

(** On a completed run every destination key is one of the three
    top-level keys or one of the seventeen per-layer keys the verifier
    checks, for a layer index below the layer count: any other key is
    absent, whatever else the source holds (biases included). *)
Theorem destination_within_catalogue (sd : gmap string ndarray) (p : plan)
    (k : string) :
  remap_plan sd = Ok p →
  k ≠ "model.embed_tokens.weight" → k ≠ "model.norm.weight" →
  k ≠ "lm_head.weight" →
  (∀ i s, (Z.of_nat i < p_num_layers p)%Z → s ∈ layer_destinations →
          k ≠ prefix_new i +:+ s) →
  p_mlx_weights p !! k = None.
Proof.
  intros Hp He Hn Hh Hk.
  apply remap_plan_inv in Hp as (_ & _ & _ & _ & _ & Hnames & _).
  unfold remap_names in Hnames.
  apply bind_Ok_inv in Hnames as (s1 & Hf & Hnames).
  injection Hnames as Hm.
  change (p_mlx_weights p) with (p_mlx_weights p, p_mapped_count p).1.
  rewrite <-Hm. rewrite !copy_lookup_ne by done.
  rewrite (layers_fold_frame_catalogue _ _ _ _ _ _ k Hf).
  - rewrite copy_lookup_ne by done. done.
  - intros i s Hi Hs. apply Hk; [|done].
    unfold Py.range in Hi. apply elem_of_seq in Hi. lia.
Qed.

Lemma destination_within_catalogue_witness :
  ∃ p, remap_plan sd_complete = Ok p ∧
       p_mlx_weights p !! "model.layers.0.mlp.shared_experts.gate_proj.bias"
       = None.
Proof.
  assert (is_ok (remap_plan sd_complete) = true) as Hok
    by (vm_compute; reflexivity).
  apply is_ok_inv in Hok as [p Hp]. exists p. split; [exact Hp|].
  apply (destination_within_catalogue sd_complete p _ Hp); [done..|].
  intros i s _ Hs Heq.
  change "model.layers.0.mlp.shared_experts.gate_proj.bias"
    with (prefix_new 0 +:+ String "."%char "mlp.shared_experts.gate_proj.bias")
    in Heq.
  unfold layer_destinations in Hs.
  repeat (apply elem_of_cons in Hs as [->|Hs]);
    [..|by apply elem_of_nil in Hs];
    apply prefix_new_inj in Heq as [_ Heq]; discriminate.
Defined.

(** ** The compressed key/value projection *)

(** [kv_a_proj_with_mqa] is [kv_proj] with the first 32 rows of
    [k_rope_proj] appended below it (all of them when there are fewer
    than 32): for matrices with the same number of columns the transform
    cannot fail. *)
Theorem kv_a_combine_layout (a b : ndarray) (ra rb c : nat) :
  shape a = [ra; c] → shape b = [rb; c] → wf_array a → wf_array b →
  ∃ t, kv_a_combine a b = Ok t ∧
       shape t = [ra + Nat.min 32 rb; c] ∧
       slice0 0 ra t = a ∧
       slice0 ra (ra + Nat.min 32 rb) t = slice0 0 32 b.
Proof.
  intros Ha Hb Wa Wb. unfold wf_array in Wa, Wb.
  rewrite Ha in Wa. rewrite Hb in Wb. cbn [numel fold_right] in Wa, Wb.
  unfold kv_a_combine, Np.take_rows. rewrite Hb, bind_Ok.
  unfold Np.concatenate0. cbn [shape data]. rewrite Ha.
  rewrite decide_True by done. eexists. split; [reflexivity|].
  split_and!; [done|..]; unfold slice0; cbn [shape data numel fold_right].
  - replace (Nat.min ra (ra + Nat.min 32 rb) - 0) with ra by lia.
    rewrite Nat.mul_0_l, drop_0, take_app_length' by lia.
    destruct a as [sh d]; cbn in *; by subst.
  - rewrite Hb. cbn [numel fold_right].
    rewrite Nat.min_id, Nat.mul_0_l, drop_0, Nat.sub_0_r.
    replace (ra + Nat.min 32 rb - ra) with (Nat.min 32 rb) by lia.
    rewrite drop_app_length' by lia. f_equal. apply take_idemp.
Qed.

Lemma kv_a_combine_layout_witness :
  ∃ t, kv_a_combine (m11 9%Z) (m11 10%Z) = Ok t ∧ shape t = [2; 1].
Proof.
  destruct (kv_a_combine_layout (m11 9%Z) (m11 10%Z) 1 1 1)
    as (t & Ht & Hs & _); [reflexivity..|].
  exists t. split; [exact Ht|exact Hs].
Defined.

(** ** The verifier *)

Lemma verify_missing_filter_eq (L n_shared : Z)
    (weights : gmap string ndarray) :
  verify_missing L n_shared weights
  = List.filter (λ key, bool_decide (weights !! key = None))
      (required_keys L n_shared).
Proof.
  unfold verify_missing, required_keys, check_required.
  assert (∀ js acc0,
            foldl (λ missing i,
                     missing ++ List.filter
                       (λ key, bool_decide (weights !! key = None))
                       (layer_required (0 <? n_shared)%Z i)) acc0 js
            = acc0 ++ List.filter
                (λ key, bool_decide (weights !! key = None))
                (flat_map (layer_required (0 <? n_shared)%Z) js)) as Hfold.
  { induction js as [|j js IH]; intros acc0; cbn [foldl flat_map].
    - by rewrite app_nil_r.
    - by rewrite IH, List.filter_app, app_assoc. }
  rewrite Hfold, !List.filter_app, <-!app_assoc. done.
Qed.








(** ** Integers in keys *)

Section digits.

Lemma string_app_nil_r (s : string) : s +:+ EmptyString = s.
Proof.
  induction s as [|c s IH]; [done|]. by rewrite string_app_cons, IH.
Qed.

Lemma rev_app_rev_app (s t u : string) :
  String.rev_app (String.rev_app s t) u = String.rev_app t (s +:+ u).
Proof.
  revert t u. induction s as [|a s IH]; intros t u; [done|].
  cbn [String.rev_app]. rewrite IH. cbn [String.rev_app].
  by rewrite string_app_cons.
Qed.

Lemma rev_rev (s : string) : String.rev (String.rev s) = s.
Proof.
  unfold String.rev. rewrite rev_app_rev_app. cbn [String.rev_app].
  apply string_app_nil_r.
Qed.

Lemma rev_app_app (s u t : string) :
  String.rev_app (s +:+ u) t = String.rev_app u (String.rev_app s t).
Proof.
  revert t. induction s as [|a s IH]; intros t; [done|].
  rewrite string_app_cons. cbn [String.rev_app]. apply IH.
Qed.

Lemma rev_snoc (s : string) (c : ascii) :
  String.rev (s +:+ String c EmptyString) = String c (String.rev s).
Proof. unfold String.rev. by rewrite rev_app_app. Qed.

Lemma all_digits_rev_app (s t : string) :
  Py.all_digits s = true → Py.all_digits t = true →
  Py.all_digits (String.rev_app s t) = true.
Proof.
  revert t. induction s as [|a s IH]; intros t Hs Ht; [done|].
  cbn [Py.all_digits] in Hs. apply andb_true_iff in Hs as [Ha Hs].
  cbn [String.rev_app]. apply IH; [done|]. cbn [Py.all_digits].
  by rewrite Ha, Ht.
Qed.

Lemma digit_not_space (c : ascii) :
  Py.is_digit c = true → Py.is_space c = false.
Proof.
  unfold Py.is_digit, Py.is_space. intros H.
  apply andb_true_iff in H as [H1 H2].
  apply Nat.leb_le in H1, H2. apply orb_false_iff. split.
  - apply andb_false_iff. right. apply Nat.leb_gt. lia.
  - apply Nat.eqb_neq. lia.
Qed.

Lemma lstrip_digits (s : string) :
  Py.all_digits s = true → Py.lstrip s = s.
Proof.
  destruct s as [|c s]; [done|]. cbn [Py.all_digits Py.lstrip]. intros H.
  apply andb_true_iff in H as [Hc _]. by rewrite digit_not_space.
Qed.

(** Stripping leaves a string of digits alone. *)
Lemma strip_digits (s : string) : Py.all_digits s = true → Py.strip s = s.
Proof.
  intros H. unfold Py.strip. rewrite (lstrip_digits s H).
  rewrite lstrip_digits; [apply rev_rev|].
  unfold String.rev. by apply all_digits_rev_app.
Qed.

Lemma digit_not_sign (c : ascii) (s : string) {A : Type} (x y z : A) :
  Py.is_digit c = true →
  match String c s with
  | String "+"%char _ => x
  | String "-"%char _ => y
  | _ => z
  end = z.
Proof.
  destruct c as [[] [] [] [] [] [] [] []]; try reflexivity;
    vm_compute; discriminate.
Qed.

(** *** Decoding ASCII digits *)

Lemma is_digit_byte (c : ascii) :
  Py.is_digit c = true ↔ (48 ≤ Py.byte c ≤ 57)%N.
Proof.
  unfold Py.is_digit, Py.byte, nat_of_ascii.
  rewrite andb_true_iff, !Nat.leb_le. lia.
Qed.

Lemma digit_val_byte (c : ascii) :
  Py.is_digit c = true → Py.digit_val c = Z.of_N (Py.byte c - 48).
Proof.
  intros H. apply is_digit_byte in H.
  unfold Py.digit_val, Py.byte, nat_of_ascii in *. lia.
Qed.

Lemma decode_cons_ascii (c : ascii) (s : string) :
  (Py.byte c < 128)%N →
  Py.decode (String c s) = Some (Py.byte c) :: Py.decode s.
Proof.
  intros H. cbn [Py.decode].
  by replace (Py.byte c <? 128)%N with true by (symmetry; by apply N.ltb_lt).
Qed.

Lemma decode_nonempty (s : string) : s ≠ EmptyString → Py.decode s ≠ [].
Proof.
  destruct s as [|a s]; [done|]. intros _. cbn [Py.decode].
  repeat case_match; done.
Qed.

Lemma to_decimal_ascii (p : N) :
  (48 ≤ p ≤ 57)%N → Py.to_decimal p = Some (p - 48)%N.
Proof.
  intros H. unfold Py.to_decimal.
  replace ((48 <=? p) && (p <=? 57))%N with true; [done|].
  symmetry. apply andb_true_iff. split; apply N.leb_le; lia.
Qed.

Lemma ascii_of_byte (c : ascii) : ascii_of_N (Py.byte c) = c.
Proof. apply ascii_N_embedding. Qed.

(** A run of ASCII digits decodes to decimal characters and is its own
    ASCII form. *)
Lemma decode_digits (s : string) :
  Py.all_digits s = true →
  forallb Py.is_decimal_char (Py.decode s) = true ∧
  Py.ascii_form (Py.decode s) = s.
Proof.
  induction s as [|c s IH]; [done|]. cbn [Py.all_digits]. intros H.
  apply andb_true_iff in H as [Hc Hs]. apply is_digit_byte in Hc.
  destruct (IH Hs) as [IH1 IH2].
  rewrite decode_cons_ascii by lia. cbn [forallb Py.ascii_form].
  rewrite IH1, IH2. unfold Py.is_decimal_char.
  rewrite to_decimal_ascii by done.
  replace (Py.byte c <? 127)%N with true by (symmetry; apply N.ltb_lt; lia).
  rewrite ascii_of_byte. split; [|done].
  rewrite andb_true_r. apply bool_decide_eq_true_2. by eexists.
Qed.

Lemma decimal_is_digit_char (o : option N) :
  Py.is_decimal_char o = true → Py.is_digit_char o = true.
Proof. unfold Py.is_digit_char. by intros ->. Qed.

Lemma isdecimal_isdigit (s : string) :
  Py.isdecimal s = true → Py.isdigit s = true.
Proof.
  unfold Py.isdecimal, Py.isdigit. destruct (Py.decode s) as [|o ps]; [done|].
  rewrite !forallb_forall. intros H o' Ho'. by apply decimal_is_digit_char, H.
Qed.

Lemma isdecimal_digits (s : string) :
  Py.all_digits s = true → s ≠ EmptyString → Py.isdecimal s = true.
Proof.
  intros H Hs. unfold Py.isdecimal.
  destruct (decode_digits s H) as [Hd _].
  pose proof (decode_nonempty s Hs). by destruct (Py.decode s).
Qed.

(** *** The character tables *)

Lemma in_ranges_elem (t : list (N * N)) (p : N) :
  Py.in_ranges t p = true ↔ ∃ r, r ∈ t ∧ (r.1 ≤ p ≤ r.2)%N.
Proof.
  unfold Py.in_ranges. rewrite existsb_exists. split.
  - intros (r & Hr & Hp). exists r. apply list_elem_of_In in Hr.
    apply andb_true_iff in Hp as [H1 H2]. apply N.leb_le in H1, H2. done.
  - intros (r & Hr & H1 & H2). exists r. split; [by apply list_elem_of_In|].
    apply andb_true_iff. split; by apply N.leb_le.
Qed.

Lemma ranges_above (t : list (N * N)) (lo p : N) :
  forallb (λ r, (lo <=? r.1)%N) t = true →
  Py.in_ranges t p = true → (lo ≤ p)%N.
Proof.
  rewrite forallb_forall. intros Ht Hp.
  apply in_ranges_elem in Hp as (r & Hr & H1 & H2).
  apply list_elem_of_In, Ht, N.leb_le in Hr. lia.
Qed.

Lemma ranges_disjoint (t u : list (N * N)) (p : N) :
  forallb (λ r, forallb (λ q, (r.2 <? q.1) || (q.2 <? r.1))%N u) t = true →
  Py.in_ranges t p = true → Py.in_ranges u p = false.
Proof.
  rewrite forallb_forall. intros Ht Hp.
  apply in_ranges_elem in Hp as (r & Hr & H1 & H2).
  apply list_elem_of_In, Ht in Hr. rewrite forallb_forall in Hr.
  apply not_true_is_false. intros Hu.
  apply in_ranges_elem in Hu as (q & Hq & H3 & H4).
  apply list_elem_of_In, Hr, orb_true_iff in Hq as [Hq|Hq];
    apply N.ltb_lt in Hq; lia.
Qed.

(** What [to_decimal] yields: an ASCII digit, or a character of the
    decimal table. *)
Lemma to_decimal_Some (p d : N) :
  Py.to_decimal p = Some d →
  (d < 10)%N ∧
  ((48 ≤ p ≤ 57)%N ∨ Py.in_ranges Py.decimal_ranges p = true).
Proof.
  unfold Py.to_decimal.
  destruct ((48 <=? p) && (p <=? 57))%N eqn:Ha.
  - intros [= <-]. apply andb_true_iff in Ha as [H1 H2].
    apply N.leb_le in H1, H2. split; [lia|by left].
  - destruct (List.find _ Py.decimal_ranges) as [r|] eqn:Hf; [|done].
    intros [= <-]. split; [apply N.mod_lt; lia|]. right.
    apply find_some in Hf as [Hr Hp].
    unfold Py.in_ranges. apply existsb_exists. by exists r.
Qed.

Lemma to_decimal_None (p : N) :
  Py.to_decimal p = None → Py.in_ranges Py.decimal_ranges p = false.
Proof.
  unfold Py.to_decimal.
  destruct ((48 <=? p) && (p <=? 57))%N; [done|].
  destruct (List.find _ Py.decimal_ranges) as [r|] eqn:Hf; [done|]. intros _.
  apply not_true_is_false. unfold Py.in_ranges. intros Hin.
  apply existsb_exists in Hin as (r & Hr & Hp).
  by rewrite (find_none _ _ Hf r Hr) in Hp.
Qed.

Lemma is_digit_ascii_of (n : N) :
  (48 ≤ n ≤ 57)%N → Py.is_digit (ascii_of_N n) = true.
Proof.
  intros H. apply is_digit_byte. unfold Py.byte.
  rewrite N_ascii_embedding by lia. done.
Qed.

(** In its ASCII form a decimal character is an ASCII digit. *)
Lemma decimal_char_form (o : option N) :
  Py.is_decimal_char o = true →
  ∃ c, Py.is_digit c = true ∧
       ∀ ps, Py.ascii_form (o :: ps) = String c (Py.ascii_form ps).
Proof.
  destruct o as [p|]; [|done]. unfold Py.is_decimal_char.
  intros H. apply bool_decide_eq_true_1 in H as [d Hd].
  destruct (to_decimal_Some p d Hd) as [Hlt [Ha|Ht]].
  - exists (ascii_of_N p). split; [by apply is_digit_ascii_of|].
    intros ps. cbn [Py.ascii_form].
    by replace (p <? 127)%N with true by (symmetry; apply N.ltb_lt; lia).
  - exists (ascii_of_N (48 + d)). split; [apply is_digit_ascii_of; lia|].
    intros ps. cbn [Py.ascii_form].
    assert (127 ≤ p)%N as Hp
      by (apply (ranges_above Py.decimal_ranges); [by vm_compute|done]).
    replace (p <? 127)%N with false by (symmetry; apply N.ltb_ge; lia).
    rewrite (ranges_disjoint Py.decimal_ranges Py.space_ranges p);
      [|by vm_compute|done].
    by rewrite Hd.
Qed.

(** At a digit that is not a decimal digit the ASCII form breaks off. *)
Lemma other_digit_form (o : option N) (ps : list (option N)) :
  Py.is_digit_char o = true → Py.is_decimal_char o = false →
  Py.ascii_form (o :: ps) = String "?"%char EmptyString.
Proof.
  unfold Py.is_digit_char. intros Hd Hn. rewrite Hn in Hd.
  destruct o as [p|]; [|done]. cbn [orb] in Hd. cbn [Py.ascii_form].
  assert (127 ≤ p)%N as Hp
    by (apply (ranges_above Py.digit_ranges); [by vm_compute|done]).
  replace (p <? 127)%N with false by (symmetry; apply N.ltb_ge; lia).
  rewrite (ranges_disjoint Py.digit_ranges Py.space_ranges p);
    [|by vm_compute|done].
  unfold Py.is_decimal_char in Hn. apply bool_decide_eq_false_1 in Hn.
  destruct (Py.to_decimal p) as [d|]; [|done]. destruct Hn. by eexists.
Qed.

Lemma ascii_form_decimal (ps : list (option N)) :
  forallb Py.is_decimal_char ps = true →
  Py.all_digits (Py.ascii_form ps) = true ∧
  (ps ≠ [] → Py.ascii_form ps ≠ EmptyString).
Proof.
  induction ps as [|o ps IH]; [done|]. cbn [forallb]. intros H.
  apply andb_true_iff in H as [Ho Hps].
  destruct (decimal_char_form o Ho) as (c & Hc & Hform).
  rewrite Hform. cbn [Py.all_digits]. rewrite Hc.
  by destruct (IH Hps) as [-> _].
Qed.

Lemma ascii_form_other_digit (ps : list (option N)) :
  forallb Py.is_digit_char ps = true →
  forallb Py.is_decimal_char ps = false →
  ∃ ds, Py.all_digits ds = true ∧
        Py.ascii_form ps = ds +:+ String "?"%char EmptyString.
Proof.
  induction ps as [|o ps IH]; [done|]. cbn [forallb]. intros Hd Hn.
  apply andb_true_iff in Hd as [Ho Hps].
  destruct (Py.is_decimal_char o) eqn:Hdec.
  - destruct (decimal_char_form o Hdec) as (c & Hc & Hform).
    destruct (IH Hps Hn) as (ds & Hds & Heq).
    exists (String c ds). cbn [Py.all_digits]. rewrite Hc, Hds.
    split; [done|]. by rewrite Hform, Heq.
  - exists EmptyString. split; [done|]. by apply other_digit_form.
Qed.

(** *** [int] on digits *)

(** When the ASCII form is a non-empty run of digits, [int] reads them
    from zero. *)
Lemma int_of_digits (s b : string) :
  Py.ascii_form (Py.decode s) = b →
  Py.all_digits b = true → b ≠ EmptyString →
  Py.int s = match Py.int_digits 0 b with
             | Some z => Ok z
             | None => Raise ValueError
             end.
Proof.
  intros Hb H Hne. unfold Py.int. rewrite Hb, (strip_digits _ H).
  destruct b as [|c b]; [done|].
  cbn [Py.all_digits] in H. apply andb_true_iff in H as [Hc _].
  rewrite (digit_not_sign c b _ _ _ Hc).
  cbn [Py.int_unsigned Py.int_digits]. by rewrite Hc.
Qed.

Lemma int_digits_all_digits (s : string) (acc : Z) :
  Py.all_digits s = true → (0 ≤ acc)%Z →
  ∃ z, (0 ≤ z)%Z ∧ Py.int_digits acc s = Some z.
Proof.
  revert acc. induction s as [|c s IH]; intros acc H Hacc.
  - by exists acc.
  - cbn [Py.all_digits] in H. apply andb_true_iff in H as [Hc Hs].
    cbn [Py.int_digits]. rewrite Hc. apply IH; [done|].
    unfold Py.digit_val. lia.
Qed.

(** [int] accepts every string of decimal digits, with a non-negative
    value. *)
Lemma int_isdecimal (s : string) :
  Py.isdecimal s = true → ∃ z, Py.int s = Ok z ∧ (0 ≤ z)%Z.
Proof.
  unfold Py.isdecimal. intros H.
  destruct (Py.decode s) as [|o ps] eqn:Hdec; [done|].
  destruct (ascii_form_decimal (o :: ps) H) as [Hd Hne].
  rewrite (int_of_digits s _ (f_equal Py.ascii_form Hdec) Hd (Hne ltac:(done))).
  destruct (int_digits_all_digits (Py.ascii_form (o :: ps)) 0 Hd)
    as (z & Hz & ->); [lia|]. by exists z.
Qed.

Lemma int_digits_broken (ds : string) (acc : Z) :
  Py.all_digits ds = true →
  Py.int_digits acc (ds +:+ String "?"%char EmptyString) = None.
Proof.
  revert acc. induction ds as [|c ds IH]; intros acc H; [done|].
  cbn [Py.all_digits] in H. apply andb_true_iff in H as [Hc Hds].
  rewrite string_app_cons. cbn [Py.int_digits]. rewrite Hc. by apply IH.
Qed.

(** [int] rejects a string that [isdigit] accepts and [isdecimal] does
    not. *)
Lemma int_other_digit (s : string) :
  Py.isdigit s = true → Py.isdecimal s = false →
  Py.int s = Raise ValueError.
Proof.
  unfold Py.isdigit, Py.isdecimal. intros Hd Hn.
  destruct (Py.decode s) as [|o ps] eqn:Hdec; [done|].
  destruct (ascii_form_other_digit (o :: ps) Hd Hn) as (ds & Hds & Hform).
  unfold Py.int. rewrite Hdec, Hform.
  assert (Py.strip (ds +:+ String "?"%char EmptyString)
          = ds +:+ String "?"%char EmptyString) as ->.
  { unfold Py.strip.
    assert (Py.lstrip (ds +:+ String "?"%char EmptyString)
            = ds +:+ String "?"%char EmptyString) as ->.
    { destruct ds as [|c ds]; [done|]. rewrite string_app_cons.
      cbn [Py.all_digits] in Hds. apply andb_true_iff in Hds as [Hc _].
      cbn [Py.lstrip]. by rewrite digit_not_space. }
    rewrite rev_snoc. cbn [Py.lstrip].
    change (Py.is_space "?"%char) with false. cbn iota.
    rewrite <-rev_snoc. apply rev_rev. }
  destruct ds as [|c ds]; [done|]. rewrite string_app_cons.
  pose proof Hds as Hall.
  cbn [Py.all_digits] in Hds. apply andb_true_iff in Hds as [Hc Hds].
  rewrite (digit_not_sign c (ds +:+ String "?"%char EmptyString) _ _ _ Hc).
  cbn [Py.int_unsigned]. rewrite Hc.
  by rewrite int_digits_broken.
Qed.

Lemma pretty_char_digit (d : N) :
  (d < 10)%N →
  Py.is_digit (pretty_N_char d) = true ∧
  Py.digit_val (pretty_N_char d) = Z.of_N d.
Proof.
  intros Hd.
  assert (d = 0 ∨ d = 1 ∨ d = 2 ∨ d = 3 ∨ d = 4 ∨ d = 5 ∨ d = 6 ∨ d = 7
          ∨ d = 8 ∨ d = 9)%N as Hcases by lia.
  repeat (destruct Hcases as [->|Hcases]; [by split|]). by subst.
Qed.

(** Reading the digits [pretty_N_go] puts in front of [s]. *)
Lemma int_digits_pretty_go (x : N) :
  ∃ k : Z, (0 ≤ k)%Z ∧ ∀ s acc,
    Py.int_digits acc (pretty_N_go x s)
    = Py.int_digits (acc * 10 ^ k + Z.of_N x) s.
Proof.
  induction (N.lt_wf_0 x) as [x _ IH].
  destruct (decide (x = 0%N)) as [->|Hx].
  - exists 0%Z. split; [done|]. intros s acc. rewrite pretty_N_go_0.
    f_equal. lia.
  - destruct (IH (x `div` 10)%N) as (k & Hk & Hgo); [apply N.div_lt; lia|].
    exists (k + 1)%Z. split; [lia|]. intros s acc.
    rewrite pretty_N_go_step by lia. rewrite Hgo.
    destruct (pretty_char_digit (x `mod` 10)%N) as [Hd Hv];
      [apply N.mod_lt; lia|].
    cbn [Py.int_digits]. rewrite Hd, Hv. f_equal.
    rewrite Z.pow_add_r by lia.
    pose proof (N.div_mod x 10). lia.
Qed.

Lemma pretty_go_nonempty (x : N) (s : string) :
  s ≠ EmptyString → pretty_N_go x s ≠ EmptyString.
Proof.
  revert s. induction (N.lt_wf_0 x) as [x _ IH]. intros s Hs.
  destruct (decide (x = 0%N)) as [->|Hx]; [by rewrite pretty_N_go_0|].
  rewrite pretty_N_go_step by lia. apply IH; [apply N.div_lt; lia|done].
Qed.

Lemma str_nonempty (n : nat) : Py.str n ≠ EmptyString.
Proof.
  unfold Py.str, pretty, pretty_nat, pretty, pretty_N.
  case_decide; [done|]. destruct (N.of_nat n) as [|q] eqn:Hq; [done|].
  rewrite pretty_N_go_step by lia. by apply pretty_go_nonempty.
Qed.

Lemma isdecimal_str (n : nat) : Py.isdecimal (Py.str n) = true.
Proof. apply isdecimal_digits; [apply all_digits_str|apply str_nonempty]. Qed.

Lemma isdigit_str (n : nat) : Py.isdigit (Py.str n) = true.
Proof. apply isdecimal_isdigit, isdecimal_str. Qed.

End digits.

Lemma int_str_aux (n : nat) : Py.int (Py.str n) = Ok (Z.of_nat n).
Proof.
  rewrite (int_of_digits (Py.str n) (Py.str n));
    [|apply decode_digits, all_digits_str|apply all_digits_str
     |apply str_nonempty].
  unfold Py.str, pretty, pretty_nat, pretty, pretty_N.
  case_decide as H0.
  - assert (n = 0) as -> by lia. reflexivity.
  - destruct (int_digits_pretty_go (N.of_nat n)) as (k & _ & Hgo).
    rewrite Hgo. cbn [Py.int_digits]. f_equal. lia.
Qed.

(** [int(str(n)) == n]: the layer and expert indices the remapper prints
    into keys are read back by the detection code as the same numbers. *)
Theorem int_str_round_trip (n : nat) : Py.int (Py.str n) = Ok (Z.of_nat n).
Proof. apply int_str_aux. Qed.

(** ** Detection of layers and experts *)

Section detection.

Lemma split_nonempty (sep : ascii) (s : string) : Py.split sep s ≠ [].
Proof.
  induction s as [|c s IH]; [done|]. cbn [Py.split].
  case_decide; [done|]. by destruct (Py.split sep s).
Qed.

(** A separator-free piece followed by the separator is the first
    component. *)
Lemma split_piece (sep : ascii) (piece rest : string) :
  free_of sep piece = true →
  Py.split sep (piece +:+ String sep rest) = piece :: Py.split sep rest.
Proof.
  induction piece as [|c piece IH]; intros Hfree.
  - rewrite string_app_nil. cbn [Py.split]. by rewrite decide_True.
  - cbn [free_of] in Hfree. apply andb_true_iff in Hfree as [Hc Hfree].
    apply negb_true_iff, bool_decide_eq_false in Hc.
    rewrite string_app_cons. cbn [Py.split].
    rewrite decide_False, IH by done. done.
Qed.

Lemma digits_free_of_dot (s : string) :
  Py.all_digits s = true → free_of "."%char s = true.
Proof.
  induction s as [|c s IH]; [done|]. cbn [Py.all_digits free_of].
  intros H. apply andb_true_iff in H as [Hc Hs]. rewrite IH by done.
  rewrite andb_true_r. apply negb_true_iff, bool_decide_eq_false.
  by intros ->.
Qed.

Lemma split_layer_key (i : nat) (s : string) :
  Py.split "."%char (prefix_old i +:+ String "."%char s)
  = "h" :: Py.str i :: Py.split "."%char s.
Proof.
  unfold prefix_old. rewrite string_app_assoc.
  change ("h." +:+ Py.str i +:+ String "."%char s)
    with ("h" +:+ String "."%char (Py.str i +:+ String "."%char s)).
  rewrite split_piece by done.
  by rewrite split_piece by apply digits_free_of_dot, all_digits_str.
Qed.

Lemma startswith_layer_key (i : nat) (s : string) :
  Py.startswith "h." (prefix_old i +:+ s) = true.
Proof. unfold prefix_old. by rewrite string_app_assoc. Qed.

Lemma elem_of_dict_keys (d : gmap string ndarray) (k : string) :
  k ∈ dict_keys d ↔ is_Some (d !! k).
Proof.
  unfold dict_keys. rewrite list_elem_of_fmap. split.
  - intros ([k' w] & -> & Hin). apply elem_of_map_to_list in Hin.
    by eexists.
  - intros [w Hw]. exists (k, w). split; [done|].
    by apply elem_of_map_to_list.
Qed.

Lemma comprehension_elem {A B : Type} (f : A → result B) (l : list A)
    (r : list B) (x : A) :
  Py.comprehension f l = Ok r → x ∈ l → ∃ y, f x = Ok y ∧ y ∈ r.
Proof.
  intros Hc Hx. apply list_elem_of_lookup in Hx as [n Hn].
  destruct (comprehension_lookup f l r n x Hc Hn) as (y & Hy & Hr).
  exists y. split; [done|]. by eapply list_elem_of_lookup_2.
Qed.

Lemma foldl_max_ge (xs : list Z) (x : Z) :
  (x ≤ foldl Z.max x xs)%Z ∧ ∀ y, y ∈ xs → (y ≤ foldl Z.max x xs)%Z.
Proof.
  revert x. induction xs as [|a xs IH]; intros x; cbn [foldl].
  - split; [lia|]. intros y Hy. by apply elem_of_nil in Hy.
  - destruct (IH (Z.max x a)) as [H1 H2]. split; [lia|].
    intros y Hy. apply elem_of_cons in Hy as [->|Hy]; [lia|by apply H2].
Qed.

Lemma max_ge (l : list Z) (m y : Z) : Py.max l = Ok m → y ∈ l → (y ≤ m)%Z.
Proof.
  unfold Py.max. destruct l as [|x xs]; [done|]. intros [= <-] Hy.
  destruct (foldl_max_ge xs x) as [H1 H2].
  apply elem_of_cons in Hy as [->|Hy]; [done|by apply H2].
Qed.

Lemma in_filter_keys (f : string → bool) (l : list string) (k : string) :
  k ∈ List.filter f l ↔ k ∈ l ∧ f k = true.
Proof. by rewrite !list_elem_of_In, filter_In. Qed.

End detection.

(** Every layer that has a key [h.<i>.<...>] in the source is below the
    detected layer count, so the loop over layers reaches it. *)
Theorem keyed_layer_is_counted (sd : gmap string ndarray) (L : Z) (i : nat)
    (s : string) :
  detect_num_layers sd = Ok L →
  is_Some (sd !! (prefix_old i +:+ String "."%char s)) →
  (Z.of_nat i < L)%Z.
Proof.
  intros HL Hk. unfold detect_num_layers in HL.
  assert (prefix_old i +:+ String "."%char s
          ∈ List.filter (Py.startswith "h.") (dict_keys sd)) as Hin.
  { apply in_filter_keys. split; [by apply elem_of_dict_keys|].
    apply startswith_layer_key. }
  destruct (List.filter (Py.startswith "h.") (dict_keys sd)) as [|k0 ks] eqn:Hf;
    [by apply elem_of_nil in Hin|].
  bind_inv HL. injection HL as <-.
  destruct (comprehension_elem _ _ _ _ Ha Hin) as (y & Hy & Hya).
  rewrite split_layer_key in Hy. cbn in Hy.
  rewrite int_str_aux in Hy. injection Hy as <-.
  pose proof (max_ge _ _ _ Ha0 Hya). lia.
Qed.

Lemma keyed_layer_is_counted_witness : (Z.of_nat 0 < 1)%Z.
Proof.
  apply (keyed_layer_is_counted sd_no_embedding 1 0 "ln_1.weight").
  - vm_compute. reflexivity.
  - by_compute.
Defined.

Section expert_detection.

Lemma comprehension_total {A B : Type} (f : A → result B) (P : B → Prop)
    (l : list A) :
  (∀ x, x ∈ l → ∃ y, f x = Ok y ∧ P y) →
  ∃ r, Py.comprehension f l = Ok r ∧ ∀ y, y ∈ r → P y.
Proof.
  induction l as [|x l IH]; intros Hall.
  - exists []. split; [done|]. intros y Hy. by apply elem_of_nil in Hy.
  - destruct (Hall x) as (y & Hy & HPy); [apply list_elem_of_here|].
    destruct IH as (r & Hr & HPr).
    { intros x' Hx'. apply Hall. by apply list_elem_of_further. }
    exists (y :: r). cbn [Py.comprehension]. rewrite Hy, bind_Ok, Hr, bind_Ok.
    split; [done|]. intros z Hz.
    apply elem_of_cons in Hz as [->|Hz]; [done|by apply HPr].
Qed.

Lemma comprehension_raise {A B : Type} (f : A → result B) (l : list A)
    (e : exn) :
  Py.comprehension f l = Raise e → ∃ x, x ∈ l ∧ f x = Raise e.
Proof.
  induction l as [|x l IH]; [done|]. cbn [Py.comprehension].
  destruct (f x) as [y|e'] eqn:Hx.
  - rewrite bind_Ok. destruct (Py.comprehension f l) as [ys|e''] eqn:Hl.
    + by rewrite bind_Ok.
    + rewrite bind_Raise. intros [= ->].
      destruct (IH eq_refl) as (x' & Hx' & Hf). exists x'.
      split; [by apply list_elem_of_further|done].
  - rewrite bind_Raise. intros [= ->]. exists x.
    split; [apply list_elem_of_here|done].
Qed.

(** A key that passed the filter has an index component that [isdigit]
    accepts. *)
Lemma expert_key_index (k : string) :
  is_expert_key k = true →
  ∃ c, Py.split "."%char k !! 4 = Some c ∧ Py.isdigit c = true.
Proof.
  unfold is_expert_key. intros H. apply andb_true_iff in H as [_ H].
  destruct (Py.split "."%char k !! 4) as [c|]; [|done]. by exists c.
Qed.

Lemma int_raises_ValueError (s : string) (e : exn) :
  Py.int s = Raise e → e = ValueError.
Proof. unfold Py.int. case_match; [done|]. by intros [= <-]. Qed.

Lemma contains_app (sub a b : string) :
  Py.startswith sub (sub +:+ b) = true →
  Py.contains sub (a +:+ (sub +:+ b)) = true.
Proof.
  intros Hs. induction a as [|c a IH].
  - rewrite string_app_nil. destruct (sub +:+ b); cbn [Py.contains];
      by rewrite Hs.
  - rewrite string_app_cons. cbn [Py.contains]. rewrite IH.
    apply orb_true_r.
Qed.

Lemma split_expert_key (i j : nat) (s : string) :
  Py.split "."%char (expert_key i j (String "."%char s))
  = "h" :: Py.str i :: "mlp" :: "experts" :: Py.str j :: Py.split "."%char s.
Proof.
  unfold expert_key.
  change (prefix_old i +:+ ".mlp.experts." +:+ Py.str j +:+ String "."%char s)
    with (prefix_old i +:+ String "."%char
            ("mlp" +:+ String "."%char
               ("experts" +:+ String "."%char
                  (Py.str j +:+ String "."%char s)))).
  rewrite split_layer_key. do 2 rewrite split_piece by done.
  by rewrite split_piece by apply digits_free_of_dot, all_digits_str.
Qed.

Lemma is_expert_key_expert_key (i j : nat) (s : string) :
  is_expert_key (expert_key i j (String "."%char s)) = true.
Proof.
  unfold is_expert_key. rewrite split_expert_key. cbn [length lookup list_lookup].
  rewrite isdigit_str, andb_true_r. apply andb_true_iff. split.
  - unfold expert_key.
    change (".mlp.experts." +:+ Py.str j +:+ String "."%char s)
      with ("." +:+ ("mlp.experts." +:+ (Py.str j +:+ String "."%char s))).
    rewrite <-string_app_assoc. by apply contains_app.
  - apply Nat.ltb_lt. destruct (Py.split "."%char s); cbn; lia.
Qed.

End expert_detection.

(** Expert detection never yields a negative count and raises nothing
    but ValueError.  It succeeds exactly when the index component of every
    key that passed the [isdigit] filter is made of decimal digits:
    [isdigit] also accepts digits such as a superscript two, which [int]
    rejects. *)
Theorem detect_num_experts_outcome (sd : gmap string ndarray) :
  (∀ E, detect_num_experts sd = Ok E → (0 ≤ E)%Z) ∧
  (∀ e, detect_num_experts sd = Raise e → e = ValueError) ∧
  (is_ok (detect_num_experts sd) = true
   ↔ ∀ k c, is_Some (sd !! k) → is_expert_key k = true →
            Py.split "."%char k !! 4 = Some c → Py.isdecimal c = true).
Proof.
  unfold detect_num_experts.
  destruct (List.filter is_expert_key (dict_keys sd)) as [|k0 ks] eqn:Hf.
  { split_and!; [by intros E [= <-]|done|]. split; [|done].
    intros _ k c Hk He _.
    assert (k ∈ List.filter is_expert_key (dict_keys sd)) as Hin
      by (apply in_filter_keys; split; [by apply elem_of_dict_keys|done]).
    rewrite Hf in Hin. by apply elem_of_nil in Hin. }
  assert (∀ k, k ∈ k0 :: ks ↔ is_Some (sd !! k) ∧ is_expert_key k = true)
    as Hkeys.
  { intros k. by rewrite <-Hf, in_filter_keys, elem_of_dict_keys. }
  destruct (Py.comprehension _ (k0 :: ks)) as [r|e] eqn:Hr.
  - rewrite bind_Ok.
    pose proof Hr as Hlen. apply comprehension_length in Hlen.
    destruct r as [|z zs]; [done|]. cbn [Py.max]. rewrite bind_Ok.
    assert (∀ k c, is_Some (sd !! k) → is_expert_key k = true →
                   Py.split "."%char k !! 4 = Some c →
                   ∃ y, Py.int c = Ok y ∧ y ∈ z :: zs) as Hparse.
    { intros k c Hk He Hc.
      destruct (comprehension_elem _ _ _ k Hr) as (y & Hy & Hin);
        [by apply Hkeys|].
      unfold Py.getitem in Hy. rewrite Hc, bind_Ok in Hy. by exists y. }
    split_and!; [|done|].
    + intros E [= <-].
      destruct (proj1 (Hkeys k0) (list_elem_of_here _ _)) as [Hk0 He0].
      destruct (expert_key_index k0 He0) as (c & Hc & Hd).
      destruct (Hparse k0 c Hk0 He0 Hc) as (y & Hy & Hin).
      destruct (Py.isdecimal c) eqn:Hdec;
        [|by rewrite (int_other_digit c Hd Hdec) in Hy].
      destruct (int_isdecimal c Hdec) as (y' & Hy' & Hpos).
      assert (y' = y) as -> by congruence.
      pose proof (max_ge (z :: zs) _ y eq_refl Hin). lia.
    + split; [|done]. intros _ k c Hk He Hc.
      destruct (Hparse k c Hk He Hc) as (y & Hy & _).
      destruct (expert_key_index k He) as (c' & Hc' & Hd).
      assert (c' = c) as -> by congruence.
      destruct (Py.isdecimal c) eqn:Hdec; [done|].
      by rewrite (int_other_digit c Hd Hdec) in Hy.
  - rewrite bind_Raise.
    destruct (comprehension_raise _ _ _ Hr) as (k & Hk & Hraise).
    apply Hkeys in Hk as [Hk He].
    destruct (expert_key_index k He) as (c & Hc & Hd).
    unfold Py.getitem in Hraise. rewrite Hc, bind_Ok in Hraise.
    split_and!; [done| |].
    + intros e' [= <-]. by apply int_raises_ValueError in Hraise.
    + split; [done|]. intros Hall.
      destruct (int_isdecimal c (Hall k c Hk He Hc)) as (y & Hy & _).
      congruence.
Qed.

(** A key whose expert index is a superscript two passes the filter and
    stops expert detection. *)
Example detect_num_experts_superscript :
  is_expert_key "h.0.mlp.experts.².w" = true ∧
  detect_num_experts sd_superscript_expert = Raise ValueError.
Proof. split; vm_compute; reflexivity. Qed.

(** Every expert weight [h.<i>.mlp.experts.<j>.<...>] in the source is
    below the detected expert count, so the loop over experts reaches
    it. *)
Theorem keyed_expert_is_counted (sd : gmap string ndarray) (E : Z)
    (i j : nat) (s : string) :
  detect_num_experts sd = Ok E →
  is_Some (sd !! expert_key i j (String "."%char s)) →
  (Z.of_nat j < E)%Z.
Proof.
  intros HE Hk. unfold detect_num_experts in HE.
  assert (expert_key i j (String "."%char s)
          ∈ List.filter is_expert_key (dict_keys sd)) as Hin.
  { apply in_filter_keys. split; [by apply elem_of_dict_keys|].
    apply is_expert_key_expert_key. }
  destruct (List.filter is_expert_key (dict_keys sd)) as [|k0 ks] eqn:Hf;
    [by apply elem_of_nil in Hin|].
  bind_inv HE. injection HE as <-.
  destruct (comprehension_elem _ _ _ _ Ha Hin) as (y & Hy & Hya).
  rewrite split_expert_key in Hy. cbn in Hy.
  rewrite int_str_aux in Hy. injection Hy as <-.
  pose proof (max_ge _ _ _ Ha0 Hya). lia.
Qed.

Lemma keyed_expert_is_counted_witness : (Z.of_nat 2 < 3)%Z.
Proof.
  apply (keyed_expert_is_counted sd_expert_gap 3 0 2 "gate_proj.weight").
  - vm_compute. reflexivity.
  - by_compute.
Defined.

(** ** No destination key is written twice *)

Section counting.

Context (sd : gmap string ndarray).
Implicit Types (st : acc) (k : string).

Lemma store_counted new w st :
  st.1 !! new = None → counted st → counted (store new w st).
Proof.
  unfold counted, store. intros Hnew Hc. cbn [fst snd].
  rewrite map_size_insert_None by done. by rewrite Hc.
Qed.

Lemma copy_counted old new st :
  st.1 !! new = None → counted st →
  counted (copy_if_present sd old new st).
Proof.
  unfold copy_if_present. intros. destruct (sd !! old); [|done].
  by apply store_counted.
Qed.

Lemma remap_norms_counted i st :
  (∀ k, layer_key i k → st.1 !! k = None) → counted st →
  counted (remap_norms sd i st).
Proof.
  intros Hfresh Hc. unfold remap_norms, simple_attn_mappings.
  cbn [foldl fst snd].
  repeat first [ apply store_counted | apply copy_counted ]; try done;
    repeat first [ rewrite store_lookup_ne by key_neq
                 | rewrite copy_lookup_ne by key_neq ];
    apply Hfresh, layer_key_intro.
Qed.

Lemma remap_kv_a_counted i st st' :
  remap_kv_a sd i st = Ok st' →
  st.1 !! (prefix_new i +:+ ".self_attn.kv_a_proj_with_mqa.weight") = None →
  counted st → counted st'.
Proof.
  unfold remap_kv_a. intros H Hnew Hc.
  repeat case_match; try (by injection H as <-).
  bind_inv H. injection H as <-. by apply store_counted.
Qed.

Lemma remap_kv_b_counted i st st' :
  remap_kv_b sd i st = Ok st' →
  st.1 !! (prefix_new i +:+ ".self_attn.kv_b_proj.weight") = None →
  counted st → counted st'.
Proof.
  unfold remap_kv_b. intros H Hnew Hc.
  repeat case_match; try (by injection H as <-).
  bind_inv H. injection H as <-. by apply store_counted.
Qed.

Lemma remap_gate_counted E i st st' :
  remap_gate sd E i st = Ok st' →
  st.1 !! (prefix_new i +:+ ".self_attn.o_proj.weight") = None →
  st.1 !! (prefix_new i +:+ ".mlp.gate.weight") = None →
  st.1 !! (prefix_new i +:+ ".mlp.gate.e_score_correction_bias") = None →
  counted st → counted st'.
Proof.
  unfold remap_gate. intros H Ho Hg Hb Hc. bind_inv H. injection H as <-.
  repeat first [ apply store_counted | apply copy_counted ]; try done;
    repeat first [ rewrite store_lookup_ne by key_neq
                 | rewrite copy_lookup_ne by key_neq ];
    done.
Qed.

Lemma stack_if_any_counted new lst st st' :
  stack_if_any new lst st = Ok st' →
  st.1 !! new = None → counted st → counted st'.
Proof.
  unfold stack_if_any. intros H Hnew Hc. destruct lst; [by injection H as <-|].
  bind_inv H. injection H as <-. by apply store_counted.
Qed.

Lemma remap_experts_counted E U i st st' :
  remap_experts sd E U i st = Ok st' →
  st.1 !! (prefix_new i +:+ ".mlp.switch_mlp.gate_proj.weight") = None →
  st.1 !! (prefix_new i +:+ ".mlp.switch_mlp.up_proj.weight") = None →
  st.1 !! (prefix_new i +:+ ".mlp.switch_mlp.down_proj.weight") = None →
  counted st → counted st'.
Proof.
  intros H Hg Hu Hd Hc.
  apply remap_experts_inv in H
    as (wte & Hh & gs & us & ds & s1 & s2 & _ & _ & _ & _ & _ & H1 & H2 & H3).
  eapply stack_if_any_counted; [exact H3| |].
  { by repeat back_step key_neq. }
  eapply stack_if_any_counted; [exact H2| |].
  { by repeat back_step key_neq. }
  by eapply stack_if_any_counted.
Qed.

Lemma copy_shared_expert_counted i st st' :
  copy_shared_expert sd i st = Ok st' →
  st.1 !! (prefix_new i +:+ ".mlp.shared_experts.gate_proj.weight") = None →
  st.1 !! (prefix_new i +:+ ".mlp.shared_experts.up_proj.weight") = None →
  st.1 !! (prefix_new i +:+ ".mlp.shared_experts.down_proj.weight") = None →
  counted st → counted st'.
Proof.
  unfold copy_shared_expert. intros H Hg Hu Hd Hc.
  case_match; [|by injection H as <-].
  bind_inv H. injection H as <-. unfold counted in *. cbn [fst snd].
  rewrite !map_size_insert_None; [lia|..];
    repeat rewrite lookup_insert_ne by key_neq; done.
Qed.

Lemma remap_layer_counted E U st i st' :
  remap_layer sd E U st i = Ok st' →
  (∀ k, layer_key i k → st.1 !! k = None) → counted st → counted st'.
Proof.
  intros H Hfresh Hc.
  apply remap_layer_inv in H as (s1 & s2 & s3 & s4 & H1 & H2 & H3 & H4 & H5).
  eapply copy_shared_expert_counted; [exact H5|..];
    try (repeat back_step key_neq; apply Hfresh, layer_key_intro).
  eapply remap_experts_counted; [exact H4|..];
    try (repeat back_step key_neq; apply Hfresh, layer_key_intro).
  eapply remap_gate_counted; [exact H3|..];
    try (repeat back_step key_neq; apply Hfresh, layer_key_intro).
  eapply remap_kv_b_counted; [exact H2|..];
    try (repeat back_step key_neq; apply Hfresh, layer_key_intro).
  eapply remap_kv_a_counted; [exact H1|..];
    try (repeat back_step key_neq; apply Hfresh, layer_key_intro).
  by apply remap_norms_counted.
Qed.

Lemma layers_fold_counted E U n a st st' :
  foldM (remap_layer sd E U) (seq a n) st = Ok st' →
  (∀ j k, a ≤ j → layer_key j k → st.1 !! k = None) →
  counted st → counted st'.
Proof.
  revert a st. induction n as [|n IH]; intros a st H Hfresh Hc.
  - by injection H as <-.
  - cbn [seq foldM] in H. apply bind_Ok_inv in H as (s1 & Hl & H).
    apply (IH (S a) s1 H).
    + intros j k Hj Hk. rewrite (remap_layer_frame _ _ _ _ _ _ _ Hl).
      * apply (Hfresh j); [lia|done].
      * intros Hk'. pose proof (layer_key_inj _ _ _ Hk Hk'). lia.
    + eapply remap_layer_counted; [exact Hl| |done].
      intros k Hk. by apply (Hfresh a).
Qed.

End counting.

(** On a completed run [mapped_count] equals [len(mlx_weights)]: every
    translation that fires writes a destination key that no earlier
    translation wrote. *)
Theorem mapped_count_is_size (sd : gmap string ndarray) (p : plan) :
  remap_plan sd = Ok p →
  p_mapped_count p = size (p_mlx_weights p).
Proof.
  intros Hp.
  apply remap_plan_inv in Hp as (_ & _ & _ & _ & _ & Hnames & _).
  unfold remap_names in Hnames.
  apply bind_Ok_inv in Hnames as (s1 & Hf & Hnames).
  injection Hnames as Hm.
  assert (counted (p_mlx_weights p, p_mapped_count p)) as Hc; [|by symmetry].
  rewrite <-Hm. unfold Py.range in Hf.
  pose proof (layers_fold_spec _ _ _ _ _ _ _ Hf) as [Hout _].
  assert (∀ k, (copy_if_present sd "wte.weight" "model.embed_tokens.weight"
                  (∅, 0)).1 !! k ≠ None → k = "model.embed_tokens.weight")
    as H0.
  { intros k. unfold copy_if_present. destruct (sd !! "wte.weight"); [|done].
    destruct (decide (k = "model.embed_tokens.weight")) as [|Hne]; [done|].
    by rewrite store_lookup_ne by done. }
  apply copy_counted.
  { rewrite copy_lookup_ne by done.
    rewrite Hout by (intros; apply lm_head_not_layer_key).
    destruct (_ !! "lm_head.weight") eqn:Hlk; [|done].
    by assert ("lm_head.weight" = "model.embed_tokens.weight")
      by (apply H0; by rewrite Hlk). }
  apply copy_counted.
  { rewrite Hout by (intros; apply norm_not_layer_key).
    destruct (_ !! "model.norm.weight") eqn:Hlk; [|done].
    by assert ("model.norm.weight" = "model.embed_tokens.weight")
      by (apply H0; by rewrite Hlk). }
  eapply layers_fold_counted; [exact Hf| |].
  - intros j k _ Hk.
    destruct (_ !! k) eqn:Hlk; [|done]. exfalso.
    assert (k = "model.embed_tokens.weight") as ->
      by (apply H0; by rewrite Hlk).
    by apply (embed_not_layer_key j).
  - by apply copy_counted.
Qed.

Lemma mapped_count_is_size_witness :
  ∃ p, remap_plan sd_complete = Ok p ∧ p_mapped_count p = 20.
Proof.
  assert (is_ok (remap_plan sd_complete) = true) as Hok
    by (vm_compute; reflexivity).
  apply is_ok_inv in Hok as [p Hp]. exists p. split; [exact Hp|].
  rewrite (mapped_count_is_size sd_complete p Hp). on_result Hp.
Defined.

(** ** Layer detection on numeric keys *)

(** Layer detection succeeds with a non-negative count whenever the
    second component of every key under [h.] is a non-empty run of decimal
    digits ([str.isdecimal()], which holds of every run of ASCII digits);
    with no key under [h.] the count is 0. *)
Theorem detect_num_layers_on_numeric_keys (sd : gmap string ndarray) :
  (∀ k, is_Some (sd !! k) → Py.startswith "h." k = true →
        ∃ c, Py.split "."%char k !! 1 = Some c ∧ Py.isdecimal c = true) →
  ∃ L, detect_num_layers sd = Ok L ∧ (0 ≤ L)%Z ∧
       ((∀ k, is_Some (sd !! k) → Py.startswith "h." k = false) → L = 0%Z).
Proof.
  intros Hnum. unfold detect_num_layers.
  destruct (List.filter (Py.startswith "h.") (dict_keys sd)) as [|k0 ks] eqn:Hf.
  { exists 0%Z. by split_and!. }
  destruct (comprehension_total
              (λ k, c ← Py.getitem (Py.split "."%char k) 1; Py.int c)
              (λ z, (0 ≤ z)%Z) (k0 :: ks)) as (r & Hr & Hpos).
  { intros k Hk. rewrite <-Hf in Hk. apply in_filter_keys in Hk as [Hk Hh].
    apply elem_of_dict_keys in Hk.
    destruct (Hnum k Hk Hh) as (c & Hc & Hd).
    unfold Py.getitem. rewrite Hc, bind_Ok. by apply int_isdecimal. }
  rewrite Hr, bind_Ok.
  pose proof Hr as Hlen. apply comprehension_length in Hlen.
  destruct r as [|z zs]; [done|]. cbn [Py.max]. rewrite bind_Ok.
  eexists. split; [done|].
  destruct (foldl_max_ge zs z) as [Hz _].
  specialize (Hpos z (list_elem_of_here _ _)). split; [lia|].
  intros Hnone. exfalso.
  assert (k0 ∈ List.filter (Py.startswith "h.") (dict_keys sd)) as Hin
    by (rewrite Hf; apply list_elem_of_here).
  apply in_filter_keys in Hin as [Hk Hh]. apply elem_of_dict_keys in Hk.
  rewrite (Hnone k0 Hk) in Hh. discriminate.
Qed.

Lemma detect_num_layers_on_numeric_keys_witness :
  ∃ L, detect_num_layers sd_shared_up_only = Ok L ∧ (0 ≤ L)%Z.
Proof.
  destruct (detect_num_layers_on_numeric_keys sd_shared_up_only)
    as (L & HL & Hpos & _).
  - intros k Hk Hh.
    assert (k = "wte.weight" ∨ k = "h.0.mlp.shared_expert.up_proj.weight")
      as [->| ->].
    { destruct Hk as [w Hw]. unfold sd_shared_up_only in Hw.
      apply lookup_insert_Some in Hw as [[<- _]|[_ Hw]]; [by left|].
      apply lookup_singleton_Some in Hw as [<- _]. by right. }
    + discriminate.
    + exists "0". split; reflexivity.
  - exists L. split; [exact HL|exact Hpos].
Defined.

(** ** What a run leaves on disk *)

(** A completed run writes the weights, then the config, then the
    metadata.  The new config holds the unified size and one shared expert
    and is otherwise the old config, field for field; the metadata counts
    the destination tensors and records the sizes the padding used. *)
Theorem completed_run_outputs (input_path : string)
    (sd : gmap string ndarray) (config : gmap string jvalue)
    (written : list output) :
  remap_weights input_path (Some sd) (Holds (JDict config))
    = (written, Ok ()) →
  ∃ p config' md,
    remap_plan sd = Ok p ∧
    written = [WeightsFile (p_mlx_weights p); ConfigFile config';
               MetadataFile md] ∧
    config' !! "moe_intermediate_size"
      = Some (JInt (Z.of_nat (p_unified_size p))) ∧
    config' !! "n_shared_experts" = Some (JInt 1) ∧
    (∀ k, k ≠ "moe_intermediate_size" → k ≠ "n_shared_experts" →
          config' !! k = config !! k) ∧
    source_file md = input_path ∧
    total_weights md = size (p_mlx_weights p) ∧
    unified_intermediate_size md
      = Nat.max (routed_intermediate_size md) (shared_intermediate_size md).
Proof.
  unfold remap_weights. intros H.
  destruct (remap_plan sd) as [p|e] eqn:Hp; [|done].
  injection H as <-.
  eexists p, _, _. split_and!; [done|reflexivity|..].
  - rewrite lookup_insert_ne by done. apply lookup_insert_eq.
  - apply lookup_insert_eq.
  - intros k H1 H2. by rewrite !lookup_insert_ne by done.
  - done.
  - done.
  - cbn. by apply remap_plan_inv in Hp as (_ & _ & _ & _ & ? & _).
Qed.

Lemma completed_run_outputs_witness :
  ∃ written, remap_weights "weights.pt" (Some sd_complete)
               (Holds (JDict {[ "hidden_size" := JInt 1 ]}))
             = (written, Ok ()) ∧
             length written = 3.
Proof.
  assert (is_ok (remap_plan sd_complete) = true) as Hok
    by (vm_compute; reflexivity).
  apply is_ok_inv in Hok as [p Hp].
  assert (∃ written,
            remap_weights "weights.pt" (Some sd_complete)
              (Holds (JDict {[ "hidden_size" := JInt 1 ]}))
            = (written, Ok ()))
    as [written H].
  { unfold remap_weights. rewrite Hp. by eexists. }
  exists written. split; [exact H|].
  destruct (completed_run_outputs _ _ _ _ H)
    as (p' & c' & md & _ & -> & _).
  reflexivity.
Defined.

(** ** Omissions surface in the verifier *)

(** On a completed run checked with the same layer count and shared
    experts enabled, every guarded per-layer copy whose source key is
    absent puts its destination key in the verifier's report: the silent
    omission is caught downstream. *)
Theorem absent_source_is_reported (sd : gmap string ndarray) (p : plan)
    (n_shared : Z) (i : nat) (old new : string) :
  remap_plan sd = Ok p → (0 < n_shared)%Z →
  (Z.of_nat i < p_num_layers p)%Z →
  (old, new) ∈ identity_layer i → sd !! old = None →
  new ∈ verify_missing (p_num_layers p) n_shared (p_mlx_weights p).
Proof.
  intros Hp Hn Hi Hin Hold.
  rewrite verify_missing_filter_eq. apply in_filter_keys. split.
  - unfold required_keys. apply elem_of_app. right. apply elem_of_app. left.
    apply list_elem_of_In, in_flat_map. exists i. split.
    { apply in_seq. lia. }
    apply list_elem_of_In. unfold layer_required.
    fold (prefix_new i).
    destruct (Z.ltb_spec 0 n_shared) as [_|]; [|lia]. cbn [app].
    unfold identity_layer in Hin.
    repeat (apply elem_of_cons in Hin as [[= -> ->]|Hin]);
      [..|by apply elem_of_nil in Hin]; in_list.
  - apply bool_decide_eq_true_2.
    rewrite (proj2 (guarded_copy_mirror_aux sd p Hp) i old new) by done.
    done.
Qed.

Lemma absent_source_is_reported_witness :
  ∃ p, remap_plan sd_shared_up_only = Ok p ∧
       prefix_new 0 +:+ ".self_attn.o_proj.weight"
       ∈ verify_missing (p_num_layers p) 1 (p_mlx_weights p).
Proof.
  assert (is_ok (remap_plan sd_shared_up_only) = true) as Hok
    by (vm_compute; reflexivity).
  apply is_ok_inv in Hok as [p Hp]. exists p. split; [exact Hp|].
  assert (p_num_layers p = 1%Z) as HL by on_result Hp.
  apply (absent_source_is_reported sd_shared_up_only p 1 0
           (prefix_old 0 +:+ ".attn.o_proj.weight")).
  - exact Hp.
  - reflexivity.
  - rewrite HL. reflexivity.
  - unfold identity_layer. in_list.
  - by_compute.
Defined.
